(** * Role checks and data scoping of the storage layer (server/storage.ts)

    A shallow embedding of [DatabaseStorage]: every method is a computation
    in a state-and-exception monad over the relational store.  A table is the
    list of its rows; a drizzle query is the list operation it denotes
    ([select]/[update]/[delete]/[insert] with a [where] predicate).

    The checks the database engine makes on a write are part of the model:
    the declared lengths, the numeric precision, the date column, the unique
    columns, the foreign keys and what a delete does to referencing rows.
    Three things are narrower than the engine.  Text is a sequence of 8-bit
    characters, and a value longer than its column is refused also when the
    excess is blank.  A day is read in the form YYYY-MM-DD only, and the date
    bounds of a query are compared as such text.  The identifiers of
    [gen_random_uuid()] are not checked against the keys in use.
    [ORDER BY] on text columns is byte-wise comparison.

    Outside the model: console logging ([storageLog], [console.log]). *)

From Stdlib Require Import String List Bool ZArith Lia Permutation DecimalString Sorted.
Import ListNotations.
Open Scope string_scope.
Open Scope list_scope.

(** ** Schema (shared/schema.ts) *)

Definition Timestamp := Z.

Module User.
Record t := mk {
  id : string;
  email : option string;
  firstName : option string;
  lastName : option string;
  profileImageUrl : option string;
  role : option string;
  isActive : option bool;
  lastLoginAt : option Timestamp;
  createdAt : option Timestamp;
  updatedAt : option Timestamp }.
End User.

Module Project.
Record t := mk {
  id : string;
  name : string;
  projectNumber : option string;
  description : option string;
  color : option string;
  startDate : option Timestamp;
  endDate : option Timestamp;
  isEnterpriseWide : bool;
  userId : string;
  createdAt : option Timestamp;
  updatedAt : option Timestamp }.
End Project.

Module Task.
Record t := mk {
  id : string;
  projectId : string;
  name : string;
  description : option string;
  status : string;
  createdAt : option Timestamp;
  updatedAt : option Timestamp }.
End Task.

Module TimeEntry.
(** [date] is an ISO day, [duration] is in hundredths of an hour
    (the column is decimal(5,2)). *)
Record t := mk {
  id : string;
  userId : string;
  projectId : string;
  taskId : option string;
  description : option string;
  date : string;
  startTime : string;
  endTime : string;
  duration : Z;
  createdAt : option Timestamp;
  updatedAt : option Timestamp }.
End TimeEntry.

Module Employee.
Record t := mk {
  id : string;
  employeeId : string;
  firstName : string;
  lastName : string;
  department : string;
  userId : string;
  createdAt : option Timestamp;
  updatedAt : option Timestamp }.
End Employee.

Module ProjectEmployee.
Record t := mk {
  id : string;
  projectId : string;
  employeeId : string;
  userId : string;
  createdAt : option Timestamp }.
End ProjectEmployee.

Module Organization.
Record t := mk {
  id : string;
  name : string;
  description : option string;
  userId : string;
  createdAt : option Timestamp;
  updatedAt : option Timestamp }.
End Organization.

Module Department.
Record t := mk {
  id : string;
  name : string;
  organizationId : string;
  managerId : option string;
  description : option string;
  userId : string;
  createdAt : option Timestamp;
  updatedAt : option Timestamp }.
End Department.

(** Insert shapes.  An optional key is [None] when absent; a nullable column
    behind an optional key is [Some None] when the caller passes null. *)

Module InsertProject.
Record t := mk {
  name : string;
  projectNumber : option (option string);
  description : option (option string);
  color : option (option string);
  startDate : option Timestamp;
  endDate : option Timestamp;
  isEnterpriseWide : option bool;
  userId : string }.
End InsertProject.

Module PartialInsertProject.
Record t := mk {
  name : option string;
  projectNumber : option (option string);
  description : option (option string);
  color : option (option string);
  startDate : option Timestamp;
  endDate : option Timestamp;
  isEnterpriseWide : option bool;
  userId : option string }.
End PartialInsertProject.

Module InsertTask.
Record t := mk {
  projectId : string;
  name : string;
  description : option (option string);
  status : option string }.
End InsertTask.

Module PartialInsertTask.
Record t := mk {
  projectId : option string;
  name : option string;
  description : option (option string);
  status : option string }.
End PartialInsertTask.

Module InsertTimeEntry.
Record t := mk {
  userId : string;
  projectId : string;
  taskId : option string;
  description : option (option string);
  date : string;
  startTime : string;
  endTime : string;
  duration : Z }.
End InsertTimeEntry.

Module PartialInsertTimeEntry.
Record t := mk {
  userId : option string;
  projectId : option string;
  taskId : option string;
  description : option (option string);
  date : option string;
  startTime : option string;
  endTime : option string;
  duration : option Z }.
End PartialInsertTimeEntry.

Module PartialInsertEmployee.
Record t := mk {
  employeeId : option string;
  firstName : option string;
  lastName : option string;
  department : option string;
  userId : option string }.
End PartialInsertEmployee.

Module PartialInsertOrganization.
Record t := mk {
  name : option string;
  description : option (option string);
  userId : option string }.
End PartialInsertOrganization.

Module PartialInsertDepartment.
Record t := mk {
  name : option string;
  organizationId : option string;
  managerId : option (option string);
  description : option (option string);
  userId : option string }.
End PartialInsertDepartment.

Module Filters.
(** The optional [filters] argument of [getTimeEntries]. *)
Record t := mk {
  projectId : option string;
  taskId : option string;
  startDate : option string;
  endDate : option string;
  limit : option nat;
  offset : option nat }.
End Filters.

Module TimeEntryWithProject.
Record t := mk {
  entry : TimeEntry.t;
  project : Project.t;
  task : option Task.t }.
End TimeEntryWithProject.

Module DashboardStats.
(** Hours are in hundredths, as the stored durations are. *)
Record t := mk {
  todayHours : Z;
  weekHours : Z;
  monthHours : Z;
  activeProjects : nat }.
End DashboardStats.

Module ProjectBreakdown.
Record t := mk {
  project : Project.t;
  totalHours : Z;
  percentage : Z }.
End ProjectBreakdown.

Module DepartmentHours.
Record t := mk {
  departmentId : string;
  departmentName : string;
  totalHours : Z;
  employeeCount : nat }.
End DepartmentHours.

Module ProjectWithEmployees.
Record t := mk {
  project : Project.t;
  assignedEmployees : list Employee.t }.
End ProjectWithEmployees.

Module UpsertUser.
  (** [typeof users.$inferInsert]: every key is optional. *)
Record t := mk {
  id : option string;
  email : option (option string);
  firstName : option (option string);
  lastName : option (option string);
  profileImageUrl : option (option string);
  role : option (option string);
  isActive : option (option bool);
  lastLoginAt : option (option Timestamp);
  createdAt : option (option Timestamp);
  updatedAt : option (option Timestamp) }.
End UpsertUser.

Module InsertEmployee.
Record t := mk {
  employeeId : string;
  firstName : string;
  lastName : string;
  department : string;
  userId : string }.
End InsertEmployee.

Module InsertOrganization.
Record t := mk {
  name : string;
  description : option (option string);
  userId : string }.
End InsertOrganization.

Module InsertDepartment.
Record t := mk {
  name : string;
  organizationId : string;
  managerId : option (option string);
  description : option (option string);
  userId : string }.
End InsertDepartment.

Module DepartmentWithManager.
Record t := mk {
  department : Department.t;
  manager : option Employee.t;
  organization : option Organization.t }.
End DepartmentWithManager.

Module OrganizationWithDepartments.
Record t := mk {
  organization : Organization.t;
  departments : list DepartmentWithManager.t }.
End OrganizationWithDepartments.

Module EmployeeRef.
Record t := mk {
  id : string;
  firstName : option string;
  lastName : option string;
  email : option string }.
End EmployeeRef.

Module TaskRef.
Record t := mk {
  id : string;
  name : string;
  description : option string;
  status : string }.
End TaskRef.

Module ProjectTimeEntry.
  (** A row of [getTimeEntriesForProject]. *)
Record t := mk {
  id : string;
  duration : Z;
  description : option string;
  date : string;
  createdAt : option Timestamp;
  userId : string;
  taskId : option string;
  employee : option EmployeeRef.t;
  task : option TaskRef.t }.
End ProjectTimeEntry.

(** ** The store *)

Record Db := mkDb {
  usersRows : list User.t;
  projectsRows : list Project.t;
  tasksRows : list Task.t;
  timeEntriesRows : list TimeEntry.t;
  employeesRows : list Employee.t;
  projectEmployeesRows : list ProjectEmployee.t;
  departmentsRows : list Department.t;
  organizationsRows : list Organization.t;
  uuidCount : nat }.

(** ** Async methods as state-and-exception computations *)

Inductive Res (A : Type) : Type :=
| Ok (value : A) (db : Db)
| Err (message : string) (db : Db).
Arguments Ok {A} _ _.
Arguments Err {A} _ _.

Definition M (A : Type) : Type := Db -> Res A.

Definition ret {A} (a : A) : M A := fun db => Ok a db.

Definition bind {A B} (c : M A) (k : A -> M B) : M B :=
  fun db => match c db with
            | Ok a db' => k a db'
            | Err m db' => Err m db'
            end.

(** [throw new Error(message)] *)
Definition throw {A} (message : string) : M A := fun db => Err message db.

(** [try { body } catch (error) { handler }] *)
Definition tryCatch {A} (body : M A) (handler : string -> M A) : M A :=
  fun db => match body db with
            | Ok a db' => Ok a db'
            | Err m db' => handler m db'
            end.

Declare Scope storage_scope.
Delimit Scope storage_scope with storage.
Notation "x <- c ;; k" := (bind c (fun x => k))
  (at level 61, c at next level, right associativity) : storage_scope.
Notation "c ;;; k" := (bind c (fun _ => k))
  (at level 61, right associativity) : storage_scope.
Open Scope storage_scope.

(** The value and the final store of a run. *)
Definition stateOf {A} (r : Res A) : Db :=
  match r with Ok _ db => db | Err _ db => db end.

Definition mapState {A} (f : Db -> Db) (r : Res A) : Res A :=
  match r with Ok a db => Ok a (f db) | Err m db => Err m (f db) end.

(** ** JavaScript helpers *)

(** [a || fallback] on a possibly missing string: the empty string is falsy. *)
Definition orElse (a : option string) (fallback : string) : string :=
  match a with
  | Some s => if s =? "" then fallback else s
  | None => fallback
  end.

(** Truthiness of an optional string argument. *)
Definition truthy (a : option string) : bool :=
  match a with
  | Some s => negb (s =? "")
  | None => false
  end.

(** [list.includes(x)] *)
Definition includes (l : list string) (x : string) : bool :=
  existsb (String.eqb x) l.

(** [{...patch}] on one key: a present key replaces the old value. *)
Definition spread {A} (patch : option A) (old : A) : A :=
  match patch with Some v => v | None => old end.

(** The same on a nullable timestamp column, whose key carries no null. *)
Definition spreadSome {A} (patch : option A) (old : option A) : option A :=
  match patch with Some v => Some v | None => old end.

(** [a.innerJoin(b, on)] and [a.leftJoin(b, on)] on row lists. *)
Definition innerJoin {A B} (on : A -> B -> bool) (l : list A) (r : list B)
  : list (A * B) :=
  flat_map (fun a => map (pair a) (filter (on a) r)) l.

Definition leftJoin {A B} (on : A -> B -> bool) (l : list A) (r : list B)
  : list (A * option B) :=
  flat_map (fun a => match filter (on a) r with
                     | [] => [(a, None)]
                     | matches => map (fun b => (a, Some b)) matches
                     end) l.

(** [and(...conditions)] *)
Definition and_ {R} (conditions : list (R -> bool)) : R -> bool :=
  fun r => forallb (fun c => c r) conditions.

(** [or(a, b)] *)
Definition or_ {R} (a b : R -> bool) : R -> bool := fun r => a r || b r.

(** [.where(undefined)] keeps every row. *)
Definition noCondition {R} : R -> bool := fun _ => true.

(** Column orders.  Ascending puts NULL last, descending puts it first. *)
Definition ascText (a b : string) : bool := String.leb a b.
Definition descText (a b : string) : bool := String.leb b a.

Definition ascNullsLast (a b : option Z) : bool :=
  match a, b with
  | _, None => true
  | None, Some _ => false
  | Some x, Some y => (x <=? y)%Z
  end.
Definition descNullsFirst (a b : option Z) : bool := ascNullsLast b a.

(** Two sort keys: the second decides among rows equal on the first. *)
Definition thenBy {R} (eq1 le1 le2 : R -> R -> bool) : R -> R -> bool :=
  fun a b => if eq1 a b then le2 a b else le1 a b.

(** ** The checks of the database engine (shared/schema.ts)

    The schema declares column lengths, a numeric precision, a date column,
    unique columns and foreign keys.  The engine refuses a statement that
    breaks one of them, with an error the storage methods let through, and
    leaves the store as the statement found it. *)

Inductive Violation : Type :=
| ValueTooLong (limit : nat)
| NumericOverflow
| InvalidDate (text : string)
| DateOutOfRange (text : string)
| Duplicate (name : string)
| ForeignKey (table name : string)
| StillReferenced (table name referencing : string).

(** The engine puts names and rejected text between quotation marks. *)
Definition quoted (text : string) : string :=
  String (Ascii.ascii_of_nat 34)
    (text ++ String (Ascii.ascii_of_nat 34) EmptyString).

(** The engine's message. *)
Definition message (v : Violation) : string :=
  match v with
  | ValueTooLong limit =>
      "value too long for type character varying("
      ++ NilEmpty.string_of_uint (Nat.to_uint limit) ++ ")"
  | NumericOverflow => "numeric field overflow"
  | InvalidDate text => "invalid input syntax for type date: " ++ quoted text
  | DateOutOfRange text => "date/time field value out of range: " ++ quoted text
  | Duplicate name =>
      "duplicate key value violates unique constraint " ++ quoted name
  | ForeignKey table name =>
      "insert or update on table " ++ quoted table
      ++ " violates foreign key constraint " ++ quoted name
  | StillReferenced table name referencing =>
      "update or delete on table " ++ quoted table
      ++ " violates foreign key constraint " ++ quoted name
      ++ " on table " ++ quoted referencing
  end.

Definition unless (ok : bool) (v : Violation) : option Violation :=
  if ok then None else Some v.

Fixpoint firstViolation (checks : list (option Violation)) : option Violation :=
  match checks with
  | [] => None
  | Some v :: _ => Some v
  | None :: rest => firstViolation rest
  end.

(** varchar(limit): the length is counted in characters. *)
Definition varchar (limit : nat) (text : string) : option Violation :=
  unless (String.length text <=? limit)%nat (ValueTooLong limit).

Definition varcharNullable (limit : nat) (text : option string)
  : option Violation :=
  match text with Some s => varchar limit s | None => None end.

(** decimal(5,2) on hundredths: at most three digits before the point. *)
Definition decimal_5_2 (hundredths : Z) : option Violation :=
  unless (Z.abs hundredths <=? 99999)%Z NumericOverflow.

(** The [date] column.  The stores of this model hold ISO days, so the model
    reads a day in the form YYYY-MM-DD only. *)
Definition digit (c : Ascii.ascii) : option nat :=
  let n := Ascii.nat_of_ascii c in
  if ((48 <=? n) && (n <=? 57))%nat then Some (n - 48) else None.

Definition twoDigits (a b : Ascii.ascii) : option nat :=
  match digit a, digit b with
  | Some x, Some y => Some (10 * x + y)
  | _, _ => None
  end.

Definition leapYear (y : nat) : bool :=
  ((y mod 4 =? 0) && (negb (y mod 100 =? 0) || (y mod 400 =? 0)))%nat.

Definition daysIn (year month : nat) : nat :=
  match month with
  | 2 => if leapYear year then 29 else 28
  | 4 | 6 | 9 | 11 => 30
  | _ => 31
  end.

Definition isDash (c : Ascii.ascii) : bool := (Ascii.nat_of_ascii c =? 45)%nat.

Definition dateInput (text : string) : option Violation :=
  match text with
  | String y1 (String y2 (String y3 (String y4 (String dash1
      (String m1 (String m2 (String dash2 (String d1 (String d2
         EmptyString))))))))) =>
      match twoDigits y1 y2, twoDigits y3 y4, twoDigits m1 m2, twoDigits d1 d2 with
      | Some century, Some years, Some month, Some day =>
          if negb (isDash dash1 && isDash dash2)
          then Some (InvalidDate text)
          else
            let year := 100 * century + years in
            unless ((1 <=? year) && (1 <=? month) && (month <=? 12)
                    && (1 <=? day) && (day <=? daysIn year month))%nat
              (DateOutOfRange text)
      | _, _, _, _ => Some (InvalidDate text)
      end
  | _ => Some (InvalidDate text)
  end.

(** [references(() => parent.id)]: the value must be a stored key. *)
Definition references (keys : list string) (table name : string)
  (value : string) : option Violation :=
  unless (includes keys value) (ForeignKey table name).

Definition referencesNullable (keys : list string) (table name : string)
  (value : option string) : option Violation :=
  match value with Some v => references keys table name v | None => None end.

Definition sameText (a b : option string) : bool :=
  match a, b with
  | Some x, Some y => x =? y
  | None, None => true
  | _, _ => false
  end.

(** The engine checks the columns a statement writes: every column on an
    insert, and on an update the columns whose value changes (a value that
    stays has passed its check when it was stored). *)
Definition written {R A} (eqb : A -> A -> bool) (column : R -> A)
  (old : option R) (new : R) : bool :=
  match old with
  | Some o => negb (eqb (column o) (column new))
  | None => true
  end.

Definition checkColumn {R A} (eqb : A -> A -> bool) (column : R -> A)
  (check : A -> option Violation) (old : option R) (new : R)
  : option Violation :=
  if written eqb column old new then check (column new) else None.

(** [eq(column, value)] on a nullable column is not true on NULL. *)
Definition eqNullable (column : option string) (value : string) : bool :=
  match column with Some c => c =? value | None => false end.

(** [email] is declared unique: a row may not take the address another row
    already has.  NULL addresses never clash. *)
Definition emailTaken (email : option string) (id : string) (us : list User.t)
  : bool :=
  match email with
  | Some e =>
      existsb (fun u => negb (User.id u =? id) && eqNullable (User.email u) e) us
  | None => false
  end.

Definition duplicateEmail : Violation := Duplicate "users_email_unique".

(** [employee_id] is declared unique as well. *)
Definition employeeIdTaken (employeeId id : string) (es : list Employee.t)
  : bool :=
  existsb (fun e => negb (Employee.id e =? id)
                    && (Employee.employeeId e =? employeeId)) es.

(** What each table checks of a row: lengths and formats first, then the
    unique columns, then the foreign keys.  [old] is the stored row an update
    replaces, and is absent on insert. *)

Definition userViolation (db : Db) (old : option User.t) (new : User.t)
  : option Violation :=
  firstViolation
    [ checkColumn sameText User.role (varcharNullable 50) old new;
      checkColumn sameText User.email
        (fun email => unless (negb (emailTaken email (User.id new) (usersRows db)))
                        duplicateEmail) old new ].

Definition projectViolation (db : Db) (old : option Project.t) (new : Project.t)
  : option Violation :=
  firstViolation
    [ checkColumn String.eqb Project.name (varchar 255) old new;
      checkColumn sameText Project.projectNumber (varcharNullable 50) old new;
      checkColumn sameText Project.color (varcharNullable 7) old new;
      checkColumn String.eqb Project.userId
        (references (map User.id (usersRows db))
           "projects" "projects_user_id_users_id_fk") old new ].

Definition taskViolation (db : Db) (old : option Task.t) (new : Task.t)
  : option Violation :=
  firstViolation
    [ checkColumn String.eqb Task.name (varchar 255) old new;
      checkColumn String.eqb Task.status (varchar 50) old new;
      checkColumn String.eqb Task.projectId
        (references (map Project.id (projectsRows db))
           "tasks" "tasks_project_id_projects_id_fk") old new ].

Definition timeEntryViolation (db : Db) (old : option TimeEntry.t)
  (new : TimeEntry.t) : option Violation :=
  firstViolation
    [ checkColumn String.eqb TimeEntry.date dateInput old new;
      checkColumn String.eqb TimeEntry.startTime (varchar 5) old new;
      checkColumn String.eqb TimeEntry.endTime (varchar 5) old new;
      checkColumn Z.eqb TimeEntry.duration decimal_5_2 old new;
      checkColumn String.eqb TimeEntry.userId
        (references (map User.id (usersRows db))
           "time_entries" "time_entries_user_id_users_id_fk") old new;
      checkColumn String.eqb TimeEntry.projectId
        (references (map Project.id (projectsRows db))
           "time_entries" "time_entries_project_id_projects_id_fk") old new;
      checkColumn sameText TimeEntry.taskId
        (referencesNullable (map Task.id (tasksRows db))
           "time_entries" "time_entries_task_id_tasks_id_fk") old new ].

Definition employeeViolation (db : Db) (old : option Employee.t) (new : Employee.t)
  : option Violation :=
  firstViolation
    [ checkColumn String.eqb Employee.employeeId
        (fun employeeId =>
           unless (negb (employeeIdTaken employeeId (Employee.id new)
                           (employeesRows db)))
             (Duplicate "employees_employee_id_unique")) old new;
      checkColumn String.eqb Employee.userId
        (references (map User.id (usersRows db))
           "employees" "employees_user_id_users_id_fk") old new ].

Definition projectEmployeeViolation (db : Db) (old : option ProjectEmployee.t)
  (new : ProjectEmployee.t) : option Violation :=
  firstViolation
    [ checkColumn String.eqb ProjectEmployee.projectId
        (references (map Project.id (projectsRows db))
           "project_employees" "project_employees_project_id_projects_id_fk")
        old new;
      checkColumn String.eqb ProjectEmployee.employeeId
        (references (map Employee.id (employeesRows db))
           "project_employees" "project_employees_employee_id_employees_id_fk")
        old new;
      checkColumn String.eqb ProjectEmployee.userId
        (references (map User.id (usersRows db))
           "project_employees" "project_employees_user_id_users_id_fk")
        old new ].

Definition organizationViolation (db : Db) (old : option Organization.t)
  (new : Organization.t) : option Violation :=
  firstViolation
    [ checkColumn String.eqb Organization.userId
        (references (map User.id (usersRows db))
           "organizations" "organizations_user_id_users_id_fk") old new ].

Definition departmentViolation (db : Db) (old : option Department.t)
  (new : Department.t) : option Violation :=
  firstViolation
    [ checkColumn String.eqb Department.organizationId
        (references (map Organization.id (organizationsRows db))
           "departments" "departments_organization_id_organizations_id_fk")
        old new;
      checkColumn sameText Department.managerId
        (referencesNullable (map Employee.id (employeesRows db))
           "departments" "departments_manager_id_employees_id_fk") old new;
      checkColumn String.eqb Department.userId
        (references (map User.id (usersRows db))
           "departments" "departments_user_id_users_id_fk") old new ].

(** Replacing the rows of one table. *)
Definition setUsersRows (l : list User.t) (d : Db) : Db :=
  mkDb l (projectsRows d) (tasksRows d) (timeEntriesRows d)
    (employeesRows d) (projectEmployeesRows d) (departmentsRows d)
    (organizationsRows d) (uuidCount d).
Definition setProjectsRows (l : list Project.t) (d : Db) : Db :=
  mkDb (usersRows d) l (tasksRows d) (timeEntriesRows d)
    (employeesRows d) (projectEmployeesRows d) (departmentsRows d)
    (organizationsRows d) (uuidCount d).
Definition setTasksRows (l : list Task.t) (d : Db) : Db :=
  mkDb (usersRows d) (projectsRows d) l (timeEntriesRows d)
    (employeesRows d) (projectEmployeesRows d) (departmentsRows d)
    (organizationsRows d) (uuidCount d).
Definition setTimeEntriesRows (l : list TimeEntry.t) (d : Db) : Db :=
  mkDb (usersRows d) (projectsRows d) (tasksRows d) l
    (employeesRows d) (projectEmployeesRows d) (departmentsRows d)
    (organizationsRows d) (uuidCount d).
Definition setEmployeesRows (l : list Employee.t) (d : Db) : Db :=
  mkDb (usersRows d) (projectsRows d) (tasksRows d) (timeEntriesRows d)
    l (projectEmployeesRows d) (departmentsRows d)
    (organizationsRows d) (uuidCount d).
Definition setProjectEmployeesRows (l : list ProjectEmployee.t) (d : Db) : Db :=
  mkDb (usersRows d) (projectsRows d) (tasksRows d) (timeEntriesRows d)
    (employeesRows d) l (departmentsRows d)
    (organizationsRows d) (uuidCount d).
Definition setDepartmentsRows (l : list Department.t) (d : Db) : Db :=
  mkDb (usersRows d) (projectsRows d) (tasksRows d) (timeEntriesRows d)
    (employeesRows d) (projectEmployeesRows d) l
    (organizationsRows d) (uuidCount d).
Definition setOrganizationsRows (l : list Organization.t) (d : Db) : Db :=
  mkDb (usersRows d) (projectsRows d) (tasksRows d) (timeEntriesRows d)
    (employeesRows d) (projectEmployeesRows d) (departmentsRows d)
    l (uuidCount d).

(** What a delete does to the rows that reference the deleted keys:
    [onDelete: cascade] deletes them, [onDelete: set null] clears the
    column, and a reference declared without an action refuses the delete. *)

Definition clearTaskId (keys : list string) (e : TimeEntry.t) : TimeEntry.t :=
  TimeEntry.mk (TimeEntry.id e) (TimeEntry.userId e) (TimeEntry.projectId e)
    (match TimeEntry.taskId e with
     | Some t => if includes keys t then None else Some t
     | None => None
     end)
    (TimeEntry.description e) (TimeEntry.date e) (TimeEntry.startTime e)
    (TimeEntry.endTime e) (TimeEntry.duration e) (TimeEntry.createdAt e)
    (TimeEntry.updatedAt e).

Definition unreferenced (keys : list string) (db : Db) : Violation + Db :=
  inr db.

(** time_entries.task_id: set null *)
Definition tasksDeleted (keys : list string) (db : Db) : Violation + Db :=
  inr (setTimeEntriesRows (map (clearTaskId keys) (timeEntriesRows db)) db).

(** tasks.project_id, time_entries.project_id and
    project_employees.project_id: cascade *)
Definition projectsDeleted (keys : list string) (db : Db) : Violation + Db :=
  let goneTasks :=
    filter (fun t => includes keys (Task.projectId t)) (tasksRows db) in
  inr (setProjectEmployeesRows
         (filter (fun pe => negb (includes keys (ProjectEmployee.projectId pe)))
            (projectEmployeesRows db))
         (setTimeEntriesRows
            (map (clearTaskId (map Task.id goneTasks))
               (filter (fun e => negb (includes keys (TimeEntry.projectId e)))
                  (timeEntriesRows db)))
            (setTasksRows
               (filter (fun t => negb (includes keys (Task.projectId t)))
                  (tasksRows db))
               db))).

(** project_employees.employee_id: cascade; departments.manager_id: no
    action *)
Definition employeesDeleted (keys : list string) (db : Db) : Violation + Db :=
  if existsb (fun d => match Department.managerId d with
                       | Some m => includes keys m
                       | None => false
                       end) (departmentsRows db)
  then inl (StillReferenced "employees" "departments_manager_id_employees_id_fk"
              "departments")
  else inr (setProjectEmployeesRows
              (filter (fun pe => negb (includes keys (ProjectEmployee.employeeId pe)))
                 (projectEmployeesRows db))
              db).

(** departments.organization_id: cascade *)
Definition organizationsDeleted (keys : list string) (db : Db)
  : Violation + Db :=
  inr (setDepartmentsRows
         (filter (fun d => negb (includes keys (Department.organizationId d)))
            (departmentsRows db))
         db).

Definition andThen (r : Violation + Db) (k : Db -> Violation + Db)
  : Violation + Db :=
  match r with inl v => inl v | inr db => k db end.

Definition ownedBy {R} (keys : list string) (userId : R -> string) (r : R)
  : bool :=
  includes keys (userId r).

(** every [user_id] column: cascade, and from there on as above *)
Definition usersDeleted (keys : list string) (db : Db) : Violation + Db :=
  let goneOrganizations := filter (ownedBy keys Organization.userId) (organizationsRows db) in
  let goneProjects := filter (ownedBy keys Project.userId) (projectsRows db) in
  let goneEmployees := filter (ownedBy keys Employee.userId) (employeesRows db) in
  let db :=
    setDepartmentsRows
      (filter (fun d => negb (ownedBy keys Department.userId d)) (departmentsRows db))
      (setProjectEmployeesRows
         (filter (fun pe => negb (ownedBy keys ProjectEmployee.userId pe))
            (projectEmployeesRows db))
         (setTimeEntriesRows
            (filter (fun e => negb (ownedBy keys TimeEntry.userId e)) (timeEntriesRows db))
            (setOrganizationsRows
               (filter (fun o => negb (ownedBy keys Organization.userId o))
                  (organizationsRows db))
               (setProjectsRows
                  (filter (fun p => negb (ownedBy keys Project.userId p)) (projectsRows db))
                  (setEmployeesRows
                     (filter (fun e => negb (ownedBy keys Employee.userId e))
                        (employeesRows db))
                     db))))) in
  andThen (organizationsDeleted (map Organization.id goneOrganizations) db)
    (fun db =>
       andThen (projectsDeleted (map Project.id goneProjects) db)
         (employeesDeleted (map Employee.id goneEmployees))).

(** A table handle: how to read and replace the rows of one table, its
    primary key, what the engine checks of a row written to it and what a
    delete does to the rows referencing it. *)
Record Table (R : Type) := mkTable {
  rows : Db -> list R;
  setRows : list R -> Db -> Db;
  key : R -> string;
  violation : Db -> option R -> R -> option Violation;
  referenced : list string -> Db -> Violation + Db }.
Arguments rows {R} _ _.
Arguments setRows {R} _ _ _.
Arguments key {R} _ _.
Arguments violation {R} _ _ _ _.
Arguments referenced {R} _ _ _.

Definition users : Table User.t :=
  mkTable _ usersRows setUsersRows User.id userViolation usersDeleted.
Definition projects : Table Project.t :=
  mkTable _ projectsRows setProjectsRows Project.id projectViolation projectsDeleted.
Definition tasks : Table Task.t :=
  mkTable _ tasksRows setTasksRows Task.id taskViolation tasksDeleted.
Definition timeEntries : Table TimeEntry.t :=
  mkTable _ timeEntriesRows setTimeEntriesRows TimeEntry.id timeEntryViolation
    unreferenced.
Definition employees : Table Employee.t :=
  mkTable _ employeesRows setEmployeesRows Employee.id employeeViolation
    employeesDeleted.
Definition projectEmployees : Table ProjectEmployee.t :=
  mkTable _ projectEmployeesRows setProjectEmployeesRows ProjectEmployee.id
    projectEmployeeViolation unreferenced.
Definition departments : Table Department.t :=
  mkTable _ departmentsRows setDepartmentsRows Department.id departmentViolation
    unreferenced.
Definition organizations : Table Organization.t :=
  mkTable _ organizationsRows setOrganizationsRows Organization.id
    organizationViolation organizationsDeleted.

(** ** Queries *)

(** [db.select().from(t).where(cond)] *)
Definition select {R} (t : Table R) (cond : R -> bool) : M (list R) :=
  fun db => Ok (filter cond (rows t db)) db.

(** [db.select().from(t)], to be joined and filtered by the caller. *)
Definition from {R} (t : Table R) : M (list R) :=
  fun db => Ok (rows t db) db.

(** A statement the engine refuses throws, and changes nothing. *)
Definition refuse {A} (v : Violation) : M A := fun db => Err (message v) db.

(** [db.update(t).set(..).where(cond).returning()] *)
Definition update {R} (t : Table R) (set : R -> R) (cond : R -> bool) : M (list R) :=
  fun db =>
    match firstViolation
            (map (fun r => violation t db (Some r) (set r))
               (filter cond (rows t db))) with
    | Some v => refuse v db
    | None =>
        Ok (map set (filter cond (rows t db)))
           (setRows t (map (fun r => if cond r then set r else r) (rows t db)) db)
    end.

(** [db.delete(t).where(cond).returning()]; [rowCount] is the length. *)
Definition delete {R} (t : Table R) (cond : R -> bool) : M (list R) :=
  fun db =>
    match referenced t (map (key t) (filter cond (rows t db)))
            (setRows t (filter (fun r => negb (cond r)) (rows t db)) db) with
    | inl v => refuse v db
    | inr db' => Ok (filter cond (rows t db)) db'
    end.

(** [db.insert(t).values(new).returning()] with the rows already completed
    by the column defaults. *)
Definition insert {R} (t : Table R) (new : list R) : M (list R) :=
  fun db =>
    match firstViolation (map (violation t db None) new) with
    | Some v => refuse v db
    | None => Ok new (setRows t (rows t db ++ new) db)
    end.

(** Stable insertion sort, for [orderBy]. *)
Fixpoint insertSorted {A} (le : A -> A -> bool) (x : A) (l : list A) : list A :=
  match l with
  | [] => [x]
  | y :: l' => if le x y then x :: l else y :: insertSorted le x l'
  end.

Fixpoint orderBy {A} (le : A -> A -> bool) (l : list A) : list A :=
  match l with
  | [] => []
  | x :: l' => insertSorted le x (orderBy le l')
  end.

(** The first row of a result: [const [row] = await ...]. *)
Definition first {A} (l : list A) : option A := hd_error l.

(** ** Column defaults and [set] clauses *)

Definition orNull {A} (v : option (option A)) : option A :=
  match v with Some x => x | None => None end.

Definition orDefault {A} (v : option (option A)) (d : A) : option A :=
  match v with Some x => x | None => Some d end.

Definition completeProject (id : string) (at_ : Timestamp) (p : InsertProject.t)
  : Project.t :=
  Project.mk id (InsertProject.name p)
    (orNull (InsertProject.projectNumber p))
    (orNull (InsertProject.description p))
    (orDefault (InsertProject.color p) "#1976D2")
    (InsertProject.startDate p) (InsertProject.endDate p)
    (spread (InsertProject.isEnterpriseWide p) true)
    (InsertProject.userId p) (Some at_) (Some at_).

Definition setProject (patch : PartialInsertProject.t) (at_ : Timestamp)
  (p : Project.t) : Project.t :=
  Project.mk (Project.id p)
    (spread (PartialInsertProject.name patch) (Project.name p))
    (spread (PartialInsertProject.projectNumber patch) (Project.projectNumber p))
    (spread (PartialInsertProject.description patch) (Project.description p))
    (spread (PartialInsertProject.color patch) (Project.color p))
    (spreadSome (PartialInsertProject.startDate patch) (Project.startDate p))
    (spreadSome (PartialInsertProject.endDate patch) (Project.endDate p))
    (spread (PartialInsertProject.isEnterpriseWide patch) (Project.isEnterpriseWide p))
    (spread (PartialInsertProject.userId patch) (Project.userId p))
    (Project.createdAt p) (Some at_).

Definition completeTask (id : string) (at_ : Timestamp) (t : InsertTask.t)
  : Task.t :=
  Task.mk id (InsertTask.projectId t) (InsertTask.name t)
    (orNull (InsertTask.description t))
    (spread (InsertTask.status t) "active")
    (Some at_) (Some at_).

Definition setTask (patch : PartialInsertTask.t) (at_ : Timestamp) (t : Task.t)
  : Task.t :=
  Task.mk (Task.id t)
    (spread (PartialInsertTask.projectId patch) (Task.projectId t))
    (spread (PartialInsertTask.name patch) (Task.name t))
    (spread (PartialInsertTask.description patch) (Task.description t))
    (spread (PartialInsertTask.status patch) (Task.status t))
    (Task.createdAt t) (Some at_).

Definition completeTimeEntry (id : string) (at_ : Timestamp)
  (e : InsertTimeEntry.t) : TimeEntry.t :=
  TimeEntry.mk id (InsertTimeEntry.userId e) (InsertTimeEntry.projectId e)
    (InsertTimeEntry.taskId e)
    (orNull (InsertTimeEntry.description e))
    (InsertTimeEntry.date e) (InsertTimeEntry.startTime e)
    (InsertTimeEntry.endTime e) (InsertTimeEntry.duration e)
    (Some at_) (Some at_).

Definition setTimeEntry (patch : PartialInsertTimeEntry.t) (at_ : Timestamp)
  (e : TimeEntry.t) : TimeEntry.t :=
  TimeEntry.mk (TimeEntry.id e)
    (spread (PartialInsertTimeEntry.userId patch) (TimeEntry.userId e))
    (spread (PartialInsertTimeEntry.projectId patch) (TimeEntry.projectId e))
    (spreadSome (PartialInsertTimeEntry.taskId patch) (TimeEntry.taskId e))
    (spread (PartialInsertTimeEntry.description patch) (TimeEntry.description e))
    (spread (PartialInsertTimeEntry.date patch) (TimeEntry.date e))
    (spread (PartialInsertTimeEntry.startTime patch) (TimeEntry.startTime e))
    (spread (PartialInsertTimeEntry.endTime patch) (TimeEntry.endTime e))
    (spread (PartialInsertTimeEntry.duration patch) (TimeEntry.duration e))
    (TimeEntry.createdAt e) (Some at_).

Definition setEmployee (patch : PartialInsertEmployee.t) (at_ : Timestamp)
  (e : Employee.t) : Employee.t :=
  Employee.mk (Employee.id e)
    (spread (PartialInsertEmployee.employeeId patch) (Employee.employeeId e))
    (spread (PartialInsertEmployee.firstName patch) (Employee.firstName e))
    (spread (PartialInsertEmployee.lastName patch) (Employee.lastName e))
    (spread (PartialInsertEmployee.department patch) (Employee.department e))
    (spread (PartialInsertEmployee.userId patch) (Employee.userId e))
    (Employee.createdAt e) (Some at_).

Definition setOrganization (patch : PartialInsertOrganization.t) (at_ : Timestamp)
  (o : Organization.t) : Organization.t :=
  Organization.mk (Organization.id o)
    (spread (PartialInsertOrganization.name patch) (Organization.name o))
    (spread (PartialInsertOrganization.description patch) (Organization.description o))
    (spread (PartialInsertOrganization.userId patch) (Organization.userId o))
    (Organization.createdAt o) (Some at_).

Definition setDepartment (patch : PartialInsertDepartment.t) (at_ : Timestamp)
  (d : Department.t) : Department.t :=
  Department.mk (Department.id d)
    (spread (PartialInsertDepartment.name patch) (Department.name d))
    (spread (PartialInsertDepartment.organizationId patch) (Department.organizationId d))
    (spread (PartialInsertDepartment.managerId patch) (Department.managerId d))
    (spread (PartialInsertDepartment.description patch) (Department.description d))
    (spread (PartialInsertDepartment.userId patch) (Department.userId d))
    (Department.createdAt d) (Some at_).

Definition setUserRole (role : string) (at_ : Timestamp) (u : User.t) : User.t :=
  User.mk (User.id u) (User.email u) (User.firstName u) (User.lastName u)
    (User.profileImageUrl u) (Some role) (User.isActive u)
    (User.lastLoginAt u) (User.createdAt u) (Some at_).

(** ** DatabaseStorage *)

(** Modelled from the spec: [withDatabaseRetry] lives in server/db.ts, which is
    not among the sources, and the spec leaves persistence mechanics to an
    external collaborator.  The store of this model has no transient
    connection failure, so the wrapper runs its operation once. *)
Definition withDatabaseRetry {A} (operation : M A) : M A := operation.

Section DatabaseStorage.

(** The clock of the request at hand ([new Date()], and [defaultNow()] on
    insert), and the identifiers the database hands out for
    [gen_random_uuid()]. *)
Variable now : Timestamp.
Variable gen_random_uuid : nat -> string.

Definition freshId : M string :=
  fun db => Ok (gen_random_uuid (uuidCount db))
               (mkDb (usersRows db) (projectsRows db) (tasksRows db)
                  (timeEntriesRows db) (employeesRows db)
                  (projectEmployeesRows db) (departmentsRows db)
                  (organizationsRows db) (S (uuidCount db))).

(** *** User operations *)

Definition getUser (id : string) : M (option User.t) :=
  tryCatch
    (found <- select users (fun u => User.id u =? id) ;;
     ret (first found))
    (fun error => throw error).

(** [user?.role || 'employee'] *)
Definition roleOrEmployee (user : option User.t) : string :=
  orElse (match user with Some u => User.role u | None => None end) "employee".

Definition updateUserRole (userId role : string) : M (option User.t) :=
  tryCatch
    (updated <- update users (setUserRole role now)
                  (fun u => User.id u =? userId) ;;
     ret (first updated))
    (fun error => throw error).

(** *** Project operations *)

Definition getProjects : M (list Project.t) :=
  withDatabaseRetry
    (found <- select projects noCondition ;;
     ret (orderBy (fun a b => ascText (Project.name a) (Project.name b)) found)).

Definition getEmployeeProjects (userId : string) : M (list Project.t) :=
  withDatabaseRetry
    (found <- select projects (fun p => Bool.eqb (Project.isEnterpriseWide p) true) ;;
     let enterpriseProjects :=
       orderBy (fun a b => ascText (Project.name a) (Project.name b)) found in
     ret enterpriseProjects).

Definition getProject (id userId : string) : M (option Project.t) :=
  withDatabaseRetry
    (found <- select projects (fun p => Project.id p =? id) ;;
     ret (first found)).

Definition createProject (project : InsertProject.t) (userId : string)
  : M Project.t :=
  withDatabaseRetry
    (user <- getUser userId ;;
     let userRole := roleOrEmployee user in
     if negb (includes ["admin"; "project_manager"] userRole)
     then throw "Insufficient permissions to create projects"
     else
       id <- freshId ;;
       let newProject := completeProject id now project in
       insert projects [newProject] ;;;
       ret newProject).

Definition updateProject (id : string) (project : PartialInsertProject.t)
  (userId : string) : M (option Project.t) :=
  withDatabaseRetry
    (user <- getUser userId ;;
     let userRole := roleOrEmployee user in
     if negb (includes ["admin"; "project_manager"] userRole)
     then throw "Insufficient permissions to update projects"
     else
       updated <- update projects (setProject project now)
                    (fun p => Project.id p =? id) ;;
       ret (first updated)).

Definition deleteProject (id userId : string) : M bool :=
  withDatabaseRetry
    (user <- getUser userId ;;
     let userRole := roleOrEmployee user in
     if negb (includes ["admin"; "project_manager"] userRole)
     then throw "Insufficient permissions to delete projects"
     else
       result <- delete projects (fun p => Project.id p =? id) ;;
       let success := (0 <? length result)%nat in
       ret success).

(** *** Task operations *)

Definition getTasks (projectId userId : string) : M (list Task.t) :=
  withDatabaseRetry
    (user <- getUser userId ;;
     let userRole := roleOrEmployee user in
     found <- select tasks (fun t => Task.projectId t =? projectId) ;;
     ret (orderBy (fun a b => ascNullsLast (Task.createdAt a) (Task.createdAt b)) found)).

Definition getTask (id userId : string) : M (option Task.t) :=
  found <- select tasks (fun t => Task.id t =? id) ;;
  ret (first found).

(** [userId] is optional here: [None] is an omitted argument. *)
Definition createTask (task : InsertTask.t) (userId : option string) : M Task.t :=
  withDatabaseRetry
    ((if truthy userId
      then
        user <- getUser (orElse userId "") ;;
        let userRole := roleOrEmployee user in
        if negb (includes ["admin"; "project_manager"] userRole)
        then throw "Insufficient permissions to create tasks"
        else ret tt
      else ret tt) ;;;
     id <- freshId ;;
     let newTask := completeTask id now task in
     insert tasks [newTask] ;;;
     ret newTask).

Definition updateTask (id : string) (taskData : PartialInsertTask.t)
  (userId : string) : M (option Task.t) :=
  withDatabaseRetry
    (user <- getUser userId ;;
     let userRole := roleOrEmployee user in
     if negb (includes ["admin"; "project_manager"] userRole)
     then throw "Insufficient permissions to update tasks"
     else
       existingTask <- getTask id userId ;;
       match existingTask with
       | None => ret None
       | Some _ =>
           updated <- update tasks (setTask taskData now)
                        (fun t => Task.id t =? id) ;;
           ret (first updated)
       end).

Definition deleteTask (id userId : string) : M bool :=
  withDatabaseRetry
    (user <- getUser userId ;;
     let userRole := roleOrEmployee user in
     if negb (includes ["admin"; "project_manager"] userRole)
     then throw "Insufficient permissions to delete tasks"
     else
       existingTask <- getTask id userId ;;
       match existingTask with
       | None => ret false
       | Some _ =>
           result <- delete tasks (fun t => Task.id t =? id) ;;
           let success := (0 <? length result)%nat in
           ret success
       end).

Definition getAllUserTasks (userId : string) : M (list (Task.t * Project.t)) :=
  withDatabaseRetry
    (user <- getUser userId ;;
     let userRole := roleOrEmployee user in
     let whereCondition : Task.t * Project.t -> bool :=
       if includes ["admin"; "project_manager"] userRole
       then noCondition
       else fun row => Bool.eqb (Project.isEnterpriseWide (snd row)) true in
     allTasks <- from tasks ;;
     allProjects <- from projects ;;
     let joined :=
       innerJoin (fun t p => Task.projectId t =? Project.id p)
         allTasks allProjects in
     let results :=
       orderBy (fun a b => descNullsFirst (Task.createdAt (fst a)) (Task.createdAt (fst b)))
         (filter whereCondition joined) in
     ret results).

(** *** Time entry operations *)

(** [row.taskId || null] *)
Definition taskIdOrNull (taskId : option string) : option string :=
  match taskId with
  | Some s => if s =? "" then None else Some s
  | None => None
  end.

Definition withTaskIdOrNull (e : TimeEntry.t) : TimeEntry.t :=
  TimeEntry.mk (TimeEntry.id e) (TimeEntry.userId e) (TimeEntry.projectId e)
    (taskIdOrNull (TimeEntry.taskId e)) (TimeEntry.description e)
    (TimeEntry.date e) (TimeEntry.startTime e) (TimeEntry.endTime e)
    (TimeEntry.duration e) (TimeEntry.createdAt e) (TimeEntry.updatedAt e).

Definition toTimeEntryWithProject (row : TimeEntry.t * Project.t * option Task.t)
  : TimeEntryWithProject.t :=
  TimeEntryWithProject.mk (withTaskIdOrNull (fst (fst row))) (snd (fst row)) (snd row).

(** timeEntries inner join projects left join tasks *)
Definition entriesJoined (es : list TimeEntry.t) (ps : list Project.t)
  (ts : list Task.t) : list (TimeEntry.t * Project.t * option Task.t) :=
  leftJoin (fun ep t => eqNullable (TimeEntry.taskId (fst ep)) (Task.id t))
    (innerJoin (fun e p => TimeEntry.projectId e =? Project.id p) es ps) ts.

Definition filterOf {A} (filters : option Filters.t)
  (key : Filters.t -> option A) : option A :=
  match filters with Some f => key f | None => None end.

(** Truthiness of an optional number. *)
Definition truthyNumber (n : option nat) : bool :=
  match n with Some (S _) => true | _ => false end.

Definition getTimeEntries (userId : string) (filters : option Filters.t)
  : M (list TimeEntryWithProject.t) :=
  withDatabaseRetry
    (user <- getUser userId ;;
     let userRole := roleOrEmployee user in
     let whereConditions : list (TimeEntry.t -> bool) := [] in
     let whereConditions :=
       if userRole =? "admin" then whereConditions
       else if userRole =? "project_manager" then whereConditions
       else whereConditions ++ [fun e => TimeEntry.userId e =? userId] in
     let whereConditions :=
       if truthy (filterOf filters Filters.projectId)
       then whereConditions ++
            [fun e => TimeEntry.projectId e =? orElse (filterOf filters Filters.projectId) ""]
       else whereConditions in
     let whereConditions :=
       if truthy (filterOf filters Filters.taskId)
       then whereConditions ++
            [fun e => eqNullable (TimeEntry.taskId e)
                        (orElse (filterOf filters Filters.taskId) "")]
       else whereConditions in
     let whereConditions :=
       if truthy (filterOf filters Filters.startDate)
       then whereConditions ++
            [fun e => String.leb (orElse (filterOf filters Filters.startDate) "")
                        (TimeEntry.date e)]
       else whereConditions in
     let whereConditions :=
       if truthy (filterOf filters Filters.endDate)
       then whereConditions ++
            [fun e => String.leb (TimeEntry.date e)
                        (orElse (filterOf filters Filters.endDate) "")]
       else whereConditions in
     es <- from timeEntries ;;
     ps <- from projects ;;
     ts <- from tasks ;;
     let condition :=
       if (0 <? length whereConditions)%nat
       then and_ whereConditions else noCondition in
     let ordered :=
       orderBy
         (thenBy
            (fun a b => TimeEntry.date (fst (fst a)) =? TimeEntry.date (fst (fst b)))
            (fun a b => descText (TimeEntry.date (fst (fst a)))
                          (TimeEntry.date (fst (fst b))))
            (fun a b => descText (TimeEntry.startTime (fst (fst a)))
                          (TimeEntry.startTime (fst (fst b)))))
         (filter (fun row => condition (fst (fst row))) (entriesJoined es ps ts)) in
     let skipped :=
       if truthyNumber (filterOf filters Filters.offset)
       then skipn (match filterOf filters Filters.offset with
                   | Some n => n | None => 0 end) ordered
       else ordered in
     let results :=
       if truthyNumber (filterOf filters Filters.limit)
       then firstn (match filterOf filters Filters.limit with
                    | Some n => n | None => 0 end) skipped
       else skipped in
     ret (map toTimeEntryWithProject results)).

Definition getTimeEntry (id userId : string)
  : M (option TimeEntryWithProject.t) :=
  withDatabaseRetry
    (user <- getUser userId ;;
     let userRole := roleOrEmployee user in
     let whereConditions := [fun e => TimeEntry.id e =? id] in
     let whereConditions :=
       if negb (includes ["admin"; "project_manager"] userRole)
       then whereConditions ++ [fun e => TimeEntry.userId e =? userId]
       else whereConditions in
     es <- from timeEntries ;;
     ps <- from projects ;;
     ts <- from tasks ;;
     match first (filter (fun row => and_ whereConditions (fst (fst row)))
                    (entriesJoined es ps ts)) with
     | None => ret None
     | Some result => ret (Some (toTimeEntryWithProject result))
     end).

Definition createTimeEntry (entry : InsertTimeEntry.t) : M TimeEntry.t :=
  withDatabaseRetry
    (id <- freshId ;;
     let newEntry := completeTimeEntry id now entry in
     insert timeEntries [newEntry] ;;;
     ret newEntry).

Definition updateTimeEntry (id : string) (entry : PartialInsertTimeEntry.t)
  (userId : string) : M (option TimeEntry.t) :=
  withDatabaseRetry
    (user <- getUser userId ;;
     let userRole := roleOrEmployee user in
     let whereConditions := [fun e => TimeEntry.id e =? id] in
     let whereConditions :=
       if negb (includes ["admin"; "project_manager"] userRole)
       then whereConditions ++ [fun e => TimeEntry.userId e =? userId]
       else whereConditions in
     updated <- update timeEntries (setTimeEntry entry now)
                  (and_ whereConditions) ;;
     ret (first updated)).

Definition deleteTimeEntry (id userId : string) : M bool :=
  withDatabaseRetry
    (user <- getUser userId ;;
     let userRole := roleOrEmployee user in
     let whereConditions := [fun e => TimeEntry.id e =? id] in
     let whereConditions :=
       if negb (includes ["admin"; "project_manager"] userRole)
       then whereConditions ++ [fun e => TimeEntry.userId e =? userId]
       else whereConditions in
     result <- delete timeEntries (and_ whereConditions) ;;
     let success := (0 <? length result)%nat in
     ret success).

Definition getRecentActivity (userId : string) (limit : option nat)
  (startDate endDate : option string) : M (list TimeEntryWithProject.t) :=
  getTimeEntries userId
    (Some (Filters.mk None None
             (if truthy startDate then startDate else None)
             (if truthy endDate then endDate else None)
             (Some (match limit with Some n => n | None => 10 end))
             None)).

(** *** Dashboard *)

(** The Pacific-time days the dashboard derives from the clock: today,
    seven days ago, the first of the month, thirty days ago. *)
Variable todayPST weekAgoPST monthStartPST thirtyDaysAgoPST : string.

(** [COALESCE(SUM(duration), 0)] *)
Definition sumDuration (es : list TimeEntry.t) : Z :=
  fold_right (fun e acc => (TimeEntry.duration e + acc)%Z) 0%Z es.

Definition getDashboardStats (userId : string) (startDate endDate : option string)
  : M DashboardStats.t :=
  withDatabaseRetry
    (user <- getUser userId ;;
     let userRole := roleOrEmployee user in
     let start := orElse startDate weekAgoPST in
     let end_ := orElse endDate todayPST in
     let todayToUse := todayPST in
     let userFilter : option (TimeEntry.t -> bool) :=
       if includes ["admin"; "project_manager"] userRole
       then None
       else Some (fun e => TimeEntry.userId e =? userId) in
     let scoped (rest : list (TimeEntry.t -> bool)) : TimeEntry.t -> bool :=
       match userFilter with
       | Some own => and_ (own :: rest)
       | None => and_ rest
       end in
     todayResult <- select timeEntries
                      (scoped [fun e => TimeEntry.date e =? todayToUse]) ;;
     todayEntries <- select timeEntries
                       (and_ [fun e => TimeEntry.userId e =? userId;
                              fun e => TimeEntry.date e =? todayToUse]) ;;
     recentEntries <- select timeEntries
                        (match userFilter with
                         | Some own => own | None => noCondition end) ;;
     weekResult <- select timeEntries
                     (scoped [fun e => String.leb start (TimeEntry.date e);
                              fun e => String.leb (TimeEntry.date e) end_]) ;;
     monthResult <- select timeEntries
                      (scoped [fun e => String.leb monthStartPST (TimeEntry.date e);
                               fun e => String.leb (TimeEntry.date e) todayToUse]) ;;
     activeProjects <- select timeEntries
                         (scoped [fun e => String.leb thirtyDaysAgoPST
                                             (TimeEntry.date e)]) ;;
     let stats :=
       DashboardStats.mk (sumDuration todayResult) (sumDuration weekResult)
         (sumDuration monthResult)
         (length (nodup string_dec (map TimeEntry.projectId activeProjects))) in
     ret stats).

(** Rows of one [GROUP BY]: the first row of every key, in order. *)
Fixpoint distinctBy {A} (key : A -> string) (l : list A) : list A :=
  match l with
  | [] => []
  | x :: l' => x :: filter (fun y => negb (key y =? key x)) (distinctBy key l')
  end.

(** [SUM(duration)] over left-joined rows: NULL when no row has an entry. *)
Definition sumJoined (es : list (option TimeEntry.t)) : option Z :=
  fold_right (fun e acc =>
                match e, acc with
                | Some x, Some a => Some (TimeEntry.duration x + a)%Z
                | Some x, None => Some (TimeEntry.duration x)
                | None, _ => acc
                end) None es.

Definition coalesce0 (v : option Z) : Z :=
  match v with Some x => x | None => 0%Z end.

(** A condition on the time-entry side of a left join is not true on NULL. *)
Definition onEntry {A} (c : TimeEntry.t -> bool) (row : A * option TimeEntry.t)
  : bool :=
  match snd row with Some e => c e | None => false end.

(** [Math.round((hours / total) * 100)], computed on exact fractions
    (the source rounds the floating-point quotient). *)
Definition roundedPercent (hours total : Z) : Z :=
  ((200 * hours + total) / (2 * total))%Z.

Definition getProjectTimeBreakdown (userId : string)
  (startDate endDate : option string) : M (list ProjectBreakdown.t) :=
  user <- getUser userId ;;
  let userRole := roleOrEmployee user in
  let projectConditions : list (Project.t * option TimeEntry.t -> bool) :=
    if userRole =? "admin" then []
    else if userRole =? "project_manager" then
      [or_ (fun row => Bool.eqb (Project.isEnterpriseWide (fst row)) true)
           (fun row => Project.userId (fst row) =? userId)]
    else if userRole =? "manager" then
      [fun row => Bool.eqb (Project.isEnterpriseWide (fst row)) true]
    else
      [fun row => Bool.eqb (Project.isEnterpriseWide (fst row)) true] in
  let timeEntryConditions : list (Project.t * option TimeEntry.t -> bool) := [] in
  let timeEntryConditions :=
    if truthy startDate
    then timeEntryConditions ++
         [onEntry (fun e => String.leb (orElse startDate "") (TimeEntry.date e))]
    else timeEntryConditions in
  let timeEntryConditions :=
    if truthy endDate
    then timeEntryConditions ++
         [onEntry (fun e => String.leb (TimeEntry.date e) (orElse endDate ""))]
    else timeEntryConditions in
  let whereConditions : list (Project.t * option TimeEntry.t -> bool) := [] in
  let whereConditions :=
    if (0 <? length projectConditions)%nat
    then whereConditions ++ projectConditions else whereConditions in
  let whereConditions :=
    if (0 <? length timeEntryConditions)%nat
    then whereConditions ++ timeEntryConditions else whereConditions in
  tryCatch
    (ps <- from projects ;;
     es <- from timeEntries ;;
     let joined :=
       filter (if (0 <? length whereConditions)%nat
               then and_ whereConditions else noCondition)
         (leftJoin (fun p e => Project.id p =? TimeEntry.projectId e) ps es) in
     let grouped :=
       map (fun p =>
              (p, sumJoined
                    (map snd (filter (fun row => Project.id (fst row) =? Project.id p)
                                joined))))
         (distinctBy Project.id (map fst joined)) in
     let results :=
       orderBy (fun a b => descNullsFirst (snd a) (snd b)) grouped in
     let totalHours :=
       fold_left (fun sum row => (sum + coalesce0 (snd row))%Z) results 0%Z in
     ret (map (fun row =>
                 ProjectBreakdown.mk (fst row) (coalesce0 (snd row))
                   (if (0 <? totalHours)%Z
                    then roundedPercent (coalesce0 (snd row)) totalHours
                    else 0%Z))
            (filter (fun row => (0 <? coalesce0 (snd row))%Z) results)))
    (fun error => ret []).

(** *** Employee operations *)

Definition getEmployees (userId : string) : M (list Employee.t) :=
  withDatabaseRetry
    (user <- getUser userId ;;
     let userRole := roleOrEmployee user in
     let whereCondition : Employee.t -> bool :=
       if userRole =? "admin" then noCondition else noCondition in
     found <- select employees whereCondition ;;
     ret (orderBy
            (thenBy
               (fun a b => Employee.firstName a =? Employee.firstName b)
               (fun a b => ascText (Employee.firstName a) (Employee.firstName b))
               (fun a b => ascText (Employee.lastName a) (Employee.lastName b)))
            found)).

Definition getEmployee (id userId : string) : M (option Employee.t) :=
  withDatabaseRetry
    (user <- getUser userId ;;
     let userRole := roleOrEmployee user in
     let whereConditions := [fun e => Employee.id e =? id] in
     let whereConditions :=
       if negb (includes ["admin"; "manager"] userRole)
       then whereConditions else whereConditions in
     found <- select employees (and_ whereConditions) ;;
     ret (first found)).

Definition updateEmployee (id : string) (employeeData : PartialInsertEmployee.t)
  (userId : string) : M (option Employee.t) :=
  withDatabaseRetry
    (user <- getUser userId ;;
     let userRole := roleOrEmployee user in
     if negb (includes ["admin"; "manager"] userRole)
     then throw "Insufficient permissions to update employee information"
     else
       updated <- update employees (setEmployee employeeData now)
                    (fun e => Employee.id e =? id) ;;
       ret (first updated)).

Definition deleteEmployee (id userId : string) : M bool :=
  withDatabaseRetry
    (user <- getUser userId ;;
     let userRole := roleOrEmployee user in
     if negb (userRole =? "admin")
     then throw "Insufficient permissions to delete employees"
     else
       result <- delete employees (fun e => Employee.id e =? id) ;;
       let success := (0 <? length result)%nat in
       ret success).

(** *** Project access control operations *)

Definition getProjectWithEmployees (id userId : string)
  : M (option ProjectWithEmployees.t) :=
  project <- getProject id userId ;;
  match project with
  | None => ret None
  | Some project =>
      if Project.isEnterpriseWide project
      then ret (Some (ProjectWithEmployees.mk project []))
      else
        pes <- from projectEmployees ;;
        es <- from employees ;;
        let assignedEmployees :=
          map snd
            (filter (fun row =>
                       and_ [fun r => ProjectEmployee.projectId (fst r) =? id;
                             fun r => ProjectEmployee.userId (fst r) =? userId] row)
               (innerJoin (fun pe e => ProjectEmployee.employeeId pe =? Employee.id e)
                  pes es)) in
        ret (Some (ProjectWithEmployees.mk project assignedEmployees))
  end.

(** One assignment row per employee id, each with an identifier of its own. *)
Fixpoint newAssignments (projectId userId : string) (employeeIds : list string)
  : M (list ProjectEmployee.t) :=
  match employeeIds with
  | [] => ret []
  | employeeId :: others =>
      id <- freshId ;;
      more <- newAssignments projectId userId others ;;
      ret (ProjectEmployee.mk id projectId employeeId userId (Some now) :: more)
  end.

Definition assignEmployeesToProject (projectId : string)
  (employeeIds : list string) (userId : string) : M unit :=
  withDatabaseRetry
    (user <- getUser userId ;;
     let userRole := roleOrEmployee user in
     if negb (includes ["admin"; "project_manager"] userRole)
     then throw "Insufficient permissions to assign employees to projects"
     else
       found <- select projects (fun p => Project.id p =? projectId) ;;
       let project := firstn 1 found in
       if (length project =? 0)%nat
       then throw "Project not found"
       else
         delete projectEmployees
           (fun pe => ProjectEmployee.projectId pe =? projectId) ;;;
         if (0 <? length employeeIds)%nat
         then
           values <- newAssignments projectId userId employeeIds ;;
           insert projectEmployees values ;;;
           ret tt
         else ret tt).

Definition getProjectEmployees (projectId userId : string) : M (list Employee.t) :=
  withDatabaseRetry
    (user <- getUser userId ;;
     let userRole := roleOrEmployee user in
     if negb (includes ["admin"; "project_manager"] userRole)
     then throw "Insufficient permissions to view project employee assignments"
     else
       pes <- from projectEmployees ;;
       es <- from employees ;;
       let result :=
         map snd
           (filter (fun row => ProjectEmployee.projectId (fst row) =? projectId)
              (innerJoin (fun pe e => ProjectEmployee.employeeId pe =? Employee.id e)
                 pes es)) in
       ret result).

Definition removeEmployeeFromProject (projectId employeeId userId : string)
  : M bool :=
  withDatabaseRetry
    (user <- getUser userId ;;
     let userRole := roleOrEmployee user in
     if negb (includes ["admin"; "project_manager"] userRole)
     then throw "Insufficient permissions to remove employees from projects"
     else
       result <- delete projectEmployees
                   (and_ [fun pe => ProjectEmployee.projectId pe =? projectId;
                          fun pe => ProjectEmployee.employeeId pe =? employeeId]) ;;
       let success := (0 <? length result)%nat in
       ret success).

(** *** Department operations *)

Definition updateDepartment (id : string) (department : PartialInsertDepartment.t)
  (userId : string) : M (option Department.t) :=
  updated <- update departments (setDepartment department now)
               (fun d => Department.id d =? id) ;;
  ret (first updated).

Definition deleteDepartment (id userId : string) : M bool :=
  result <- delete departments (fun d => Department.id d =? id) ;;
  ret (0 <? length result)%nat.

(** *** Organization operations *)

Definition updateOrganization (id : string)
  (organization : PartialInsertOrganization.t) (userId : string)
  : M (option Organization.t) :=
  withDatabaseRetry
    (user <- getUser userId ;;
     let userRole := roleOrEmployee user in
     if negb (userRole =? "admin")
     then throw "Insufficient permissions to update organizations"
     else
       updated <- update organizations (setOrganization organization now)
                    (fun o => Organization.id o =? id) ;;
       ret (first updated)).

Definition deleteOrganization (id userId : string) : M bool :=
  withDatabaseRetry
    (user <- getUser userId ;;
     let userRole := roleOrEmployee user in
     if negb (userRole =? "admin")
     then throw "Insufficient permissions to delete organizations"
     else
       result <- delete organizations (fun o => Organization.id o =? id) ;;
       let success := (0 <? length result)%nat in
       ret success).

(** *** Department hours *)

Definition getDepartmentHoursSummary (userId : string)
  (startDate endDate : option string) : M (list DepartmentHours.t) :=
  user <- getUser userId ;;
  let userRole := roleOrEmployee user in
  let dateFilter : option (TimeEntry.t -> bool) :=
    if truthy startDate && truthy endDate
    then Some (and_ [fun e => String.leb (orElse startDate "") (TimeEntry.date e);
                     fun e => String.leb (TimeEntry.date e) (orElse endDate "")])
    else None in
  es <- from employees ;;
  ts <- from timeEntries ;;
  let joined :=
    filter (fun row =>
              (if userRole =? "admin" then noCondition
               else fun r => Employee.userId (fst r) =? userId) row)
      (leftJoin
         (fun e t =>
            match dateFilter with
            | Some inRange =>
                and_ [fun t' => Employee.userId e =? TimeEntry.userId t'; inRange] t
            | None => Employee.userId e =? TimeEntry.userId t
            end) es ts) in
  let grouped :=
    map (fun e =>
           let members :=
             filter (fun row => Employee.department (fst row) =? Employee.department e)
               joined in
           (Employee.department e, sumJoined (map snd members),
            length (nodup string_dec (map (fun row => Employee.id (fst row)) members))))
      (distinctBy Employee.department (map fst joined)) in
  let having :=
    filter (fun g => negb (fst (fst g) =? "")) grouped in
  let result :=
    map (fun g => DepartmentHours.mk (fst (fst g)) (fst (fst g))
                    (coalesce0 (snd (fst g))) (snd g))
      (orderBy (fun a b => descNullsFirst (snd (fst a)) (snd (fst b))) having) in
  ret (filter (fun r => negb (DepartmentHours.departmentName r =? "")
                        && (0 <? DepartmentHours.totalHours r)%Z) result).

(** *** The remaining user operations *)

(** The row an insert stores: absent keys take the column defaults. *)
Definition completeUser (id : string) (values : UpsertUser.t) : User.t :=
  User.mk id
    (orNull (UpsertUser.email values))
    (orNull (UpsertUser.firstName values))
    (orNull (UpsertUser.lastName values))
    (orNull (UpsertUser.profileImageUrl values))
    (orDefault (UpsertUser.role values) "employee")
    (orDefault (UpsertUser.isActive values) true)
    (orNull (UpsertUser.lastLoginAt values))
    (orDefault (UpsertUser.createdAt values) now)
    (orDefault (UpsertUser.updatedAt values) now).

(** [set: { ...patch }] on a stored row. *)
Definition setUser (patch : UpsertUser.t) (u : User.t) : User.t :=
  User.mk
    (spread (UpsertUser.id patch) (User.id u))
    (spread (UpsertUser.email patch) (User.email u))
    (spread (UpsertUser.firstName patch) (User.firstName u))
    (spread (UpsertUser.lastName patch) (User.lastName u))
    (spread (UpsertUser.profileImageUrl patch) (User.profileImageUrl u))
    (spread (UpsertUser.role patch) (User.role u))
    (spread (UpsertUser.isActive patch) (User.isActive u))
    (spread (UpsertUser.lastLoginAt patch) (User.lastLoginAt u))
    (spread (UpsertUser.createdAt patch) (User.createdAt u))
    (spread (UpsertUser.updatedAt patch) (User.updatedAt u)).

(** [{ ...userData, lastLoginAt: new Date() }] *)
Definition withLastLoginAt (userData : UpsertUser.t) : UpsertUser.t :=
  UpsertUser.mk (UpsertUser.id userData) (UpsertUser.email userData)
    (UpsertUser.firstName userData) (UpsertUser.lastName userData)
    (UpsertUser.profileImageUrl userData) (UpsertUser.role userData)
    (UpsertUser.isActive userData) (Some (Some now))
    (UpsertUser.createdAt userData) (UpsertUser.updatedAt userData).

(** [{ ...userData, updatedAt: new Date() }] *)
Definition withUpdatedAt (userData : UpsertUser.t) : UpsertUser.t :=
  UpsertUser.mk (UpsertUser.id userData) (UpsertUser.email userData)
    (UpsertUser.firstName userData) (UpsertUser.lastName userData)
    (UpsertUser.profileImageUrl userData) (UpsertUser.role userData)
    (UpsertUser.isActive userData) (UpsertUser.lastLoginAt userData)
    (UpsertUser.createdAt userData) (Some (Some now)).

(** [db.insert(users).values(..).onConflictDoUpdate({ target: users.id, set })
    .returning()]: the values are read into their columns first; then a row
    of the same id is updated, otherwise the row is appended. *)
Definition insertUserOnConflictDoUpdate (values : UpsertUser.t)
  (set : UpsertUser.t) : M (list User.t) :=
  id <- match UpsertUser.id values with
        | Some id => ret id
        | None => freshId
        end ;;
  match varcharNullable 50 (User.role (completeUser id values)) with
  | Some v => refuse v
  | None =>
      us <- from users ;;
      if existsb (fun u => User.id u =? id) us
      then update users (setUser set) (fun u => User.id u =? id)
      else insert users [completeUser id values]
  end.

Definition upsertUser (userData : UpsertUser.t) : M (option User.t) :=
  tryCatch
    (returned <- insertUserOnConflictDoUpdate (withLastLoginAt userData)
                   (withUpdatedAt (withLastLoginAt userData)) ;;
     ret (first returned))
    (fun error => throw error).

Definition getAllUsers : M (list User.t) :=
  found <- select users noCondition ;;
  ret (orderBy (fun a b => ascNullsLast (User.createdAt a) (User.createdAt b)) found).

(** [notInArray(column, values)] *)
Definition notInArray (value : string) (values : list string) : bool :=
  negb (includes values value).

(** [employees.userId] is declared NOT NULL, so the IS NOT NULL condition
    and the filter on null keep every row. *)
Definition getUsersWithoutEmployeeProfile : M (list User.t) :=
  usersWithEmployees <- select employees noCondition ;;
  let userIdsWithEmployees := map Employee.userId usersWithEmployees in
  if (length userIdsWithEmployees =? 0)%nat
  then getAllUsers
  else
    found <- select users (fun u => notInArray (User.id u) userIdsWithEmployees) ;;
    ret (orderBy (fun a b => ascNullsLast (User.createdAt a) (User.createdAt b)) found).

Definition getEmployeeByUserId (userId : string) : M (option Employee.t) :=
  found <- select employees (fun e => Employee.userId e =? userId) ;;
  ret (first found).

Definition setInactive (u : User.t) : User.t :=
  User.mk (User.id u) (User.email u) (User.firstName u) (User.lastName u)
    (User.profileImageUrl u) (User.role u) (Some false)
    (User.lastLoginAt u) (User.createdAt u) (Some now).

Definition deactivateUser (userId : string) : M (option User.t) :=
  updated <- update users setInactive (fun u => User.id u =? userId) ;;
  ret (first updated).

Definition testUser (id email firstName lastName role : string) : UpsertUser.t :=
  UpsertUser.mk (Some id) (Some (Some email)) (Some (Some firstName))
    (Some (Some lastName)) (Some None) (Some (Some role)) None None None None.

Definition testUsersData : list UpsertUser.t :=
  [ testUser "test-admin-001" "admin@timetracker.test" "Admin" "User" "admin";
    testUser "test-manager-001" "manager@timetracker.test" "Department" "Manager"
      "manager";
    testUser "test-pm-001" "pm@timetracker.test" "Project" "Manager"
      "project_manager";
    testUser "test-employee-001" "employee@timetracker.test" "Regular" "Employee"
      "employee";
    testUser "test-viewer-001" "viewer@timetracker.test" "Viewer" "User" "viewer" ].

(** The [for] loop of [createTestUsers]: a failed insert is logged and the
    loop goes on. *)
Fixpoint createEach (data : list UpsertUser.t) (createdUsers : list User.t)
  : M (list User.t) :=
  match data with
  | [] => ret createdUsers
  | userData :: others =>
      createdUsers <-
        tryCatch
          (returned <- insertUserOnConflictDoUpdate userData (withUpdatedAt userData) ;;
           match first returned with
           | Some user => ret (createdUsers ++ [user])
           | None => ret createdUsers
           end)
          (fun error => ret createdUsers) ;;
      createEach others createdUsers
  end.

Definition createTestUsers : M (list User.t) := createEach testUsersData [].

(** [text LIKE '%suffix'] for a suffix without wildcards. *)
Fixpoint endsWith (text suffix : string) : bool :=
  (text =? suffix)
  || match text with
     | EmptyString => false
     | String _ rest => endsWith rest suffix
     end.

Definition getTestUsers : M (list User.t) :=
  select users (fun u => match User.email u with
                         | Some e => endsWith e "timetracker.test"
                         | None => false
                         end).

(** *** The remaining employee, department and organization operations *)

Definition createEmployee (employee : InsertEmployee.t) : M Employee.t :=
  id <- freshId ;;
  let newEmployee :=
    Employee.mk id (InsertEmployee.employeeId employee)
      (InsertEmployee.firstName employee) (InsertEmployee.lastName employee)
      (InsertEmployee.department employee) (InsertEmployee.userId employee)
      (Some now) (Some now) in
  insert employees [newEmployee] ;;;
  ret newEmployee.

Definition setEmployeeUser (userId : string) (e : Employee.t) : Employee.t :=
  Employee.mk (Employee.id e) (Employee.employeeId e) (Employee.firstName e)
    (Employee.lastName e) (Employee.department e) userId
    (Employee.createdAt e) (Some now).

Definition linkUserToEmployee (userId employeeId : string) : M (option Employee.t) :=
  updated <- update employees (setEmployeeUser userId)
               (fun e => Employee.id e =? employeeId) ;;
  ret (first updated).

(** [row.manager && row.manager.id ? row.manager : null] *)
Definition managerOrNull (manager : option Employee.t) : option Employee.t :=
  match manager with
  | Some e => if Employee.id e =? "" then None else Some e
  | None => None
  end.

Definition toDepartmentWithManager
  (row : Department.t * option Employee.t * option Organization.t)
  : DepartmentWithManager.t :=
  DepartmentWithManager.mk (fst (fst row)) (managerOrNull (snd (fst row))) (snd row).

(** departments left join employees (the manager) left join organizations *)
Definition departmentsJoined (ds : list Department.t) (es : list Employee.t)
  (os : list Organization.t)
  : list (Department.t * option Employee.t * option Organization.t) :=
  leftJoin (fun de o => Department.organizationId (fst de) =? Organization.id o)
    (leftJoin (fun d e => eqNullable (Department.managerId d) (Employee.id e)) ds es)
    os.

Definition selectDepartments (condition : Department.t -> bool)
  : M (list (Department.t * option Employee.t * option Organization.t)) :=
  ds <- from departments ;;
  es <- from employees ;;
  os <- from organizations ;;
  ret (filter (fun row => condition (fst (fst row))) (departmentsJoined ds es os)).

Definition getDepartments : M (list DepartmentWithManager.t) :=
  result <- selectDepartments noCondition ;;
  ret (map toDepartmentWithManager
         (orderBy (fun a b => ascText (Department.name (fst (fst a)))
                                (Department.name (fst (fst b)))) result)).

Definition getDepartment (id : string) : M (option DepartmentWithManager.t) :=
  found <- selectDepartments (fun d => Department.id d =? id) ;;
  match first found with
  | None => ret None
  | Some result => ret (Some (toDepartmentWithManager result))
  end.

Definition getDepartmentsByOrganization (organizationId : string)
  : M (list DepartmentWithManager.t) :=
  result <- selectDepartments
              (fun d => Department.organizationId d =? organizationId) ;;
  ret (map toDepartmentWithManager
         (orderBy (fun a b => ascText (Department.name (fst (fst a)))
                                (Department.name (fst (fst b)))) result)).

Definition createDepartment (department : InsertDepartment.t) : M Department.t :=
  id <- freshId ;;
  let newDepartment :=
    Department.mk id (InsertDepartment.name department)
      (InsertDepartment.organizationId department)
      (orNull (InsertDepartment.managerId department))
      (orNull (InsertDepartment.description department))
      (InsertDepartment.userId department) (Some now) (Some now) in
  insert departments [newDepartment] ;;;
  ret newDepartment.

Definition setManager (managerId : option string) (d : Department.t)
  : Department.t :=
  Department.mk (Department.id d) (Department.name d) (Department.organizationId d)
    managerId (Department.description d) (Department.userId d)
    (Department.createdAt d) (Some now).

Definition assignManagerToDepartment (departmentId : string)
  (managerId : option string) (userId : string) : M unit :=
  update departments (setManager managerId)
    (fun d => Department.id d =? departmentId) ;;;
  ret tt.

Definition getOrganizations : M (list Organization.t) :=
  found <- select organizations noCondition ;;
  ret (orderBy (fun a b => ascText (Organization.name a) (Organization.name b)) found).

Definition getOrganization (id : string)
  : M (option OrganizationWithDepartments.t) :=
  found <- select organizations (fun o => Organization.id o =? id) ;;
  match first found with
  | None => ret None
  | Some org =>
      deps <- getDepartmentsByOrganization id ;;
      ret (Some (OrganizationWithDepartments.mk org deps))
  end.

Definition createOrganization (organization : InsertOrganization.t)
  : M Organization.t :=
  id <- freshId ;;
  let newOrganization :=
    Organization.mk id (InsertOrganization.name organization)
      (orNull (InsertOrganization.description organization))
      (InsertOrganization.userId organization) (Some now) (Some now) in
  insert organizations [newOrganization] ;;;
  ret newOrganization.

(** *** Reports *)

Definition getProjectTaskBreakdown (userId : string)
  (startDate endDate : option string)
  : M (list (Project.t * list (option Task.t * Z) * Z)) :=
  ret [].

Definition toProjectTimeEntry (row : TimeEntry.t * option User.t * option Task.t)
  : ProjectTimeEntry.t :=
  let e := fst (fst row) in
  ProjectTimeEntry.mk (TimeEntry.id e) (TimeEntry.duration e)
    (TimeEntry.description e) (TimeEntry.date e) (TimeEntry.createdAt e)
    (TimeEntry.userId e) (TimeEntry.taskId e)
    (match snd (fst row) with
     | Some u => Some (EmployeeRef.mk (User.id u) (User.firstName u)
                         (User.lastName u) (User.email u))
     | None => None
     end)
    (match snd row with
     | Some t => Some (TaskRef.mk (Task.id t) (Task.name t) (Task.description t)
                         (Task.status t))
     | None => None
     end).

Definition getTimeEntriesForProject (projectId : string)
  : M (list ProjectTimeEntry.t) :=
  es <- from timeEntries ;;
  us <- from users ;;
  ts <- from tasks ;;
  let joined :=
    leftJoin (fun eu t => eqNullable (TimeEntry.taskId (fst eu)) (Task.id t))
      (leftJoin (fun e u => TimeEntry.userId e =? User.id u) es us) ts in
  let result :=
    orderBy
      (thenBy
         (fun a b => TimeEntry.date (fst (fst a)) =? TimeEntry.date (fst (fst b)))
         (fun a b => descText (TimeEntry.date (fst (fst a)))
                       (TimeEntry.date (fst (fst b))))
         (fun a b => descNullsFirst (TimeEntry.createdAt (fst (fst a)))
                       (TimeEntry.createdAt (fst (fst b)))))
      (filter (fun row => TimeEntry.projectId (fst (fst row)) =? projectId) joined) in
  ret (map toProjectTimeEntry result).

End DatabaseStorage.

(** ** Vocabulary of the statements *)

(** The role values the repository writes ([createTestUsers]). *)
Definition knownRoles : list string :=
  ["admin"; "manager"; "project_manager"; "employee"; "viewer"].

(** The role column of the acting user, NULL also when there is no such user. *)
Definition storedRole (userId : string) (db : Db) : option string :=
  match first (filter (fun u => User.id u =? userId) (usersRows db)) with
  | Some u => User.role u
  | None => None
  end.

(** The role every method works with after [user?.role || 'employee']. *)
Definition resolvedRole (userId : string) (db : Db) : string :=
  roleOrEmployee (first (filter (fun u => User.id u =? userId) (usersRows db))).

(** The same store with the acting user's role column set to 'employee'. *)
Definition relabel (userId : string) (u : User.t) : User.t :=
  if User.id u =? userId
  then User.mk (User.id u) (User.email u) (User.firstName u) (User.lastName u)
         (User.profileImageUrl u) (Some "employee") (User.isActive u)
         (User.lastLoginAt u) (User.createdAt u) (User.updatedAt u)
  else u.

Definition asEmployee (userId : string) (db : Db) : Db :=
  setRows users (map (relabel userId) (usersRows db)) db.

(** The message family of a role refusal. *)
Definition insufficient (message : string) : bool :=
  String.prefix "Insufficient permissions" message.

(** A run that ended in a role refusal. *)
Definition refused {A} (r : Res A) : bool :=
  match r with
  | Err m _ => insufficient m
  | Ok _ _ => false
  end.

(** A refusal leaves the store as the call found it. *)
Definition denialAtomic {A} (operation : M A) : Prop :=
  forall db m db', operation db = Err m db' -> insufficient m = true -> db' = db.

(** ** A small store for concrete runs *)

Definition now0 : Timestamp := 1755388800000%Z.
Definition uuid0 (n : nat) : string :=
  "uuid-" ++ NilEmpty.string_of_uint (Nat.to_uint n).

Definition mkUser (id : string) (role : option string) : User.t :=
  User.mk id None None None None role (Some true) None (Some 0%Z) (Some 0%Z).

Definition sampleUsers : list User.t :=
  [ mkUser "admin-1" (Some "admin");
    mkUser "pm-1" (Some "project_manager");
    mkUser "mgr-1" (Some "manager");
    mkUser "u1" (Some "employee");
    mkUser "u2" (Some "employee");
    mkUser "viewer-1" (Some "viewer");
    mkUser "odd-1" (Some "superuser");
    mkUser "blank-1" None ].

Definition mkProject (id name : string) (wide : bool) (owner : string) : Project.t :=
  Project.mk id name None None (Some "#1976D2") None None wide owner
    (Some 0%Z) (Some 0%Z).

Definition sampleProjects : list Project.t :=
  [ mkProject "p-wide" "Intranet" true "admin-1";
    mkProject "p-u1" "Skunkworks" false "u1";
    mkProject "p-u2" "Audit" false "u2" ].

Definition sampleTasks : list Task.t :=
  [ Task.mk "t1" "p-wide" "Design" None "active" (Some 0%Z) (Some 0%Z) ].

Definition mkEntry (id owner project day : string) (hundredths : Z) : TimeEntry.t :=
  TimeEntry.mk id owner project None None day "09:00" "10:00" hundredths
    (Some 0%Z) (Some 0%Z).

Definition sampleEntries : list TimeEntry.t :=
  [ mkEntry "e1" "u1" "p-wide" "2025-08-15" 100%Z;
    mkEntry "e2" "u2" "p-u2" "2025-08-16" 250%Z;
    mkEntry "e3" "u1" "p-u1" "2025-08-16" 150%Z ].

Definition sampleEmployees : list Employee.t :=
  [ Employee.mk "emp-1" "E001" "Mara" "Lind" "d1" "mgr-1" (Some 0%Z) (Some 0%Z);
    Employee.mk "emp-2" "E002" "Ben" "Ortiz" "d2" "u1" (Some 0%Z) (Some 0%Z);
    Employee.mk "emp-3" "E003" "Ada" "Kim" "d1" "u2" (Some 0%Z) (Some 0%Z) ].

Definition sampleDepartments : list Department.t :=
  [ Department.mk "dep-1" "Research" "org-1" (Some "emp-1") None "admin-1"
      (Some 0%Z) (Some 0%Z) ].

Definition sampleOrganizations : list Organization.t :=
  [ Organization.mk "org-1" "Acme" None "admin-1" (Some 0%Z) (Some 0%Z) ].

Definition db0 : Db :=
  mkDb sampleUsers sampleProjects sampleTasks sampleEntries sampleEmployees
    [] sampleDepartments sampleOrganizations 0.

(** A store in which nobody is an administrator. *)
Definition dbNoAdmin : Db :=
  mkDb [mkUser "u1" (Some "employee"); mkUser "u2" (Some "employee")]
    [mkProject "p-u1" "Skunkworks" false "u1"; mkProject "p-u2" "Audit" false "u2"]
    [Task.mk "t2" "p-u1" "Prototype" None "active" (Some 0%Z) (Some 0%Z)]
    [mkEntry "e2" "u2" "p-u2" "2025-08-16" 250%Z;
     mkEntry "e3" "u1" "p-u1" "2025-08-16" 150%Z]
    [Employee.mk "emp-2" "E002" "Ben" "Ortiz" "d2" "u1" (Some 0%Z) (Some 0%Z);
     Employee.mk "emp-3" "E003" "Ada" "Kim" "d1" "u2" (Some 0%Z) (Some 0%Z)]
    []
    [Department.mk "dep-2" "Support" "org-2" (Some "emp-2") None "u1"
       (Some 0%Z) (Some 0%Z)]
    [Organization.mk "org-2" "Birch" None "u1" (Some 0%Z) (Some 0%Z)]
    0.

Definition sampleInsertProject : InsertProject.t :=
  InsertProject.mk "Payroll" None None None None None None "u1".

Definition sampleInsertTask : InsertTask.t :=
  InsertTask.mk "p-wide" "Review" None None.

Definition sampleInsertEntry : InsertTimeEntry.t :=
  InsertTimeEntry.mk "viewer-1" "p-wide" None None "2025-08-17" "09:00" "10:30" 150%Z.

Definition noProjectPatch : PartialInsertProject.t :=
  PartialInsertProject.mk None None None None None None None None.
Definition moveEmployee : PartialInsertEmployee.t :=
  PartialInsertEmployee.mk None None None (Some "d9") None.

(** ** Further vocabulary *)

(** The value a run returned, if it returned. *)
Definition valueOf {A} (r : Res A) : option A :=
  match r with Ok a _ => Some a | Err _ _ => None end.

(** The store with the time entries of everybody else taken out. *)
Definition ownEntriesOnly (userId : string) (db : Db) : Db :=
  setRows timeEntries
    (filter (fun e => TimeEntry.userId e =? userId) (timeEntriesRows db)) db.

(** The role gate shared by the project, task and assignment methods. *)
Definition mayManageProjects (userId : string) (db : Db) : bool :=
  includes ["admin"; "project_manager"] (resolvedRole userId db).

(** ** What the schema accepts *)

(** A key that is stored in a table. *)
Definition stored {R} (t : Table R) (id : string) (db : Db) : Prop :=
  In id (map (key t) (rows t db)).

(** A project whose owner is stored and whose name, number and colour fit
    their columns. *)
Definition validProject (project : InsertProject.t) (db : Db) : Prop :=
  stored users (InsertProject.userId project) db /\
  String.length (InsertProject.name project) <= 255 /\
  (forall s, InsertProject.projectNumber project = Some (Some s) ->
             String.length s <= 50) /\
  (forall s, InsertProject.color project = Some (Some s) -> String.length s <= 7).

(** The same of the keys a patch carries. *)
Definition validProjectPatch (project : PartialInsertProject.t) (db : Db) : Prop :=
  (forall u, PartialInsertProject.userId project = Some u -> stored users u db) /\
  (forall s, PartialInsertProject.name project = Some s -> String.length s <= 255) /\
  (forall s, PartialInsertProject.projectNumber project = Some (Some s) ->
             String.length s <= 50) /\
  (forall s, PartialInsertProject.color project = Some (Some s) ->
             String.length s <= 7).

Definition validTask (task : InsertTask.t) (db : Db) : Prop :=
  stored projects (InsertTask.projectId task) db /\
  String.length (InsertTask.name task) <= 255 /\
  (forall s, InsertTask.status task = Some s -> String.length s <= 50).

Definition validTimeEntry (entry : InsertTimeEntry.t) (db : Db) : Prop :=
  stored users (InsertTimeEntry.userId entry) db /\
  stored projects (InsertTimeEntry.projectId entry) db /\
  (forall t, InsertTimeEntry.taskId entry = Some t -> stored tasks t db) /\
  dateInput (InsertTimeEntry.date entry) = None /\
  String.length (InsertTimeEntry.startTime entry) <= 5 /\
  String.length (InsertTimeEntry.endTime entry) <= 5 /\
  (Z.abs (InsertTimeEntry.duration entry) <= 99999)%Z.




(** ** Roles across the store *)



Definition withRole (role : option string) (u : User.t) : User.t :=
  User.mk (User.id u) (User.email u) (User.firstName u) (User.lastName u)
    (User.profileImageUrl u) role (User.isActive u)
    (User.lastLoginAt u) (User.createdAt u) (User.updatedAt u).

(** The same store with other roles in the role column. *)
Definition withRoles (roleOf : User.t -> option string) (db : Db) : Db :=
  setRows users (map (fun u => withRole (roleOf u) u) (usersRows db)) db.

(** The same store with the acting user an employee: a stored user is
    relabelled, a user that is not stored is added as the row [u]. *)
Definition enrolled (u : User.t) (us : list User.t) : list User.t :=
  if existsb (fun x => User.id x =? User.id u) us
  then map (relabel (User.id u)) us
  else us ++ [u].

Definition enrol (u : User.t) (db : Db) : Db :=
  setRows users (enrolled u (usersRows db)) db.

(** The order of [getEmployees]: by first name, then by last name. *)
Definition byName (a b : Employee.t) : Prop :=
  String.leb (Employee.firstName a) (Employee.firstName b) = true /\
  (Employee.firstName a = Employee.firstName b ->
   String.leb (Employee.lastName a) (Employee.lastName b) = true).

(** ** Stores the schema allows *)

Fixpoint distinct (keys : list string) : bool :=
  match keys with
  | [] => true
  | k :: rest => negb (includes rest k) && distinct rest
  end.

(** Every row of the table passes the checks of its table, and no two rows
    share a primary key. *)
Definition wellKept {R} (t : Table R) (db : Db) : bool :=
  forallb (fun r => match violation t db None r with
                    | None => true
                    | Some _ => false
                    end) (rows t db)
  && distinct (map (key t) (rows t db)).

Definition consistent (db : Db) : bool :=
  wellKept users db && wellKept projects db && wellKept tasks db
  && wellKept timeEntries db && wellKept employees db
  && wellKept projectEmployees db && wellKept departments db
  && wellKept organizations db.

(** ** Further stores for concrete runs *)

(** The small store with three assignments on its restricted projects. *)
Definition sampleAssignments : list ProjectEmployee.t :=
  [ ProjectEmployee.mk "pe-1" "p-u1" "emp-2" "admin-1" (Some 0%Z);
    ProjectEmployee.mk "pe-2" "p-u1" "emp-3" "admin-1" (Some 0%Z);
    ProjectEmployee.mk "pe-3" "p-u2" "emp-2" "pm-1" (Some 0%Z) ].

Definition dbAssigned : Db :=
  mkDb sampleUsers sampleProjects sampleTasks sampleEntries sampleEmployees
    sampleAssignments sampleDepartments sampleOrganizations 0.

(** The small store with every role replaced by 'viewer'. *)
Definition dbViewers : Db := withRoles (fun _ => Some "viewer") db0.


(** ** Facts about the query operators *)

Section QueryFacts.
Context {A : Type}.
Variable le : A -> A -> bool.

Lemma insertSorted_perm (x : A) (l : list A) :
  Permutation (x :: l) (insertSorted le x l).
Proof.
  induction l as [|y l IH]; simpl.
  - apply Permutation_refl.
  - destruct (le x y).
    + apply Permutation_refl.
    + eapply Permutation_trans.
      * apply perm_swap.
      * apply perm_skip, IH.
Qed.

Lemma orderBy_perm (l : list A) : Permutation l (orderBy le l).
Proof.
  induction l as [|x l IH]; simpl.
  - apply perm_nil.
  - eapply Permutation_trans.
    + apply perm_skip, IH.
    + apply insertSorted_perm.
Qed.

Lemma orderBy_In (l : list A) (x : A) : In x (orderBy le l) <-> In x l.
Proof.
  split; apply Permutation_in.
  - apply Permutation_sym, orderBy_perm.
  - apply orderBy_perm.
Qed.
(** [orderBy] sorts, for an order that is total and transitive. *)
Hypothesis le_total : forall a b, le a b = true \/ le b a = true.
Hypothesis le_trans : forall a b c, le a b = true -> le b c = true -> le a c = true.

Lemma insertSorted_sorted (x : A) (l : list A) :
  StronglySorted (fun a b => le a b = true) l ->
  StronglySorted (fun a b => le a b = true) (insertSorted le x l).
Proof.
  induction l as [|y l IH]; simpl; intro H.
  - constructor; constructor.
  - inversion H as [|? ? Hl Hy]; subst.
    destruct (le x y) eqn:E.
    + constructor; [exact H|]. constructor; [exact E|].
      apply Forall_forall. intros z Hz.
      apply (le_trans x y z E). exact (proj1 (Forall_forall _ _) Hy z Hz).
    + constructor; [apply IH, Hl|].
      apply Forall_forall. intros z Hz.
      apply (Permutation_in _ (Permutation_sym (insertSorted_perm x l))) in Hz.
      destruct Hz as [<-|Hz].
      * destruct (le_total x y) as [F|F]; [congruence|exact F].
      * exact (proj1 (Forall_forall _ _) Hy z Hz).
Qed.

Lemma orderBy_sorted (l : list A) :
  StronglySorted (fun a b => le a b = true) (orderBy le l).
Proof.
  induction l as [|x l IH]; simpl; [constructor|].
  apply insertSorted_sorted, IH.
Qed.
End QueryFacts.

Lemma stronglySorted_impl {A} (P Q : A -> A -> Prop) (l : list A) :
  (forall a b, P a b -> Q a b) -> StronglySorted P l -> StronglySorted Q l.
Proof.
  intros H Hl. induction Hl as [|a l Hl IH Ha]; constructor; [exact IH|].
  apply Forall_forall. intros b Hb. apply H.
  exact (proj1 (Forall_forall _ _) Ha b Hb).
Qed.

(** The byte-wise order of text is transitive. *)
Lemma ascii_compare_refl (a : Ascii.ascii) : Ascii.compare a a = Eq.
Proof. unfold Ascii.compare. apply N.compare_refl. Qed.

Lemma ascii_compare_lt_trans (a b c : Ascii.ascii) :
  Ascii.compare a b = Lt -> Ascii.compare b c = Lt -> Ascii.compare a c = Lt.
Proof.
  unfold Ascii.compare. rewrite !N.compare_lt_iff. apply N.lt_trans.
Qed.

Lemma string_compare_trans (a b c : string) :
  String.compare a b <> Gt -> String.compare b c <> Gt -> String.compare a c <> Gt.
Proof.
  revert b c. induction a as [|x a IH]; intros [|y b] [|z c]; simpl;
    try congruence.
  destruct (Ascii.compare x y) eqn:Exy; try congruence;
    destruct (Ascii.compare y z) eqn:Eyz; try congruence; intros Hab Hbc.
  - apply Ascii.compare_eq_iff in Exy, Eyz. subst.
    rewrite ascii_compare_refl. now apply (IH b c).
  - apply Ascii.compare_eq_iff in Exy. subst. rewrite Eyz. discriminate.
  - apply Ascii.compare_eq_iff in Eyz. subst. rewrite Exy. discriminate.
  - rewrite (ascii_compare_lt_trans x y z Exy Eyz). discriminate.
Qed.

Lemma leb_trans (a b c : string) :
  String.leb a b = true -> String.leb b c = true -> String.leb a c = true.
Proof.
  unfold String.leb. intros Hab Hbc.
  assert (H := string_compare_trans a b c).
  destruct (String.compare a b), (String.compare b c), (String.compare a c);
    try reflexivity; try discriminate; exfalso; apply H; congruence.
Qed.

Lemma distinctBy_incl {A} (key : A -> string) (l : list A) (x : A) :
  In x (distinctBy key l) -> In x l.
Proof.
  induction l as [|y l IH]; simpl; [tauto|].
  intros [E | H]; [now left|].
  apply filter_In in H. right. apply IH, H.
Qed.

Lemma filter_none {A} (f : A -> bool) (l : list A) :
  (forall x, In x l -> f x = false) -> filter f l = [].
Proof.
  induction l as [|x l IH]; simpl; intros H; [reflexivity|].
  rewrite (H x (or_introl eq_refl)). apply IH. intros y Hy. apply H. now right.
Qed.

Lemma map_untouched {A} (f : A -> bool) (g : A -> A) (l : list A) :
  (forall x, In x l -> f x = false) ->
  map (fun r => if f r then g r else r) l = l.
Proof.
  induction l as [|x l IH]; simpl; intros H; [reflexivity|].
  rewrite (H x (or_introl eq_refl)). f_equal. apply IH. intros y Hy. apply H. now right.
Qed.

Lemma filter_all {A} (f : A -> bool) (l : list A) :
  (forall x, In x l -> f x = true) -> filter f l = l.
Proof.
  induction l as [|x l IH]; simpl; intros H; [reflexivity|].
  rewrite (H x (or_introl eq_refl)). f_equal. apply IH. intros y Hy. apply H. now right.
Qed.

Lemma first_filter_some {A} (f : A -> bool) (l : list A) (x : A) :
  In x l -> f x = true ->
  exists y, first (filter f l) = Some y /\ In y l /\ f y = true.
Proof.
  intros Hin Hf.
  assert (Hx : In x (filter f l)) by (apply filter_In; auto).
  destruct (filter f l) as [|y rest] eqn:E; [contradiction|].
  exists y. split; [reflexivity|].
  assert (Hy : In y (filter f l)) by (rewrite E; now left).
  apply filter_In in Hy. exact Hy.
Qed.

(** Unfolds a storage method down to its gate and its list operations. *)
Ltac run_storage :=
  cbv beta iota zeta delta
    [ withDatabaseRetry bind ret throw tryCatch select from update delete insert
      refuse rows setRows key violation referenced
      users projects tasks timeEntries employees projectEmployees
      departments organizations
      setUsersRows setProjectsRows setTasksRows setTimeEntriesRows setEmployeesRows
      setProjectEmployeesRows setDepartmentsRows setOrganizationsRows
      unreferenced tasksDeleted projectsDeleted employeesDeleted
      organizationsDeleted freshId getUser
      updateUserRole getProjects getEmployeeProjects getProject
      createProject updateProject deleteProject
      getTasks getTask createTask updateTask deleteTask getAllUserTasks
      getTimeEntries getTimeEntry createTimeEntry updateTimeEntry deleteTimeEntry
      getRecentActivity getDashboardStats getProjectTimeBreakdown
      getEmployees getEmployee updateEmployee deleteEmployee
      getProjectWithEmployees assignEmployeesToProject getProjectEmployees
      removeEmployeeFromProject updateDepartment deleteDepartment
      updateOrganization deleteOrganization getDepartmentHoursSummary
      resolvedRole storedRole stateOf mapState refused asEmployee ].

(** The same for every method of the class, with the store's fields read. *)
Ltac run_more :=
  cbv beta iota zeta delta
    [ withDatabaseRetry bind ret throw tryCatch select from update delete insert
      refuse rows setRows key violation referenced
      users projects tasks timeEntries employees projectEmployees
      departments organizations
      setUsersRows setProjectsRows setTasksRows setTimeEntriesRows setEmployeesRows
      setProjectEmployeesRows setDepartmentsRows setOrganizationsRows
      unreferenced tasksDeleted projectsDeleted employeesDeleted
      organizationsDeleted freshId getUser
      updateUserRole getProjects getEmployeeProjects getProject
      createProject updateProject deleteProject
      getTasks getTask createTask updateTask deleteTask getAllUserTasks
      getTimeEntries getTimeEntry createTimeEntry updateTimeEntry deleteTimeEntry
      getRecentActivity getDashboardStats getProjectTimeBreakdown
      getEmployees getEmployee updateEmployee deleteEmployee
      getProjectWithEmployees assignEmployeesToProject getProjectEmployees
      removeEmployeeFromProject updateDepartment deleteDepartment
      updateOrganization deleteOrganization getDepartmentHoursSummary
      resolvedRole storedRole stateOf mapState refused asEmployee
      valueOf ownEntriesOnly mayManageProjects
      insertUserOnConflictDoUpdate upsertUser getAllUsers
      getUsersWithoutEmployeeProfile getEmployeeByUserId deactivateUser
      createTestUsers getTestUsers createEmployee linkUserToEmployee
      selectDepartments getDepartments getDepartment getDepartmentsByOrganization
      createDepartment assignManagerToDepartment getOrganizations getOrganization
      createOrganization getProjectTaskBreakdown getTimeEntriesForProject ];
  cbn [usersRows projectsRows tasksRows timeEntriesRows employeesRows
       projectEmployeesRows departmentsRows organizationsRows uuidCount].

Lemma includes_false_iff (l : list string) (x : string) :
  includes l x = false <-> ~ In x l.
Proof.
  unfold includes. split.
  - intros H Hin.
    assert (E : existsb (String.eqb x) l = true).
    { apply existsb_exists. exists x. split; [exact Hin|apply String.eqb_refl]. }
    congruence.
  - intros H. destruct (existsb (String.eqb x) l) eqn:E; [|reflexivity].
    apply existsb_exists in E. destruct E as [y [Hy Hxy]].
    apply String.eqb_eq in Hxy. subst y. contradiction.
Qed.

(** Supplies the value of a concrete run as the witness of [exists v, run = Ok v _ /\ _]. *)
Ltac by_running :=
  match goal with
  | |- exists v, ?run = Ok v _ /\ _ =>
      let r := eval vm_compute in run in
      match r with
      | Ok ?x _ => exists x; split; [vm_compute; reflexivity|]
      end
  end.

(** ** Facts about the engine's checks *)

Lemma message_is_no_refusal (v : Violation) : insufficient (message v) = false.
Proof. destruct v; reflexivity. Qed.

Lemma firstViolation_none (checks : list (option Violation)) :
  (forall c, In c checks -> c = None) -> firstViolation checks = None.
Proof.
  induction checks as [|c checks IH]; intro H; [reflexivity|].
  rewrite (H c (or_introl eq_refl)). apply IH. intros c' Hc'. apply H. now right.
Qed.

Lemma firstViolation_rows {R} (check : R -> option Violation) (l : list R) :
  (forall r, In r l -> check r = None) -> firstViolation (map check l) = None.
Proof.
  intro H. apply firstViolation_none. intros c Hc.
  apply in_map_iff in Hc. destruct Hc as [r [<- Hr]]. apply H, Hr.
Qed.

Lemma firstViolation_ext {R} (f g : R -> option Violation) (l : list R) :
  (forall r, In r l -> f r = g r) ->
  firstViolation (map f l) = firstViolation (map g l).
Proof.
  intro H. f_equal. apply map_ext_in, H.
Qed.

Lemma update_accepted {R} (t : Table R) (set : R -> R) (cond : R -> bool) (db : Db) :
  (forall r, In r (rows t db) -> cond r = true ->
             violation t db (Some r) (set r) = None) ->
  update t set cond db
  = Ok (map set (filter cond (rows t db)))
       (setRows t (map (fun r => if cond r then set r else r) (rows t db)) db).
Proof.
  intro H. unfold update. rewrite firstViolation_rows; [reflexivity|].
  intros r Hr. apply filter_In in Hr. now apply H.
Qed.

Lemma update_cases {R} (t : Table R) (set : R -> R) (cond : R -> bool) (db : Db) :
  update t set cond db
  = Ok (map set (filter cond (rows t db)))
       (setRows t (map (fun r => if cond r then set r else r) (rows t db)) db)
  \/ exists v, update t set cond db = Err (message v) db.
Proof.
  unfold update. destruct (firstViolation _) as [v|]; [right|left].
  - now exists v.
  - reflexivity.
Qed.

Lemma insert_accepted {R} (t : Table R) (new : list R) (db : Db) :
  (forall r, In r new -> violation t db None r = None) ->
  insert t new db = Ok new (setRows t (rows t db ++ new) db).
Proof.
  intro H. unfold insert. now rewrite firstViolation_rows.
Qed.

Lemma insert_cases {R} (t : Table R) (new : list R) (db : Db) :
  insert t new db = Ok new (setRows t (rows t db ++ new) db)
  \/ exists v, insert t new db = Err (message v) db.
Proof.
  unfold insert. destruct (firstViolation _) as [v|]; [right|left].
  - now exists v.
  - reflexivity.
Qed.

Lemma checkColumn_unwritten {R A} (eqb : A -> A -> bool) (column : R -> A)
  (check : A -> option Violation) (old new : R) :
  eqb (column old) (column new) = true ->
  checkColumn eqb column check (Some old) new = None.
Proof.
  intro H. unfold checkColumn, written. now rewrite H.
Qed.

Lemma checkColumn_passes {R A} (eqb : A -> A -> bool) (column : R -> A)
  (check : A -> option Violation) (old : option R) (new : R) :
  check (column new) = None -> checkColumn eqb column check old new = None.
Proof.
  intro H. unfold checkColumn. now destruct (written _ _ _ _).
Qed.

Lemma sameText_refl (a : option string) : sameText a a = true.
Proof. destruct a; simpl; [apply String.eqb_refl|reflexivity]. Qed.

Lemma sameText_eq (a b : option string) : sameText a b = true -> a = b.
Proof.
  destruct a, b; simpl; try discriminate; [|reflexivity].
  intro H. apply String.eqb_eq in H. now subst.
Qed.

Lemma varchar_fits (limit : nat) (text : string) :
  String.length text <= limit -> varchar limit text = None.
Proof.
  intro H. unfold varchar, unless.
  now rewrite (proj2 (Nat.leb_le _ _) H).
Qed.


Lemma decimal_fits (hundredths : Z) :
  (Z.abs hundredths <= 99999)%Z -> decimal_5_2 hundredths = None.
Proof.
  intro H. unfold decimal_5_2, unless.
  now rewrite (proj2 (Z.leb_le _ _) H).
Qed.

Lemma includes_true_iff (l : list string) (x : string) :
  includes l x = true <-> In x l.
Proof.
  unfold includes. rewrite existsb_exists. split.
  - intros [y [Hy E]]. apply String.eqb_eq in E. now subst.
  - intro H. exists x. split; [exact H|apply String.eqb_refl].
Qed.

Lemma references_stored (keys : list string) (table name value : string) :
  In value keys -> references keys table name value = None.
Proof.
  intro H. unfold references, unless.
  now rewrite (proj2 (includes_true_iff _ _) H).
Qed.

Lemma references_missing (keys : list string) (table name value : string) :
  ~ In value keys ->
  references keys table name value = Some (ForeignKey table name).
Proof.
  intro H. unfold references, unless.
  now rewrite (proj2 (includes_false_iff _ _) H).
Qed.

(** ** Rows the engine accepts *)

(** Splits a table's check into its columns. *)
Ltac by_columns :=
  apply firstViolation_none;
  let c := fresh "c" in let Hc := fresh "Hc" in
  intros c Hc; cbn [In] in Hc;
  repeat (destruct Hc as [<-|Hc]); [..|contradiction].

Lemma nullable_fits (limit : nat) (text : option string) :
  (forall s, text = Some s -> String.length s <= limit) ->
  varcharNullable limit text = None.
Proof.
  intro H. destruct text as [s|]; [|reflexivity].
  apply varchar_fits, H. reflexivity.
Qed.

Lemma nullable_stored (keys : list string) (table name : string)
  (value : option string) :
  (forall v, value = Some v -> In v keys) ->
  referencesNullable keys table name value = None.
Proof.
  intro H. destruct value as [v|]; [|reflexivity].
  apply references_stored, H. reflexivity.
Qed.

Lemma project_accepted (db : Db) (id : string) (at_ : Timestamp)
  (project : InsertProject.t) :
  validProject project db ->
  projectViolation db None (completeProject id at_ project) = None.
Proof.
  intros [Huser [Hname [Hnumber Hcolor]]]. unfold projectViolation.
  by_columns; apply checkColumn_passes; cbn [completeProject Project.name
    Project.projectNumber Project.color Project.userId].
  - now apply varchar_fits.
  - apply nullable_fits. intros s E.
    destruct (InsertProject.projectNumber project) as [[s'|]|]; try discriminate.
    injection E as <-. now apply Hnumber.
  - apply nullable_fits. intros s E.
    destruct (InsertProject.color project) as [[s'|]|]; try discriminate;
      injection E as <-; [now apply Hcolor|simpl; lia].
  - now apply references_stored.
Qed.

(** One column of a patch: the key is present and its value passes, or the
    key is absent and the column is not written. *)
Ltac patch_column :=
  unfold checkColumn, written;
  cbn [setProject setTask setTimeEntry setEmployee setOrganization setDepartment
       Project.name Project.projectNumber Project.color Project.userId
       Task.name Task.status Task.projectId
       TimeEntry.date TimeEntry.startTime TimeEntry.endTime TimeEntry.duration
       TimeEntry.userId TimeEntry.projectId TimeEntry.taskId
       Employee.employeeId Employee.userId Employee.id
       Organization.userId
       Department.organizationId Department.managerId Department.userId];
  match goal with
  | |- context [spread ?k _] => destruct k eqn:?
  | |- context [spreadSome ?k _] => destruct k eqn:?
  end;
  cbn [spread spreadSome];
  [ match goal with |- (if ?c then _ else _) = _ => destruct c; [|reflexivity] end
  | rewrite ?String.eqb_refl, ?sameText_refl, ?Z.eqb_refl; reflexivity ].

Lemma projectPatch_accepted (db : Db) (at_ : Timestamp)
  (project : PartialInsertProject.t) (p : Project.t) :
  validProjectPatch project db ->
  projectViolation db (Some p) (setProject project at_ p) = None.
Proof.
  intros [Huser [Hname [Hnumber Hcolor]]]. unfold projectViolation.
  by_columns; cbn [setProject Project.name Project.projectNumber Project.color
                     Project.userId]; patch_column.
  - now apply varchar_fits, Hname.
  - apply nullable_fits. intros s' ->. now apply Hnumber.
  - apply nullable_fits. intros s' ->. now apply Hcolor.
  - now apply references_stored, Huser.
Qed.

Lemma task_accepted (db : Db) (id : string) (at_ : Timestamp) (task : InsertTask.t) :
  validTask task db ->
  taskViolation db None (completeTask id at_ task) = None.
Proof.
  intros [Hproject [Hname Hstatus]]. unfold taskViolation.
  by_columns; apply checkColumn_passes;
    cbn [completeTask Task.name Task.status Task.projectId].
  - now apply varchar_fits.
  - destruct (InsertTask.status task) as [s|]; [|reflexivity].
    now apply varchar_fits, Hstatus.
  - now apply references_stored.
Qed.

Lemma timeEntry_accepted (db : Db) (id : string) (at_ : Timestamp)
  (entry : InsertTimeEntry.t) :
  validTimeEntry entry db ->
  timeEntryViolation db None (completeTimeEntry id at_ entry) = None.
Proof.
  intros [Huser [Hproject [Htask [Hdate [Hstart [Hend Hduration]]]]]].
  unfold timeEntryViolation.
  by_columns; apply checkColumn_passes;
    cbn [completeTimeEntry TimeEntry.date TimeEntry.startTime TimeEntry.endTime
           TimeEntry.duration TimeEntry.userId TimeEntry.projectId TimeEntry.taskId].
  - exact Hdate.
  - now apply varchar_fits.
  - now apply varchar_fits.
  - now apply decimal_fits.
  - now apply references_stored.
  - now apply references_stored.
  - now apply nullable_stored.
Qed.


(** The stores of the concrete runs are stores the schema allows. *)
Lemma sample_stores_consistent :
  consistent db0 = true /\ consistent dbNoAdmin = true /\
  consistent dbAssigned = true /\ consistent dbViewers = true.
Proof. repeat split; vm_compute; reflexivity. Qed.

(** ** Reading projects and employees *)

(** C9: reading one project by id does not depend on who asks; any stored
    project, restricted or not and whoever owns it, is returned to any user
    id that asks for its id. *)
Theorem getProject_ignores_requester :
  forall (db : Db) (id u1 u2 : string),
    getProject id u1 db = getProject id u2 db /\
    (forall p, In p (projectsRows db) ->
       exists p', getProject (Project.id p) u1 db = Ok (Some p') db /\
                  Project.id p' = Project.id p /\ In p' (projectsRows db)).
Proof.
  intros db id u1 u2. split; [reflexivity|].
  intros p Hp. run_storage.
  destruct (first_filter_some (fun q => Project.id q =? Project.id p)
              (projectsRows db) p Hp (String.eqb_refl _)) as [y [E [Hy Hk]]].
  exists y. rewrite E. apply String.eqb_eq in Hk. auto.
Qed.

Lemma getProject_ignores_requester_witness :
  exists p', getProject "p-u2" "u1" db0 = Ok (Some p') db0 /\
             Project.id p' = "p-u2" /\ Project.isEnterpriseWide p' = false /\
             Project.userId p' = "u2".
Proof.
  destruct (getProject_ignores_requester db0 "p-u2" "u1" "viewer-1") as [_ H].
  destruct (H (mkProject "p-u2" "Audit" false "u2")) as [p' [E [Hid Hin]]].
  - simpl. auto.
  - exists p'. split; [exact E|]. split; [exact Hid|].
    simpl in Hin. destruct Hin as [<-|[<-|[<-|[]]]]; simpl in Hid; try discriminate.
    split; reflexivity.
Defined.

Lemma byName_order (a b : Employee.t) :
  thenBy (fun a b => Employee.firstName a =? Employee.firstName b)
    (fun a b => ascText (Employee.firstName a) (Employee.firstName b))
    (fun a b => ascText (Employee.lastName a) (Employee.lastName b)) a b = true
  <-> byName a b.
Proof.
  unfold thenBy, ascText, byName.
  destruct (Employee.firstName a =? Employee.firstName b) eqn:E.
  - apply String.eqb_eq in E. rewrite E. split.
    + intro H. split; [|now intros _].
      destruct (String.leb_total (Employee.firstName b) (Employee.firstName b));
        assumption.
    + intros [_ H]. now apply H.
  - apply String.eqb_neq in E. split.
    + intro H. split; [exact H|]. intro F. contradiction.
    + now intros [H _].
Qed.

Lemma byName_total (a b : Employee.t) : byName a b \/ byName b a.
Proof.
  unfold byName.
  destruct (String.leb_total (Employee.firstName a) (Employee.firstName b)) as [H|H];
    destruct (String.leb_total (Employee.lastName a) (Employee.lastName b)) as [K|K].
  - left. auto.
  - destruct (String.leb (Employee.firstName b) (Employee.firstName a)) eqn:F.
    + right. auto.
    + left. split; [exact H|]. intro E. rewrite E in F.
      destruct (String.leb_total (Employee.firstName b) (Employee.firstName b));
        congruence.
  - destruct (String.leb (Employee.firstName a) (Employee.firstName b)) eqn:F.
    + left. auto.
    + right. split; [exact H|]. intro E. rewrite E in F.
      destruct (String.leb_total (Employee.firstName a) (Employee.firstName a));
        congruence.
  - right. auto.
Qed.

Lemma byName_trans (a b c : Employee.t) : byName a b -> byName b c -> byName a c.
Proof.
  unfold byName. intros [Hab Kab] [Hbc Kbc].
  split; [exact (leb_trans _ _ _ Hab Hbc)|].
  intro E. rewrite E in Hab.
  assert (Ebc : Employee.firstName b = Employee.firstName c)
    by (apply String.leb_antisym; assumption).
  assert (Eab : Employee.firstName a = Employee.firstName b) by congruence.
  exact (leb_trans _ _ _ (Kab Eab) (Kbc Ebc)).
Qed.

(** C5, as the code has it: whatever the role of the caller, a manager
    included, [getEmployees] returns every stored employee, each once,
    ordered by first name and then last name, and applies no department
    filter; the store is only read. *)
Theorem getEmployees_returns_all :
  forall (db : Db) (userId : string),
    exists l, getEmployees userId db = Ok l db /\
              Permutation (employeesRows db) l /\
              (forall e, In e l <-> In e (employeesRows db)) /\
              StronglySorted byName l.
Proof.
  intros db userId. run_storage.
  destruct (roleOrEmployee _ =? "admin");
    (eexists; split; [reflexivity|]; unfold noCondition;
     rewrite filter_all by reflexivity;
     split; [apply orderBy_perm | split; [intro e; apply orderBy_In|]];
     eapply stronglySorted_impl;
     [ intros a b H; apply byName_order, H
     | apply orderBy_sorted;
       [ intros a b; destruct (byName_total a b) as [H|H];
         [left|right]; apply byName_order, H
       | intros a b c Hab Hbc; apply byName_order;
         apply byName_order in Hab, Hbc; exact (byName_trans a b c Hab Hbc) ] ]).
Qed.

(** C5 fails as stated: the manager of department d1 is handed an employee
    of department d2. *)
Lemma getEmployees_manager_sees_other_department :
  resolvedRole "mgr-1" db0 = "manager" /\
  map Employee.department
    (filter (fun e => Employee.userId e =? "mgr-1") (employeesRows db0)) = ["d1"] /\
  exists l, getEmployees "mgr-1" db0 = Ok l db0 /\
            map Employee.department l = ["d1"; "d2"; "d1"].
Proof.
  split; [reflexivity|]. split; [reflexivity|].
  by_running. reflexivity.
Qed.

(** C8, as the code has it: [getEmployeeProjects] returns exactly the
    projects flagged enterprise-wide, no restricted project at all, and the
    project breakdown of an employee is built from enterprise-wide projects
    only. *)
Theorem employee_projects_are_enterprise_wide :
  forall (db : Db) (userId : string),
    (exists l, getEmployeeProjects userId db = Ok l db /\
       forall p, In p l <->
                 In p (projectsRows db) /\ Project.isEnterpriseWide p = true) /\
    (resolvedRole userId db = "employee" ->
     forall startDate endDate,
     exists l, getProjectTimeBreakdown userId startDate endDate db = Ok l db /\
       forall r, In r l ->
                 In (ProjectBreakdown.project r) (projectsRows db) /\
                 Project.isEnterpriseWide (ProjectBreakdown.project r) = true).
Proof.
  intros db userId. split.
  - run_storage. eexists. split; [reflexivity|].
    intro p. rewrite orderBy_In, filter_In.
    destruct (Project.isEnterpriseWide p); simpl; intuition congruence.
  - intros Hrole startDate endDate. run_storage.
    unfold resolvedRole in Hrole. rewrite Hrole. cbn [String.eqb Ascii.eqb Bool.eqb].
    eexists. split; [reflexivity|].
    intros r Hr. apply in_map_iff in Hr. destruct Hr as [[p s] [<- Hr]].
    apply filter_In in Hr. destruct Hr as [Hr _].
    apply orderBy_In in Hr. apply in_map_iff in Hr.
    destruct Hr as [q [Eq Hq]]. injection Eq as <- _.
    apply distinctBy_incl in Hq. apply in_map_iff in Hq.
    destruct Hq as [[q' e] [<- Hq]]. simpl.
    apply filter_In in Hq. destruct Hq as [Hin Hcond].
    split.
    + unfold leftJoin in Hin. apply in_flat_map in Hin.
      destruct Hin as [p0 [Hp0 Hrow]].
      destruct (filter _ (timeEntriesRows db)) as [|t ts].
      * destruct Hrow as [E|[]]. now injection E as <- _.
      * apply in_map_iff in Hrow. destruct Hrow as [b [E _]]. now injection E as <- _.
    + assert (Hwide : Bool.eqb (Project.isEnterpriseWide q') true = true).
      { destruct (truthy startDate), (truthy endDate);
          cbn in Hcond; unfold and_ in Hcond; cbn in Hcond;
          apply andb_true_iff in Hcond; apply Hcond. }
      destruct (Project.isEnterpriseWide q'); [reflexivity|discriminate].
Qed.

Lemma employee_projects_are_enterprise_wide_witness :
  exists l, getProjectTimeBreakdown "u1" None None db0 = Ok l db0 /\
            map (fun r => Project.id (ProjectBreakdown.project r)) l = ["p-wide"].
Proof.
  destruct (employee_projects_are_enterprise_wide db0 "u1") as [_ H].
  destruct (H eq_refl None None) as [l [E _]].
  exists l. split; [exact E|].
  vm_compute in E. injection E as <-. reflexivity.
Defined.

(** C8 fails as stated: the restricted project p-u1 is owned by the employee
    u1 and is stored, yet it is not in the list u1 gets. *)
Lemma getEmployeeProjects_omits_owned_restricted :
  resolvedRole "u1" db0 = "employee" /\
  In (mkProject "p-u1" "Skunkworks" false "u1") (projectsRows db0) /\
  exists l, getEmployeeProjects "u1" db0 = Ok l db0 /\
            map Project.id l = ["p-wide"].
Proof.
  split; [reflexivity|]. split; [simpl; auto|].
  by_running. reflexivity.
Qed.

(** ** Role gates *)

Lemma orElse_present (s : string) : orElse (Some s) "" = s.
Proof.
  unfold orElse. destruct (s =? "") eqn:E; [|reflexivity].
  apply String.eqb_eq in E. now subst.
Qed.

Lemma keep_eta (db : Db) :
  mkDb (usersRows db) (projectsRows db) (tasksRows db) (timeEntriesRows db)
    (employeesRows db) (projectEmployeesRows db) (departmentsRows db)
    (organizationsRows db) (uuidCount db) = db.
Proof. now destruct db. Qed.

(** [newAssignments] builds one row per employee id and touches no table. *)
Lemma newAssignments_run (at_ : Timestamp) (ids : nat -> string)
  (projectId userId : string) (employeeIds : list string) :
  forall db,
  exists l,
    newAssignments at_ ids projectId userId employeeIds db
    = Ok l (mkDb (usersRows db) (projectsRows db) (tasksRows db)
              (timeEntriesRows db) (employeesRows db) (projectEmployeesRows db)
              (departmentsRows db) (organizationsRows db)
              (length employeeIds + uuidCount db)) /\
    map ProjectEmployee.employeeId l = employeeIds /\
    (forall pe, In pe l -> ProjectEmployee.projectId pe = projectId /\
                           ProjectEmployee.userId pe = userId).
Proof.
  induction employeeIds as [|e es IH]; intro db.
  - exists []. cbn. rewrite keep_eta. repeat split; contradiction.
  - cbn [newAssignments]. unfold bind at 1. unfold freshId at 1.
    unfold bind at 1.
    destruct (IH (mkDb (usersRows db) (projectsRows db) (tasksRows db)
                    (timeEntriesRows db) (employeesRows db)
                    (projectEmployeesRows db) (departmentsRows db)
                    (organizationsRows db) (S (uuidCount db)))) as [l [E [Hm Hl]]].
    rewrite E. cbn [usersRows projectsRows tasksRows timeEntriesRows employeesRows
                    projectEmployeesRows departmentsRows organizationsRows uuidCount].
    eexists. split; [unfold ret; f_equal; f_equal; cbn; lia|].
    split; [cbn; now rewrite Hm|].
    intros pe [<-|Hpe]; [split; reflexivity|now apply Hl].
Qed.

(** Splits on every gate and lookup left in a goal about a run. *)
Ltac split_run :=
  repeat match goal with
    | |- context [if ?c then _ else _] => destruct c eqn:?
    | |- context [match first ?l with _ => _ end] => destruct (first l) eqn:?
    | |- context [match firstViolation ?l with _ => _ end] =>
        destruct (firstViolation l) eqn:?
    | |- context [match newAssignments ?a ?g ?p ?u ?e ?d with _ => _ end] =>
        let l := fresh "l" in let E := fresh "E" in
        destruct (newAssignments_run a g p u e d) as [l [E _]]; rewrite E;
        cbn [usersRows projectsRows tasksRows timeEntriesRows employeesRows
             projectEmployeesRows departmentsRows organizationsRows uuidCount]
    end.

(** Splits on the truthiness of an optional acting user id. *)
Ltac split_truthy :=
  try match goal with
    | |- context [truthy (Some ?u)] =>
        cbn [truthy orElse]; destruct (u =? "") eqn:?; cbn [negb andb]; cbv iota
    | |- context [truthy ?a] =>
        destruct a as [?u|]; cbn [truthy orElse];
        [destruct (u =? "") eqn:?; cbn [negb andb]; cbv iota|]
    end.

(** The checks on a time entry read the keys of the users, not their roles. *)
Lemma timeEntryViolation_keys (db db' : Db) (old : option TimeEntry.t)
  (new : TimeEntry.t) :
  map User.id (usersRows db') = map User.id (usersRows db) ->
  projectsRows db' = projectsRows db ->
  tasksRows db' = tasksRows db ->
  timeEntryViolation db' old new = timeEntryViolation db old new.
Proof.
  intros Hu Hp Ht. unfold timeEntryViolation. now rewrite Hu, Hp, Ht.
Qed.

Lemma withRoles_keys (roleOf : User.t -> option string) (us : list User.t) :
  map User.id (map (fun u => withRole (roleOf u) u) us) = map User.id us.
Proof. rewrite map_map. now apply map_ext. Qed.

Section Gates.
Variable now : Timestamp.
Variable gen_random_uuid : nat -> string.

(** C1, as the code has it: when the resolved role is not on the list of a
    role-gated method, the call throws an Error of the
    'Insufficient permissions' family, returns no value, and leaves the
    store as it found it. *)
Theorem refusal_is_a_thrown_error :
  forall (db : Db) (userId : string),
    (includes ["admin"; "project_manager"] (resolvedRole userId db) = false ->
     (forall project,
        createProject now gen_random_uuid project userId db
        = Err "Insufficient permissions to create projects" db) /\
     (forall id project,
        updateProject now id project userId db
        = Err "Insufficient permissions to update projects" db) /\
     (forall id,
        deleteProject id userId db
        = Err "Insufficient permissions to delete projects" db) /\
     (forall task, (userId =? "") = false ->
        createTask now gen_random_uuid task (Some userId) db
        = Err "Insufficient permissions to create tasks" db) /\
     (forall id taskData,
        updateTask now id taskData userId db
        = Err "Insufficient permissions to update tasks" db) /\
     (forall id,
        deleteTask id userId db
        = Err "Insufficient permissions to delete tasks" db) /\
     (forall projectId employeeIds,
        assignEmployeesToProject now gen_random_uuid projectId employeeIds userId db
        = Err "Insufficient permissions to assign employees to projects" db) /\
     (forall projectId,
        getProjectEmployees projectId userId db
        = Err "Insufficient permissions to view project employee assignments" db) /\
     (forall projectId employeeId,
        removeEmployeeFromProject projectId employeeId userId db
        = Err "Insufficient permissions to remove employees from projects" db)) /\
    (includes ["admin"; "manager"] (resolvedRole userId db) = false ->
     forall id employeeData,
       updateEmployee now id employeeData userId db
       = Err "Insufficient permissions to update employee information" db) /\
    ((resolvedRole userId db =? "admin") = false ->
     (forall id,
        deleteEmployee id userId db
        = Err "Insufficient permissions to delete employees" db) /\
     (forall id organization,
        updateOrganization now id organization userId db
        = Err "Insufficient permissions to update organizations" db) /\
     (forall id,
        deleteOrganization id userId db
        = Err "Insufficient permissions to delete organizations" db)).
Proof.
  intros db userId. unfold resolvedRole.
  split; [|split]; intro H; repeat split; intros;
    run_storage; cbn [truthy orElse]; rewrite ?orElse_present;
    try match goal with E : (userId =? "") = false |- _ => rewrite E; cbn [negb] end;
    rewrite H; reflexivity.
Qed.

(** C3, as the code has it: a role-gated method refuses exactly the
    resolved roles that are not on its list, so every role string has one
    outcome and an unlisted one is refused.  [createTimeEntry] has no gate:
    it is never refused for lack of permission, it ends the same whatever
    roles the users table holds, and it appends every entry the schema
    accepts. *)
Theorem gates_fail_closed :
  forall (db : Db) (userId : string),
    let role := resolvedRole userId db in
    let pm := negb (includes ["admin"; "project_manager"] role) in
    (forall project,
       refused (createProject now gen_random_uuid project userId db) = pm) /\
    (forall id project, refused (updateProject now id project userId db) = pm) /\
    (forall id, refused (deleteProject id userId db) = pm) /\
    (forall task,
       refused (createTask now gen_random_uuid task (Some userId) db)
       = negb (userId =? "") && pm) /\
    (forall id taskData, refused (updateTask now id taskData userId db) = pm) /\
    (forall id, refused (deleteTask id userId db) = pm) /\
    (forall projectId employeeIds,
       refused (assignEmployeesToProject now gen_random_uuid projectId employeeIds
                  userId db) = pm) /\
    (forall projectId, refused (getProjectEmployees projectId userId db) = pm) /\
    (forall projectId employeeId,
       refused (removeEmployeeFromProject projectId employeeId userId db) = pm) /\
    (forall id employeeData,
       refused (updateEmployee now id employeeData userId db)
       = negb (includes ["admin"; "manager"] role)) /\
    (forall id, refused (deleteEmployee id userId db) = negb (role =? "admin")) /\
    (forall id organization,
       refused (updateOrganization now id organization userId db)
       = negb (role =? "admin")) /\
    (forall id, refused (deleteOrganization id userId db) = negb (role =? "admin")) /\
    (forall entry,
       refused (createTimeEntry now gen_random_uuid entry db) = false) /\
    (forall entry roleOf,
       createTimeEntry now gen_random_uuid entry (withRoles roleOf db)
       = mapState (withRoles roleOf)
           (createTimeEntry now gen_random_uuid entry db)) /\
    (forall entry, validTimeEntry entry db ->
       exists e db',
         createTimeEntry now gen_random_uuid entry db = Ok e db' /\
         e = completeTimeEntry (gen_random_uuid (uuidCount db)) now entry /\
         timeEntriesRows db' = timeEntriesRows db ++ [e]).
Proof.
  intros db userId role pm. subst role pm. unfold resolvedRole.
  repeat match goal with |- _ /\ _ => split end; intros.
  all: try (run_storage; split_truthy; split_run;
            try reflexivity; try discriminate; apply message_is_no_refusal).
  - unfold createTimeEntry, withDatabaseRetry, withRoles, bind, freshId, ret, insert.
    cbn [map firstViolation violation timeEntries rows setRows users
         setUsersRows setTimeEntriesRows usersRows projectsRows tasksRows
         timeEntriesRows employeesRows projectEmployeesRows departmentsRows
         organizationsRows uuidCount].
    match goal with
    | |- context [timeEntryViolation (mkDb (map ?f ?us) ?p ?t ?e ?em ?pe ?d ?o ?c)
                    ?old ?new] =>
        rewrite (timeEntryViolation_keys (mkDb us p t e em pe d o c)
                   (mkDb (map f us) p t e em pe d o c) old new
                   (withRoles_keys roleOf us) eq_refl eq_refl)
    end.
    destruct (timeEntryViolation _ _ _); reflexivity.
  - unfold createTimeEntry, withDatabaseRetry, bind, freshId, ret.
    rewrite insert_accepted.
    + eexists _, _. split; [reflexivity|]. split; reflexivity.
    + intros r [<-|[]]. cbn [violation timeEntries].
      apply timeEntry_accepted. exact H.
Qed.

(** C10: in each of the twelve role-gated mutations, a run that ends in an
    'Insufficient permissions' error ends in the store it started from. *)
Theorem denial_is_atomic :
  forall (userId : string),
    (forall project, denialAtomic (createProject now gen_random_uuid project userId)) /\
    (forall id project, denialAtomic (updateProject now id project userId)) /\
    (forall id, denialAtomic (deleteProject id userId)) /\
    (forall task actor, denialAtomic (createTask now gen_random_uuid task actor)) /\
    (forall id taskData, denialAtomic (updateTask now id taskData userId)) /\
    (forall id, denialAtomic (deleteTask id userId)) /\
    (forall id employeeData, denialAtomic (updateEmployee now id employeeData userId)) /\
    (forall id, denialAtomic (deleteEmployee id userId)) /\
    (forall projectId employeeIds,
       denialAtomic (assignEmployeesToProject now gen_random_uuid projectId
                       employeeIds userId)) /\
    (forall projectId employeeId,
       denialAtomic (removeEmployeeFromProject projectId employeeId userId)) /\
    (forall id organization,
       denialAtomic (updateOrganization now id organization userId)) /\
    (forall id, denialAtomic (deleteOrganization id userId)).
Proof.
  intro userId.
  repeat split; intros; intros db m db' Hrun Hm; revert Hrun; run_storage;
    split_truthy; split_run; intro Hrun; try discriminate;
    injection Hrun as <- <-; try reflexivity;
    try (rewrite message_is_no_refusal in Hm); discriminate.
Qed.

End Gates.

Lemma refusal_is_a_thrown_error_witness :
  createProject now0 uuid0 sampleInsertProject "u1" db0
  = Err "Insufficient permissions to create projects" db0 /\
  updateEmployee now0 "emp-3" moveEmployee "pm-1" db0
  = Err "Insufficient permissions to update employee information" db0 /\
  deleteOrganization "org-1" "mgr-1" db0
  = Err "Insufficient permissions to delete organizations" db0.
Proof.
  split; [|split].
  - destruct (refusal_is_a_thrown_error now0 uuid0 db0 "u1") as [H _].
    destruct (H eq_refl) as [Hcreate _]. apply Hcreate.
  - destruct (refusal_is_a_thrown_error now0 uuid0 db0 "pm-1") as [_ [H _]].
    apply (H eq_refl).
  - destruct (refusal_is_a_thrown_error now0 uuid0 db0 "mgr-1") as [_ [_ H]].
    destruct (H eq_refl) as [_ [_ Hdelete]]. apply Hdelete.
Defined.

(** C1 fails as stated: the employee u1 is refused, and the refusal is an
    Error thrown by [createProject]; no value of any kind is returned. *)
Lemma createProject_refusal_is_thrown :
  includes ["admin"; "project_manager"] (resolvedRole "u1" db0) = false /\
  createProject now0 uuid0 sampleInsertProject "u1" db0
  = Err "Insufficient permissions to create projects" db0 /\
  (forall v db', createProject now0 uuid0 sampleInsertProject "u1" db0 <> Ok v db') /\
  updateEmployee now0 "emp-3" moveEmployee "u1" db0
  = Err "Insufficient permissions to update employee information" db0.
Proof.
  split; [reflexivity|]. split; [reflexivity|]. split; [|reflexivity].
  intros v db'. vm_compute. discriminate.
Qed.

Lemma sampleInsertEntry_valid : validTimeEntry sampleInsertEntry db0.
Proof.
  unfold validTimeEntry, stored. cbn. repeat split; try tauto; try lia.
  intros t Ht. discriminate.
Defined.

Lemma gates_fail_closed_witness :
  refused (updateProject now0 "p-wide" noProjectPatch "viewer-1" db0) = true /\
  exists e db',
    createTimeEntry now0 uuid0 sampleInsertEntry db0 = Ok e db' /\
    e = completeTimeEntry "uuid-0" now0 sampleInsertEntry /\
    timeEntriesRows db' = timeEntriesRows db0 ++ [e].
Proof.
  destruct (gates_fail_closed now0 uuid0 db0 "viewer-1")
    as [_ [Hupdate [_ [_ [_ [_ [_ [_ [_ [_ [_ [_ [_ [_ [_ Hcreate]]]]]]]]]]]]]]].
  split.
  - exact (Hupdate "p-wide" noProjectPatch).
  - exact (Hcreate sampleInsertEntry sampleInsertEntry_valid).
Defined.

(** C3 fails as stated: [createTimeEntry] stores an entry of the viewer, and
    stores it as well when every user of the store is a viewer; no role is
    consulted and no role is refused. *)
Lemma createTimeEntry_has_no_gate :
  resolvedRole "viewer-1" db0 = "viewer" /\
  (exists e, createTimeEntry now0 uuid0 sampleInsertEntry db0
             = Ok e (mkDb sampleUsers sampleProjects sampleTasks
                       (sampleEntries ++ [e]) sampleEmployees []
                       sampleDepartments sampleOrganizations 1) /\
             TimeEntry.userId e = "viewer-1") /\
  map (fun u => resolvedRole (User.id u) dbViewers) (usersRows dbViewers)
  = repeat "viewer" 8 /\
  (exists e, createTimeEntry now0 uuid0 sampleInsertEntry dbViewers
             = Ok e (mkDb (usersRows dbViewers) sampleProjects sampleTasks
                       (sampleEntries ++ [e]) sampleEmployees []
                       sampleDepartments sampleOrganizations 1) /\
             TimeEntry.userId e = "viewer-1").
Proof.
  split; [reflexivity|].
  split; [eexists; split; [vm_compute; reflexivity|reflexivity]|].
  split; [reflexivity|].
  eexists; split; [vm_compute; reflexivity|reflexivity].
Qed.

Lemma denial_is_atomic_witness :
  exists m db',
    updateProject now0 "p-wide" noProjectPatch "mgr-1" db0 = Err m db' /\
    insufficient m = true /\ db' = db0.
Proof.
  exists "Insufficient permissions to update projects", db0.
  split; [reflexivity|]. split; [reflexivity|].
  destruct (denial_is_atomic now0 uuid0 "mgr-1") as [_ [H _]].
  apply (H "p-wide" noProjectPatch db0 "Insufficient permissions to update projects");
    reflexivity.
Defined.

(** ** A missing acting user *)

Lemma unresolved_is_employee (userId : string) (db : Db) :
  storedRole userId db = None -> resolvedRole userId db = "employee".
Proof.
  unfold storedRole, resolvedRole, roleOrEmployee.
  destruct (first _) as [u|]; [|reflexivity].
  now intros ->.
Qed.

Section MissingActor.
Variable now : Timestamp.
Variable gen_random_uuid : nat -> string.

(** C2, as the code has it: the scoped methods take the acting user id as
    a required argument; when it resolves to no user or to no role, the
    role is 'employee' and the call is refused by a thrown
    'Insufficient permissions' error with the store unchanged.  Creating a
    task is the exception: with the acting user id absent (undefined or
    empty) no role is checked, so the call is never refused for lack of
    permission, and every task the schema accepts is inserted. *)
Theorem absent_actor_context :
  forall (db : Db),
    (forall task actor, truthy actor = false ->
       refused (createTask now gen_random_uuid task actor db) = false /\
       (validTask task db ->
        exists t db',
          createTask now gen_random_uuid task actor db = Ok t db' /\
          t = completeTask (gen_random_uuid (uuidCount db)) now task /\
          tasksRows db' = tasksRows db ++ [t])) /\
    (forall userId, storedRole userId db = None ->
       (forall id project,
          updateProject now id project userId db
          = Err "Insufficient permissions to update projects" db) /\
       (forall id,
          deleteProject id userId db
          = Err "Insufficient permissions to delete projects" db) /\
       (forall id taskData,
          updateTask now id taskData userId db
          = Err "Insufficient permissions to update tasks" db) /\
       (forall id,
          deleteTask id userId db
          = Err "Insufficient permissions to delete tasks" db) /\
       (forall id employeeData,
          updateEmployee now id employeeData userId db
          = Err "Insufficient permissions to update employee information" db) /\
       (forall id,
          deleteEmployee id userId db
          = Err "Insufficient permissions to delete employees" db) /\
       (forall id organization,
          updateOrganization now id organization userId db
          = Err "Insufficient permissions to update organizations" db) /\
       (forall id,
          deleteOrganization id userId db
          = Err "Insufficient permissions to delete organizations" db) /\
       (forall projectId employeeIds,
          assignEmployeesToProject now gen_random_uuid projectId employeeIds
            userId db
          = Err "Insufficient permissions to assign employees to projects" db) /\
       (forall projectId employeeId,
          removeEmployeeFromProject projectId employeeId userId db
          = Err "Insufficient permissions to remove employees from projects" db)).
Proof.
  intro db. split.
  - intros task actor Hactor. split.
    + run_storage. rewrite Hactor. split_run; [|reflexivity].
      apply message_is_no_refusal.
    + intro Hvalid.
      unfold createTask, withDatabaseRetry, bind, freshId, ret.
      rewrite Hactor. rewrite insert_accepted.
      * eexists _, _. split; [reflexivity|]. split; reflexivity.
      * intros r [<-|[]]. cbn [violation tasks].
        apply task_accepted. exact Hvalid.
  - intros userId Hnone. apply unresolved_is_employee in Hnone.
    unfold resolvedRole in Hnone.
    repeat split; intros; run_storage; rewrite Hnone; reflexivity.
Qed.

End MissingActor.

Lemma sampleInsertTask_valid : validTask sampleInsertTask db0.
Proof.
  unfold validTask, stored. cbn. repeat split; try tauto; try lia.
  intros s Hs. discriminate.
Defined.

Lemma absent_actor_context_witness :
  (exists t db',
     createTask now0 uuid0 sampleInsertTask (Some "") db0 = Ok t db' /\
     t = completeTask "uuid-0" now0 sampleInsertTask /\
     tasksRows db' = tasksRows db0 ++ [t]) /\
  deleteTask "t1" "nobody" db0
  = Err "Insufficient permissions to delete tasks" db0 /\
  assignEmployeesToProject now0 uuid0 "p-u1" ["emp-1"] "blank-1" db0
  = Err "Insufficient permissions to assign employees to projects" db0.
Proof.
  destruct (absent_actor_context now0 uuid0 db0) as [Hcreate Hscoped].
  split; [|split].
  - destruct (Hcreate sampleInsertTask (Some "") eq_refl) as [_ H].
    exact (H sampleInsertTask_valid).
  - destruct (Hscoped "nobody" eq_refl) as [_ [_ [_ [H _]]]]. apply H.
  - destruct (Hscoped "blank-1" eq_refl) as [_ [_ [_ [_ [_ [_ [_ [_ [H _]]]]]]]]].
    apply H.
Defined.

(** C2 fails as stated: [createTask] called without an acting user id is not
    refused; the task is stored. *)
Lemma createTask_without_actor_inserts :
  exists t,
    createTask now0 uuid0 sampleInsertTask None db0
    = Ok t (mkDb sampleUsers sampleProjects (sampleTasks ++ [t]) sampleEntries
              sampleEmployees [] sampleDepartments sampleOrganizations 1) /\
    Task.name t = "Review".
Proof.
  eexists. split; [vm_compute; reflexivity|reflexivity].
Qed.

(** ** Role assignment *)


Lemma firstViolation_all {R} (check : R -> option Violation) (l : list R)
  (r : R) (v : Violation) :
  In r l -> (forall x, In x l -> check x = Some v) ->
  firstViolation (map check l) = Some v.
Proof.
  destruct l as [|x l]; [contradiction|].
  intros _ H. cbn [map firstViolation]. now rewrite (H x (or_introl eq_refl)).
Qed.


Section RoleAssignment.
Variable now : Timestamp.
Variable gen_random_uuid : nat -> string.
Variable todayPST weekAgoPST monthStartPST thirtyDaysAgoPST : string.


End RoleAssignment.




(** ** Time entries of one's own *)

Lemma unique_key {A} (key : A -> string) (l : list A) (x y : A) :
  NoDup (map key l) -> In x l -> In y l -> key x = key y -> x = y.
Proof.
  induction l as [|z l IH]; simpl; [tauto|].
  intros Hnd Hx Hy Hk. inversion Hnd as [|k ks Hnotin Hnd']; subst.
  destruct Hx as [->|Hx], Hy as [->|Hy]; auto.
  - exfalso. apply Hnotin. rewrite Hk. now apply in_map.
  - exfalso. apply Hnotin. rewrite <- Hk. now apply in_map.
Qed.


Section OwnEntries.
Variable now : Timestamp.


End OwnEntries.





(** ** Unresolved roles *)

Lemma relabel_id (userId : string) (u : User.t) :
  User.id (relabel userId u) = User.id u.
Proof. unfold relabel. now destruct (User.id u =? userId). Qed.

Lemma first_filter_relabel (userId : string) (us : list User.t) :
  first (filter (fun u => User.id u =? userId) (map (relabel userId) us))
  = option_map (relabel userId) (first (filter (fun u => User.id u =? userId) us)).
Proof.
  induction us as [|u us IH]; [reflexivity|].
  cbn [map filter]. rewrite relabel_id.
  destruct (User.id u =? userId); [reflexivity|exact IH].
Qed.

Lemma relabelled_role (userId : string) (us : list User.t) :
  (forall r,
     match first (filter (fun u => User.id u =? userId) us) with
     | Some u => User.role u
     | None => None
     end = Some r -> ~ In r ["admin"; "project_manager"; "manager"]) ->
  let r0 := roleOrEmployee (first (filter (fun u => User.id u =? userId) us)) in
  roleOrEmployee
    (first (filter (fun u => User.id u =? userId) (map (relabel userId) us)))
  = "employee" /\
  (r0 =? "admin") = false /\ (r0 =? "project_manager") = false /\
  (r0 =? "manager") = false.
Proof.
  intros H r0. subst r0. rewrite first_filter_relabel. split.
  - destruct (first (filter _ us)) as [u|] eqn:E; [|reflexivity].
    assert (Hu : In u (filter (fun u => User.id u =? userId) us)).
    { destruct (filter _ us); [discriminate|]. injection E as ->. now left. }
    apply filter_In in Hu. destruct Hu as [_ Hu].
    simpl. unfold relabel. now rewrite Hu.
  - destruct (first (filter _ us)) as [u|]; [|repeat split].
    unfold roleOrEmployee, orElse.
    destruct (User.role u) as [r|]; [|repeat split].
    destruct (r =? ""); [repeat split|].
    specialize (H r eq_refl). simpl in H.
    repeat split; apply String.eqb_neq; intuition.
Qed.

Lemma relabel_keys (userId : string) (us : list User.t) :
  map User.id (map (relabel userId) us) = map User.id us.
Proof. rewrite map_map. apply map_ext. intro u. apply relabel_id. Qed.

Lemma existsb_false_filter {A} (f : A -> bool) (l : list A) :
  existsb f l = false -> filter f l = [].
Proof.
  induction l as [|x l IH]; simpl; [reflexivity|].
  destruct (f x); simpl; [discriminate|exact IH].
Qed.

(** The role of the acting user in the store where they are an employee. *)
Lemma enrolled_role (row : User.t) (us : list User.t) :
  User.role row = Some "employee" ->
  (forall r,
     match first (filter (fun u => User.id u =? User.id row) us) with
     | Some u => User.role u
     | None => None
     end = Some r -> ~ In r ["admin"; "project_manager"; "manager"]) ->
  let r0 := roleOrEmployee (first (filter (fun u => User.id u =? User.id row) us)) in
  roleOrEmployee
    (first (filter (fun u => User.id u =? User.id row) (enrolled row us)))
  = "employee" /\
  (r0 =? "admin") = false /\ (r0 =? "project_manager") = false /\
  (r0 =? "manager") = false.
Proof.
  intros Hrow H. unfold enrolled.
  destruct (existsb _ us) eqn:Ex.
  - exact (relabelled_role (User.id row) us H).
  - rewrite filter_app, (existsb_false_filter _ _ Ex).
    cbn [filter app]. rewrite String.eqb_refl. cbn [first hd_error].
    unfold roleOrEmployee at 1. rewrite Hrow. repeat split.
Qed.

Lemma enrolled_keys (row : User.t) (us : list User.t) (v : string) :
  includes (map User.id (enrolled row us)) v
  = includes (map User.id us) v || (v =? User.id row).
Proof.
  unfold enrolled. destruct (existsb _ us) eqn:Ex.
  - rewrite relabel_keys.
    destruct (v =? User.id row) eqn:E; [|now rewrite orb_false_r].
    apply String.eqb_eq in E. subst v. rewrite orb_true_r.
    apply includes_true_iff. apply existsb_exists in Ex.
    destruct Ex as [x [Hx Hid]]. apply String.eqb_eq in Hid. rewrite <- Hid.
    now apply in_map.
  - unfold includes. rewrite map_app, existsb_app. cbn [map existsb].
    now rewrite orb_false_r.
Qed.

(** A patch on the acting user's own entry is checked alike in both stores:
    the owner column is checked only when it moves to another user. *)
Lemma own_patch_checked_alike (row : User.t) (us : list User.t)
  (ps : list Project.t) (ts : list Task.t) (es : list TimeEntry.t)
  (ems : list Employee.t) (pes : list ProjectEmployee.t)
  (ds : list Department.t) (os : list Organization.t) (n : nat)
  (patch : PartialInsertTimeEntry.t) (at_ : Timestamp) (r : TimeEntry.t) :
  TimeEntry.userId r = User.id row ->
  timeEntryViolation (mkDb (enrolled row us) ps ts es ems pes ds os n)
    (Some r) (setTimeEntry patch at_ r)
  = timeEntryViolation (mkDb us ps ts es ems pes ds os n)
      (Some r) (setTimeEntry patch at_ r).
Proof.
  intro Hown.
  assert (Howner : forall table name,
            checkColumn String.eqb TimeEntry.userId
              (references (map User.id (enrolled row us)) table name)
              (Some r) (setTimeEntry patch at_ r)
            = checkColumn String.eqb TimeEntry.userId
                (references (map User.id us) table name)
                (Some r) (setTimeEntry patch at_ r)).
  { intros table name. unfold checkColumn, written, references.
    destruct (negb _) eqn:Hw; [|reflexivity].
    rewrite enrolled_keys.
    apply negb_true_iff in Hw. rewrite Hown in Hw. rewrite String.eqb_sym in Hw.
    now rewrite Hw, orb_false_r. }
  unfold timeEntryViolation. cbn [usersRows projectsRows tasksRows].
  now rewrite Howner.
Qed.

(** Runs a method on the store with the employee and on the store itself,
    settles every role test on both sides, and compares what is left. *)
Ltac relabel_run He Hadmin Hpm Hmanager :=
  unfold enrol; run_storage; split_truthy;
  cbn [usersRows projectsRows tasksRows timeEntriesRows employeesRows
       projectEmployeesRows departmentsRows organizationsRows uuidCount];
  rewrite ?He; unfold includes;
  cbn [existsb String.eqb Ascii.eqb Bool.eqb orb negb andb];
  rewrite ?Hadmin, ?Hpm, ?Hmanager;
  cbn [orb negb andb]; cbv beta iota;
  unfold taskViolation;
  cbn [usersRows projectsRows tasksRows timeEntriesRows employeesRows
       projectEmployeesRows departmentsRows organizationsRows uuidCount];
  split_run; reflexivity.

Section UnresolvedRole.
Variable now : Timestamp.
Variable gen_random_uuid : nat -> string.
Variable todayPST weekAgoPST monthStartPST thirtyDaysAgoPST : string.

(** C7: when the acting user has no row, no role, or a role outside the
    closed enumeration, every method that consults the role returns what
    it returns for the same user stored as 'employee', and leaves the same
    store.  The store to compare with has the user's row relabelled
    'employee'; for a user without a row it has a row of that id and role
    added, whatever its other columns.  The resolved role is on none of the
    administrator, project-manager or manager lists. *)
Theorem unresolved_role_is_employee :
  forall (db : Db) (row : User.t),
    let userId := User.id row in
    User.role row = Some "employee" ->
    (forall r, storedRole userId db = Some r -> ~ In r knownRoles) ->
    let asE := enrol row in
    (forall project,
       createProject now gen_random_uuid project userId (asE db)
       = mapState asE (createProject now gen_random_uuid project userId db)) /\
    (forall id project,
       updateProject now id project userId (asE db)
       = mapState asE (updateProject now id project userId db)) /\
    (forall id,
       deleteProject id userId (asE db)
       = mapState asE (deleteProject id userId db)) /\
    (forall projectId,
       getTasks projectId userId (asE db)
       = mapState asE (getTasks projectId userId db)) /\
    (forall task,
       createTask now gen_random_uuid task (Some userId) (asE db)
       = mapState asE (createTask now gen_random_uuid task (Some userId) db)) /\
    (forall id taskData,
       updateTask now id taskData userId (asE db)
       = mapState asE (updateTask now id taskData userId db)) /\
    (forall id,
       deleteTask id userId (asE db) = mapState asE (deleteTask id userId db)) /\
    (getAllUserTasks userId (asE db) = mapState asE (getAllUserTasks userId db)) /\
    (forall filters,
       getTimeEntries userId filters (asE db)
       = mapState asE (getTimeEntries userId filters db)) /\
    (forall id,
       getTimeEntry id userId (asE db)
       = mapState asE (getTimeEntry id userId db)) /\
    (forall id entry,
       updateTimeEntry now id entry userId (asE db)
       = mapState asE (updateTimeEntry now id entry userId db)) /\
    (forall id,
       deleteTimeEntry id userId (asE db)
       = mapState asE (deleteTimeEntry id userId db)) /\
    (forall limit startDate endDate,
       getRecentActivity userId limit startDate endDate (asE db)
       = mapState asE (getRecentActivity userId limit startDate endDate db)) /\
    (forall startDate endDate,
       getDashboardStats todayPST weekAgoPST monthStartPST thirtyDaysAgoPST
         userId startDate endDate (asE db)
       = mapState asE
           (getDashboardStats todayPST weekAgoPST monthStartPST thirtyDaysAgoPST
              userId startDate endDate db)) /\
    (forall startDate endDate,
       getProjectTimeBreakdown userId startDate endDate (asE db)
       = mapState asE (getProjectTimeBreakdown userId startDate endDate db)) /\
    (getEmployees userId (asE db) = mapState asE (getEmployees userId db)) /\
    (forall id,
       getEmployee id userId (asE db) = mapState asE (getEmployee id userId db)) /\
    (forall id employeeData,
       updateEmployee now id employeeData userId (asE db)
       = mapState asE (updateEmployee now id employeeData userId db)) /\
    (forall id,
       deleteEmployee id userId (asE db)
       = mapState asE (deleteEmployee id userId db)) /\
    (forall projectId employeeIds,
       assignEmployeesToProject now gen_random_uuid projectId employeeIds userId
         (asE db)
       = mapState asE
           (assignEmployeesToProject now gen_random_uuid projectId employeeIds
              userId db)) /\
    (forall projectId,
       getProjectEmployees projectId userId (asE db)
       = mapState asE (getProjectEmployees projectId userId db)) /\
    (forall projectId employeeId,
       removeEmployeeFromProject projectId employeeId userId (asE db)
       = mapState asE (removeEmployeeFromProject projectId employeeId userId db)) /\
    (forall id organization,
       updateOrganization now id organization userId (asE db)
       = mapState asE (updateOrganization now id organization userId db)) /\
    (forall id,
       deleteOrganization id userId (asE db)
       = mapState asE (deleteOrganization id userId db)) /\
    (forall startDate endDate,
       getDepartmentHoursSummary userId startDate endDate (asE db)
       = mapState asE (getDepartmentHoursSummary userId startDate endDate db)) /\
    (resolvedRole userId (asE db) = "employee" /\
     includes ["admin"; "project_manager"] (resolvedRole userId db) = false /\
     includes ["admin"; "manager"] (resolvedRole userId db) = false /\
     (resolvedRole userId db =? "admin") = false).
Proof.
  intros db row userId Hrow Hrole asE. subst asE userId.
  destruct (enrolled_role row (usersRows db) Hrow) as [He [Hadmin [Hpm Hmanager]]].
  { intros r Hr. specialize (Hrole r Hr). unfold knownRoles in Hrole.
    simpl in *. intuition. }
  cbv zeta in Hadmin, Hpm, Hmanager.
  repeat match goal with |- _ /\ _ => split end; intros;
    try relabel_run He Hadmin Hpm Hmanager.
  unfold enrol. run_storage.
  cbn [usersRows projectsRows tasksRows timeEntriesRows employeesRows
       projectEmployeesRows departmentsRows organizationsRows uuidCount].
  rewrite He. unfold includes.
  cbn [existsb String.eqb Ascii.eqb Bool.eqb orb negb andb].
  rewrite Hadmin, Hpm. cbn [orb negb andb]. cbv beta iota.
  match goal with
  | |- context [firstViolation
                  (map (fun r => timeEntryViolation
                                   (mkDb (enrolled ?u ?us) ?p ?t ?e ?em ?pe ?d ?o ?c)
                                   (Some r) (@?new r)) ?l)] =>
      rewrite (firstViolation_ext
                 (fun r => timeEntryViolation
                             (mkDb (enrolled u us) p t e em pe d o c)
                             (Some r) (new r))
                 (fun r => timeEntryViolation (mkDb us p t e em pe d o c)
                             (Some r) (new r)) l)
  end.
  - destruct (firstViolation _); reflexivity.
  - intros r Hr. apply filter_In in Hr. destruct Hr as [_ Hc].
    unfold and_ in Hc. cbn [app forallb] in Hc.
    apply andb_true_iff in Hc. destruct Hc as [_ Hc].
    rewrite andb_true_r in Hc. apply String.eqb_eq in Hc.
    apply own_patch_checked_alike. exact Hc.
Qed.

End UnresolvedRole.

Lemma odd_role_is_unknown :
  forall r, storedRole "odd-1" db0 = Some r -> ~ In r knownRoles.
Proof.
  intros r E. vm_compute in E. injection E as <-.
  simpl. intuition discriminate.
Defined.

Lemma nobody_has_no_role :
  forall r, storedRole "nobody" db0 = Some r -> ~ In r knownRoles.
Proof.
  intros r E. vm_compute in E. discriminate.
Defined.

Lemma unresolved_role_is_employee_witness :
  getTimeEntries "odd-1" None (enrol (mkUser "odd-1" (Some "employee")) db0)
  = mapState (enrol (mkUser "odd-1" (Some "employee")))
      (getTimeEntries "odd-1" None db0) /\
  (resolvedRole "odd-1" db0 =? "admin") = false /\
  createProject now0 uuid0 sampleInsertProject "nobody"
    (enrol (mkUser "nobody" (Some "employee")) db0)
  = mapState (enrol (mkUser "nobody" (Some "employee")))
      (createProject now0 uuid0 sampleInsertProject "nobody" db0) /\
  length (usersRows (enrol (mkUser "nobody" (Some "employee")) db0))
  = S (length (usersRows db0)).
Proof.
  pose proof (unresolved_role_is_employee now0 uuid0 "2025-08-16" "2025-08-09"
                "2025-08-01" "2025-07-17" db0 (mkUser "odd-1" (Some "employee"))
                eq_refl odd_role_is_unknown) as H.
  pose proof (unresolved_role_is_employee now0 uuid0 "2025-08-16" "2025-08-09"
                "2025-08-01" "2025-07-17" db0 (mkUser "nobody" (Some "employee"))
                eq_refl nobody_has_no_role) as K.
  cbv zeta in H, K.
  destruct H as [_ [_ [_ [_ [_ [_ [_ [_ [Hentries H]]]]]]]]].
  destruct K as [Hcreate _].
  split; [apply Hentries|].
  split; [|split; [apply Hcreate|reflexivity]].
  repeat match type of H with _ /\ _ => destruct H as [_ H] end.
  exact H.
Defined.

(** * Further properties of the storage methods *)

Lemma filter_append_fresh {A} (f : A -> bool) (l : list A) (x : A) :
  (forall y, In y l -> f y = false) -> f x = true -> filter f (l ++ [x]) = [x].
Proof.
  intros Hl Hx. rewrite filter_app, (filter_none f l Hl). simpl. now rewrite Hx.
Qed.

(** Settles the engine's check of an inserted row, or of the rows an update
    hits, by a lemma on what the schema accepts. *)
Ltac accepted_insert lemma Hvalid :=
  match goal with
  | |- context [firstViolation (map (?f ?d None) [?row])] =>
      let E := fresh "E" in
      assert (E : f d None row = None) by (apply lemma; exact Hvalid);
      cbn [map firstViolation]; rewrite E; clear E
  end.

Ltac accepted_update lemma Hvalid :=
  rewrite firstViolation_rows by (intros; apply lemma; exact Hvalid).

(** ** Projects and tasks *)

Section ProjectsAndTasks.
Variable now : Timestamp.
Variable gen_random_uuid : nat -> string.

(** X1: a project the schema accepts (its owner is stored, its name, number
    and colour fit their columns), created by an administrator or project
    manager under an identifier no stored project has, is what [getProject]
    then returns for that identifier to any reader; it carries the name and
    owner of the request, and unless the request says otherwise it is
    enterprise-wide and so listed by [getEmployeeProjects]. *)
Theorem createProject_then_getProject :
  forall (db : Db) (project : InsertProject.t) (userId reader : string),
    mayManageProjects userId db = true ->
    validProject project db ->
    ~ In (gen_random_uuid (uuidCount db)) (map Project.id (projectsRows db)) ->
    exists p db',
      createProject now gen_random_uuid project userId db = Ok p db' /\
      getProject (Project.id p) reader db' = Ok (Some p) db' /\
      Project.name p = InsertProject.name project /\
      Project.userId p = InsertProject.userId project /\
      (InsertProject.isEnterpriseWide project <> Some false ->
       Project.isEnterpriseWide p = true /\
       exists l, getEmployeeProjects reader db' = Ok l db' /\ In p l).
Proof.
  intros db project userId reader Hrole Hvalid Hfresh.
  unfold mayManageProjects, resolvedRole in Hrole.
  run_more. rewrite Hrole. cbn [negb]. cbv beta iota.
  accepted_insert project_accepted Hvalid.
  eexists _, _. split; [reflexivity|]. run_more.
  rewrite filter_append_fresh.
  - split; [reflexivity|]. split; [reflexivity|]. split; [reflexivity|].
    intro Hwide.
    assert (E : Project.isEnterpriseWide
                  (completeProject (gen_random_uuid (uuidCount db)) now project)
                = true).
    { cbn. destruct (InsertProject.isEnterpriseWide project) as [[|]|];
        try reflexivity. now elim Hwide. }
    split; [exact E|].
    eexists. split; [reflexivity|].
    apply orderBy_In, filter_In. split.
    + apply in_or_app. right. now left.
    + now rewrite E.
  - intros q Hq. apply String.eqb_neq. intro E. apply Hfresh.
    cbn in E. rewrite <- E. now apply in_map.
  - apply String.eqb_refl.
Qed.

(** X2: an update by an administrator or project manager, with a patch the
    schema accepts (a new owner is stored; a new name, number or colour fits
    its column), keeps the projects table row for row: the same identifiers
    in the same order, the same creation times, the rows of other
    identifiers untouched, and every other table as it was; it returns
    undefined exactly when the identifier is not stored. *)
Theorem updateProject_keeps_the_table :
  forall (db : Db) (id : string) (project : PartialInsertProject.t)
         (userId : string),
    mayManageProjects userId db = true ->
    validProjectPatch project db ->
    exists result db',
      updateProject now id project userId db = Ok result db' /\
      map Project.id (projectsRows db') = map Project.id (projectsRows db) /\
      map Project.createdAt (projectsRows db')
      = map Project.createdAt (projectsRows db) /\
      (forall q, Project.id q <> id ->
                 (In q (projectsRows db') <-> In q (projectsRows db))) /\
      (result = None <-> ~ In id (map Project.id (projectsRows db))) /\
      setRows projects (projectsRows db) db' = db.
Proof.
  intros db id project userId Hrole Hvalid.
  unfold mayManageProjects, resolvedRole in Hrole.
  run_more. rewrite Hrole. cbn [negb]. cbv beta iota.
  accepted_update projectPatch_accepted Hvalid.
  eexists _, _. split; [reflexivity|]. cbn [projectsRows].
  repeat split.
  - rewrite map_map. apply map_ext. intro q. now destruct (Project.id q =? id).
  - rewrite map_map. apply map_ext. intro q. now destruct (Project.id q =? id).
  - intro Hq. apply in_map_iff in Hq. destruct Hq as [q0 [E Hq0]].
    destruct (Project.id q0 =? id) eqn:Hid; subst q; [|exact Hq0].
    apply String.eqb_eq in Hid. now elim H.
  - intro Hq. apply in_map_iff. exists q. split; [|exact Hq].
    apply String.eqb_neq in H. now rewrite H.
  - intros Hnone Hin. apply in_map_iff in Hin. destruct Hin as [q [Hid Hq]].
    destruct (first_filter_some (fun p => Project.id p =? id) (projectsRows db) q Hq)
      as [y [E _]]; [subst; apply String.eqb_refl|].
    destruct (filter _ (projectsRows db)); [discriminate|discriminate].
  - intro Hnot. rewrite filter_none; [reflexivity|].
    intros q Hq. apply String.eqb_neq. intro E. apply Hnot. rewrite <- E.
    now apply in_map.
  - now destruct db.
Qed.

(** X3: after a delete by an administrator or project manager no project of
    that identifier is left, for any reader; the call answers true exactly
    when one was stored, and the projects of other identifiers stay. *)
Theorem deleteProject_then_getProject :
  forall (db : Db) (id userId reader : string),
    mayManageProjects userId db = true ->
    exists success db',
      deleteProject id userId db = Ok success db' /\
      getProject id reader db' = Ok None db' /\
      (success = true <-> In id (map Project.id (projectsRows db))) /\
      (forall q, Project.id q <> id ->
                 (In q (projectsRows db') <-> In q (projectsRows db))).
Proof.
  intros db id userId reader Hrole.
  unfold mayManageProjects, resolvedRole in Hrole.
  run_more. rewrite Hrole. cbn [negb].
  eexists _, _. split; [reflexivity|]. run_more.
  split; [|split].
  - rewrite filter_none; [reflexivity|].
    intros q Hq. apply filter_In in Hq. destruct Hq as [_ Hq].
    now destruct (Project.id q =? id).
  - destruct (filter (fun p => Project.id p =? id) (projectsRows db)) as [|q l] eqn:E.
    + split; [discriminate|]. intro Hin. apply in_map_iff in Hin.
      destruct Hin as [q [Hid Hq]].
      assert (Hf : In q (filter (fun p => Project.id p =? id) (projectsRows db))).
      { apply filter_In. split; [exact Hq|]. subst. apply String.eqb_refl. }
      rewrite E in Hf. contradiction.
    + split; [intros _|reflexivity].
      assert (Hf : In q (filter (fun p => Project.id p =? id) (projectsRows db)))
        by (rewrite E; now left).
      apply filter_In in Hf. destruct Hf as [Hq Hid].
      apply String.eqb_eq in Hid. subst id. now apply in_map.
  - intros q Hq. rewrite filter_In. apply String.eqb_neq in Hq. rewrite Hq.
    cbn. intuition.
Qed.

End ProjectsAndTasks.

Section Tasks.
Variable now : Timestamp.
Variable gen_random_uuid : nat -> string.

(** X4: for an administrator or project manager, updating or deleting a task
    whose identifier is not stored is no error: the update answers undefined,
    the delete answers false, and the store is unchanged. *)
Theorem task_not_stored :
  forall (db : Db) (id : string) (taskData : PartialInsertTask.t)
         (userId : string),
    mayManageProjects userId db = true ->
    ~ In id (map Task.id (tasksRows db)) ->
    updateTask now id taskData userId db = Ok None db /\
    deleteTask id userId db = Ok false db.
Proof.
  intros db id taskData userId Hrole Hnot.
  unfold mayManageProjects, resolvedRole in Hrole.
  assert (Hnone : filter (fun t => Task.id t =? id) (tasksRows db) = []).
  { apply filter_none. intros t Ht. apply String.eqb_neq. intro E.
    apply Hnot. rewrite <- E. now apply in_map. }
  split; run_more; rewrite Hrole; cbn [negb]; cbv beta iota;
    rewrite Hnone; reflexivity.
Qed.

(** X5: a stored task deleted by an administrator or project manager is gone:
    the call answers true, [getTask] then finds nothing under that
    identifier, and the tasks of other identifiers stay. *)
Theorem deleteTask_then_getTask :
  forall (db : Db) (id userId reader : string),
    mayManageProjects userId db = true ->
    In id (map Task.id (tasksRows db)) ->
    exists db',
      deleteTask id userId db = Ok true db' /\
      getTask id reader db' = Ok None db' /\
      (forall t, Task.id t <> id ->
                 (In t (tasksRows db') <-> In t (tasksRows db))).
Proof.
  intros db id userId reader Hrole Hin.
  unfold mayManageProjects, resolvedRole in Hrole.
  apply in_map_iff in Hin. destruct Hin as [t [Hid Ht]].
  destruct (first_filter_some (fun t => Task.id t =? id) (tasksRows db) t Ht)
    as [y [E _]]; [subst; apply String.eqb_refl|].
  destruct (filter (fun t => Task.id t =? id) (tasksRows db)) as [|z rest] eqn:Hf;
    [discriminate|].
  run_more. rewrite Hrole. cbn [negb]. cbv beta iota. rewrite Hf.
  cbn [first hd_error]. cbv beta iota. rewrite Hf.
  eexists. split; [reflexivity|]. run_more. split.
  - rewrite filter_none; [reflexivity|].
    intros q Hq. apply filter_In in Hq. destruct Hq as [_ Hq].
    now destruct (Task.id q =? id).
  - intros q Hq. rewrite filter_In. apply String.eqb_neq in Hq. rewrite Hq.
    cbn. intuition.
Qed.

(** X6: a task the schema accepts (its project is stored, its name and
    status fit their columns), created with no acting user or by an
    administrator or project manager, is stored with status 'active' unless
    the request names one, and [getTasks] of its project lists it for any
    reader. *)
Theorem createTask_then_getTasks :
  forall (db : Db) (task : InsertTask.t) (actor : option string) (reader : string),
    match actor with
    | Some u => (u =? "") || mayManageProjects u db
    | None => true
    end = true ->
    validTask task db ->
    exists t db',
      createTask now gen_random_uuid task actor db = Ok t db' /\
      Task.projectId t = InsertTask.projectId task /\
      Task.name t = InsertTask.name task /\
      (InsertTask.status task = None -> Task.status t = "active") /\
      exists l, getTasks (Task.projectId t) reader db' = Ok l db' /\ In t l.
Proof.
  intros db task actor reader Hgate Hvalid.
  assert (Hrun : createTask now gen_random_uuid task actor db
                 = Ok (completeTask (gen_random_uuid (uuidCount db)) now task)
                      (mkDb (usersRows db) (projectsRows db)
                         (tasksRows db ++
                          [completeTask (gen_random_uuid (uuidCount db)) now task])
                         (timeEntriesRows db) (employeesRows db)
                         (projectEmployeesRows db) (departmentsRows db)
                         (organizationsRows db) (S (uuidCount db)))).
  { destruct actor as [u|].
    - unfold mayManageProjects, resolvedRole in Hgate.
      run_more. cbn [truthy orElse].
      destruct (u =? ""); cbn [negb orb] in *; cbv iota;
        [|rewrite Hgate; cbn [negb]; cbv beta iota];
        accepted_insert task_accepted Hvalid; reflexivity.
    - run_more. cbn [truthy]. cbv beta iota.
      accepted_insert task_accepted Hvalid. reflexivity. }
  eexists _, _. split; [exact Hrun|].
  split; [reflexivity|]. split; [reflexivity|].
  split; [intros E; cbn; now rewrite E|].
  run_more. eexists. split; [reflexivity|].
  apply orderBy_In, filter_In. split.
  - apply in_or_app. right. now left.
  - apply String.eqb_refl.
Qed.

End Tasks.

Lemma sample_project_ids_fresh :
  ~ In (uuid0 (uuidCount db0)) (map Project.id (projectsRows db0)).
Proof. vm_compute. intuition discriminate. Defined.

Lemma sampleInsertProject_valid : validProject sampleInsertProject db0.
Proof.
  unfold validProject, stored. cbn. repeat split; try tauto; try lia;
    intros s Hs; discriminate.
Defined.

Lemma noProjectPatch_valid : validProjectPatch noProjectPatch db0.
Proof.
  unfold validProjectPatch. cbn. repeat split; intros s Hs; discriminate.
Defined.

Lemma createProject_then_getProject_witness :
  exists p db',
    createProject now0 uuid0 sampleInsertProject "pm-1" db0 = Ok p db' /\
    getProject (Project.id p) "viewer-1" db' = Ok (Some p) db' /\
    Project.isEnterpriseWide p = true.
Proof.
  destruct (createProject_then_getProject now0 uuid0 db0 sampleInsertProject
              "pm-1" "viewer-1" eq_refl sampleInsertProject_valid
              sample_project_ids_fresh)
    as [p [db' [Hc [Hg [_ [_ Hw]]]]]].
  exists p, db'. split; [exact Hc|]. split; [exact Hg|].
  apply Hw. discriminate.
Defined.

Lemma updateProject_keeps_the_table_witness :
  exists result db',
    updateProject now0 "p-u1" noProjectPatch "admin-1" db0 = Ok result db' /\
    map Project.id (projectsRows db') = ["p-wide"; "p-u1"; "p-u2"].
Proof.
  destruct (updateProject_keeps_the_table now0 db0 "p-u1" noProjectPatch "admin-1"
              eq_refl noProjectPatch_valid) as [r [db' [E [Hids _]]]].
  exists r, db'. split; [exact E|exact Hids].
Defined.

Lemma deleteProject_then_getProject_witness :
  exists db',
    deleteProject "p-u2" "pm-1" db0 = Ok true db' /\
    getProject "p-u2" "u2" db' = Ok None db'.
Proof.
  destruct (deleteProject_then_getProject db0 "p-u2" "pm-1" "u2" eq_refl)
    as [b [db' [E [Hg [Hb _]]]]].
  assert (b = true) as -> by (apply Hb; vm_compute; tauto).
  now exists db'.
Defined.

Lemma task_not_stored_witness :
  updateTask now0 "t-none" (PartialInsertTask.mk None (Some "x") None None)
    "admin-1" db0 = Ok None db0 /\
  deleteTask "t-none" "admin-1" db0 = Ok false db0.
Proof.
  apply task_not_stored; [reflexivity|].
  vm_compute. intuition discriminate.
Defined.

Lemma deleteTask_then_getTask_witness :
  exists db',
    deleteTask "t1" "pm-1" db0 = Ok true db' /\
    getTask "t1" "u1" db' = Ok None db'.
Proof.
  destruct (deleteTask_then_getTask db0 "t1" "pm-1" "u1" eq_refl)
    as [db' [E [Hg _]]]; [vm_compute; tauto|].
  now exists db'.
Defined.

Lemma createTask_then_getTasks_witness :
  exists t db' l,
    createTask now0 uuid0 sampleInsertTask (Some "pm-1") db0 = Ok t db' /\
    Task.status t = "active" /\
    getTasks "p-wide" "u2" db' = Ok l db' /\ In t l.
Proof.
  destruct (createTask_then_getTasks now0 uuid0 db0 sampleInsertTask (Some "pm-1")
              "u2" eq_refl sampleInsertTask_valid)
    as [t [db' [E [Hp [_ [Hs [l [Hl Hin]]]]]]]].
  exists t, db', l. split; [exact E|]. split; [now apply Hs|].
  rewrite Hp in Hl. now split.
Defined.

(** ** Project assignments *)

Lemma in_innerJoin {A B} (on : A -> B -> bool) (l : list A) (r : list B)
  (a : A) (b : B) :
  In (a, b) (innerJoin on l r) <-> In a l /\ In b r /\ on a b = true.
Proof.
  unfold innerJoin. rewrite in_flat_map. split.
  - intros [x [Hx Hin]]. apply in_map_iff in Hin.
    destruct Hin as [y [E Hy]]. injection E as -> ->.
    apply filter_In in Hy. tauto.
  - intros [Ha [Hb Hon]]. exists a. split; [exact Ha|].
    apply in_map. apply filter_In. tauto.
Qed.

Lemma in_leftJoin_left {A B} (on : A -> B -> bool) (l : list A) (r : list B)
  (a : A) (b : option B) :
  In (a, b) (leftJoin on l r) -> In a l.
Proof.
  unfold leftJoin. rewrite in_flat_map. intros [x [Hx Hin]].
  destruct (filter (on x) r) as [|y ys].
  - destruct Hin as [E|[]]. now injection E as <- _.
  - apply in_map_iff in Hin. destruct Hin as [z [E _]]. now injection E as <- _.
Qed.

Lemma in_leftJoin_right {A B} (on : A -> B -> bool) (l : list A) (r : list B)
  (a : A) (b : B) :
  In (a, Some b) (leftJoin on l r) -> In b r /\ on a b = true.
Proof.
  unfold leftJoin. rewrite in_flat_map. intros [x [Hx Hin]].
  destruct (filter (on x) r) as [|y ys] eqn:E.
  - destruct Hin as [E'|[]]. discriminate.
  - apply in_map_iff in Hin. destruct Hin as [z [E' Hz]]. injection E' as -> ->.
    rewrite <- E in Hz. apply filter_In in Hz. exact Hz.
Qed.

Lemma leftJoin_covers {A B} (on : A -> B -> bool) (l : list A) (r : list B)
  (a : A) :
  In a l -> exists b, In (a, b) (leftJoin on l r).
Proof.
  intro Ha. unfold leftJoin.
  destruct (filter (on a) r) as [|y ys] eqn:E.
  - exists None. apply in_flat_map. exists a. split; [exact Ha|].
    rewrite E. now left.
  - exists (Some y). apply in_flat_map. exists a. split; [exact Ha|].
    rewrite E. now left.
Qed.

Section Assignments.
Variable now : Timestamp.
Variable gen_random_uuid : nat -> string.

Lemma manager_is_stored (userId : string) (db : Db) :
  mayManageProjects userId db = true -> stored users userId db.
Proof.
  unfold mayManageProjects, resolvedRole, stored. cbn [key rows users].
  destruct (filter (fun u => User.id u =? userId) (usersRows db)) as [|u rest] eqn:E;
    [discriminate|].
  intros _.
  assert (Hu : In u (filter (fun u => User.id u =? userId) (usersRows db)))
    by (rewrite E; now left).
  apply filter_In in Hu. destruct Hu as [Hu Hid]. apply String.eqb_eq in Hid.
  rewrite <- Hid. now apply in_map.
Qed.

Lemma assignment_accepted (db : Db) (pe : ProjectEmployee.t) :
  stored projects (ProjectEmployee.projectId pe) db ->
  stored employees (ProjectEmployee.employeeId pe) db ->
  stored users (ProjectEmployee.userId pe) db ->
  projectEmployeeViolation db None pe = None.
Proof.
  intros Hp He Hu. unfold projectEmployeeViolation.
  by_columns; apply checkColumn_passes; now apply references_stored.
Qed.

Lemma assignment_refused (db : Db) (pe : ProjectEmployee.t) :
  stored projects (ProjectEmployee.projectId pe) db ->
  ~ stored employees (ProjectEmployee.employeeId pe) db ->
  projectEmployeeViolation db None pe
  = Some (ForeignKey "project_employees"
            "project_employees_employee_id_employees_id_fk").
Proof.
  intros Hp He. unfold projectEmployeeViolation, checkColumn, written.
  cbn [firstViolation]. rewrite references_stored by exact Hp.
  now rewrite references_missing by exact He.
Qed.

Lemma firstViolation_only {R} (check : R -> option Violation) (l : list R)
  (v : Violation) :
  (exists r, In r l /\ check r = Some v) ->
  (forall r, In r l -> check r = None \/ check r = Some v) ->
  firstViolation (map check l) = Some v.
Proof.
  induction l as [|x l IH]; intros [r [Hr Hv]] Hall; [contradiction|].
  cbn [map firstViolation].
  destruct (Hall x (or_introl eq_refl)) as [E|E]; rewrite E; [|reflexivity].
  apply IH.
  - destruct Hr as [->|Hr]; [congruence|]. now exists r.
  - intros y Hy. apply Hall. now right.
Qed.

(** Where an authorised assignment to a stored project arrives at its
    insert: the project's assignments are deleted and the new rows built. *)
Lemma assignEmployeesToProject_reaches_insert (db : Db) (projectId : string)
  (employeeIds : list string) (userId : string) :
  mayManageProjects userId db = true ->
  stored projects projectId db ->
  employeeIds <> [] ->
  exists l,
    assignEmployeesToProject now gen_random_uuid projectId employeeIds userId db
    = (insert projectEmployees l ;;; ret tt)
        (mkDb (usersRows db) (projectsRows db) (tasksRows db)
           (timeEntriesRows db) (employeesRows db)
           (filter (fun pe => negb (ProjectEmployee.projectId pe =? projectId))
              (projectEmployeesRows db))
           (departmentsRows db) (organizationsRows db)
           (length employeeIds + uuidCount db)) /\
    map ProjectEmployee.employeeId l = employeeIds /\
    (forall pe, In pe l -> ProjectEmployee.projectId pe = projectId /\
                           ProjectEmployee.userId pe = userId).
Proof.
  intros Hrole Hin Hsome. unfold mayManageProjects, resolvedRole in Hrole.
  apply in_map_iff in Hin. destruct Hin as [p [Hid Hp]]. cbn [key projects] in Hid.
  destruct (first_filter_some (fun q => Project.id q =? projectId)
              (projectsRows db) p Hp) as [y [E _]]; [subst; apply String.eqb_refl|].
  destruct (filter (fun q => Project.id q =? projectId) (projectsRows db))
    as [|z rest] eqn:Hf; [discriminate|].
  destruct employeeIds as [|e es]; [now elim Hsome|].
  unfold assignEmployeesToProject, withDatabaseRetry, getUser, tryCatch, select,
    delete, throw, ret, bind at 1 2 3 4 5 6.
  cbn [rows setRows key referenced users projects projectEmployees unreferenced
       setProjectEmployeesRows usersRows projectsRows tasksRows timeEntriesRows
       employeesRows projectEmployeesRows departmentsRows organizationsRows
       uuidCount].
  rewrite Hrole. cbn [negb]. cbv beta iota. rewrite Hf.
  cbn [firstn length Nat.eqb Nat.ltb Nat.leb]. cbv beta iota.
  match goal with
  | |- context [newAssignments _ _ _ _ _ ?d] =>
      destruct (newAssignments_run now gen_random_uuid projectId userId (e :: es) d)
        as [l [E' [Hm Hl]]]
  end.
  exists l. unfold bind at 1. rewrite E'.
  cbn [usersRows projectsRows tasksRows timeEntriesRows employeesRows
       projectEmployeesRows departmentsRows organizationsRows uuidCount].
  split; [reflexivity|]. split; assumption.
Qed.

(** The store an authorised assignment of stored employees to a stored
    project leaves. *)
Lemma assignEmployeesToProject_run (db : Db) (projectId : string)
  (employeeIds : list string) (userId : string) :
  mayManageProjects userId db = true ->
  stored projects projectId db ->
  (forall i, In i employeeIds -> stored employees i db) ->
  exists l,
    assignEmployeesToProject now gen_random_uuid projectId employeeIds userId db
    = Ok tt (mkDb (usersRows db) (projectsRows db) (tasksRows db)
               (timeEntriesRows db) (employeesRows db)
               (filter (fun pe => negb (ProjectEmployee.projectId pe =? projectId))
                  (projectEmployeesRows db) ++ l)
               (departmentsRows db) (organizationsRows db)
               (length employeeIds + uuidCount db)) /\
    map ProjectEmployee.employeeId l = employeeIds /\
    (forall pe, In pe l -> ProjectEmployee.projectId pe = projectId /\
                           ProjectEmployee.userId pe = userId).
Proof.
  intros Hrole Hin Hstored.
  destruct employeeIds as [|e es].
  - exists []. split; [|split; [reflexivity|contradiction]].
    unfold mayManageProjects, resolvedRole in Hrole.
    apply in_map_iff in Hin. destruct Hin as [p [Hid Hp]].
    cbn [key projects] in Hid.
    destruct (first_filter_some (fun q => Project.id q =? projectId)
                (projectsRows db) p Hp) as [y [E _]]; [subst; apply String.eqb_refl|].
    destruct (filter (fun q => Project.id q =? projectId) (projectsRows db))
      as [|z rest] eqn:Hf; [discriminate|].
    run_more. rewrite Hrole. cbn [negb]. cbv beta iota. rewrite Hf.
    cbn. now rewrite app_nil_r.
  - destruct (assignEmployeesToProject_reaches_insert db projectId (e :: es) userId
                Hrole Hin) as [l [E [Hm Hl]]]; [discriminate|].
    exists l. split; [|split; assumption].
    rewrite E. unfold bind. rewrite insert_accepted; [reflexivity|].
    intros pe Hpe. cbn [violation projectEmployees].
    destruct (Hl pe Hpe) as [Hp Hu].
    apply assignment_accepted.
    + rewrite Hp. exact Hin.
    + apply Hstored. rewrite <- Hm. now apply in_map.
    + rewrite Hu. exact (manager_is_stored userId db Hrole).
Qed.

(** X7: an assignment of stored employees by an administrator or project
    manager replaces the assignments of that project: afterwards the project
    has one assignment per requested employee id, in the order given, each
    recorded under the caller's id, and the assignments of other projects
    are as before. *)
Theorem assignEmployeesToProject_replaces :
  forall (db : Db) (projectId : string) (employeeIds : list string)
         (userId : string),
    mayManageProjects userId db = true ->
    stored projects projectId db ->
    (forall i, In i employeeIds -> stored employees i db) ->
    exists db',
      assignEmployeesToProject now gen_random_uuid projectId employeeIds userId db
      = Ok tt db' /\
      map ProjectEmployee.employeeId
        (filter (fun pe => ProjectEmployee.projectId pe =? projectId)
           (projectEmployeesRows db')) = employeeIds /\
      (forall pe, In pe (projectEmployeesRows db') ->
                  ProjectEmployee.projectId pe = projectId ->
                  ProjectEmployee.userId pe = userId) /\
      filter (fun pe => negb (ProjectEmployee.projectId pe =? projectId))
        (projectEmployeesRows db')
      = filter (fun pe => negb (ProjectEmployee.projectId pe =? projectId))
          (projectEmployeesRows db).
Proof.
  intros db projectId employeeIds userId Hrole Hin Hstored.
  destruct (assignEmployeesToProject_run db projectId employeeIds userId Hrole Hin
              Hstored) as [l [E [Hm Hl]]].
  eexists. split; [exact E|]. cbn [projectEmployeesRows].
  assert (Hmine : filter (fun pe => ProjectEmployee.projectId pe =? projectId) l = l).
  { apply filter_all. intros pe Hpe. destruct (Hl pe Hpe) as [-> _].
    apply String.eqb_refl. }
  assert (Hnone : filter (fun pe => negb (ProjectEmployee.projectId pe =? projectId)) l
                  = []).
  { apply filter_none. intros pe Hpe. destruct (Hl pe Hpe) as [-> _].
    now rewrite String.eqb_refl. }
  split; [|split].
  - rewrite filter_app, Hmine, filter_none; [exact Hm|].
    intros pe Hpe. apply filter_In in Hpe. destruct Hpe as [_ Hpe].
    now destruct (ProjectEmployee.projectId pe =? projectId).
  - intros pe Hpe Hid. apply in_app_or in Hpe. destruct Hpe as [Hpe|Hpe].
    + apply filter_In in Hpe. destruct Hpe as [_ Hpe]. subst projectId.
      now rewrite String.eqb_refl in Hpe.
    + now apply Hl.
  - rewrite filter_app, Hnone, app_nil_r.
    apply filter_all. intros pe Hpe. apply filter_In in Hpe. tauto.
Qed.

(** X8: an assignment by an administrator or project manager to a project
    that is not stored is refused with 'Project not found' before anything
    is written: the store, the assignments recorded under that project id
    included, is unchanged. *)
Theorem assignEmployeesToProject_unknown_project :
  forall (db : Db) (projectId : string) (employeeIds : list string)
         (userId : string),
    mayManageProjects userId db = true ->
    ~ In projectId (map Project.id (projectsRows db)) ->
    assignEmployeesToProject now gen_random_uuid projectId employeeIds userId db
    = Err "Project not found" db.
Proof.
  intros db projectId employeeIds userId Hrole Hnot.
  unfold mayManageProjects, resolvedRole in Hrole.
  run_more. rewrite Hrole. cbn [negb]. cbv beta iota.
  rewrite filter_none; [reflexivity|].
  intros q Hq. apply String.eqb_neq. intro E. apply Hnot. rewrite <- E.
  now apply in_map.
Qed.

(** X9: after an assignment of stored employees, [getProjectEmployees] of
    the same caller returns exactly the employees whose id was requested.
    When one of the requested ids is no stored employee the engine refuses
    the insert and the call throws its error; the project's earlier
    assignments are deleted by then and stay deleted, the other assignments
    and every other table are as before. *)
Theorem assign_then_getProjectEmployees :
  forall (db : Db) (projectId : string) (employeeIds : list string)
         (userId : string),
    mayManageProjects userId db = true ->
    stored projects projectId db ->
    ((forall i, In i employeeIds -> stored employees i db) ->
     exists db' l,
       assignEmployeesToProject now gen_random_uuid projectId employeeIds userId db
       = Ok tt db' /\
       getProjectEmployees projectId userId db' = Ok l db' /\
       (forall e, In e l <->
                  In e (employeesRows db) /\ In (Employee.id e) employeeIds)) /\
    ((exists i, In i employeeIds /\ ~ stored employees i db) ->
     exists db',
       assignEmployeesToProject now gen_random_uuid projectId employeeIds userId db
       = Err (message (ForeignKey "project_employees"
                         "project_employees_employee_id_employees_id_fk")) db' /\
       projectEmployeesRows db'
       = filter (fun pe => negb (ProjectEmployee.projectId pe =? projectId))
           (projectEmployeesRows db) /\
       setRows projectEmployees (projectEmployeesRows db) db'
       = mkDb (usersRows db) (projectsRows db) (tasksRows db) (timeEntriesRows db)
           (employeesRows db) (projectEmployeesRows db) (departmentsRows db)
           (organizationsRows db) (uuidCount db')).
Proof.
  intros db projectId employeeIds userId Hrole Hin. split.
  - intro Hstored.
    destruct (assignEmployeesToProject_run db projectId employeeIds userId Hrole Hin
                Hstored) as [l [E [Hm Hl]]].
    unfold mayManageProjects, resolvedRole in Hrole.
    eexists _, _. split; [exact E|]. run_more. rewrite Hrole. cbn [negb].
    split; [reflexivity|].
    intro e. rewrite in_map_iff. split.
    + intros [[pe e'] [<- Hrow]]. cbn [snd]. apply filter_In in Hrow.
      destruct Hrow as [Hrow Hpid]. apply in_innerJoin in Hrow.
      destruct Hrow as [Hpe [He Hon]]. split; [exact He|].
      cbn [fst] in Hpid. apply in_app_or in Hpe. destruct Hpe as [Hpe|Hpe].
      * apply filter_In in Hpe. destruct Hpe as [_ Hpe]. now rewrite Hpid in Hpe.
      * apply String.eqb_eq in Hon. rewrite <- Hon, <- Hm. now apply in_map.
    + intros [He Hid]. rewrite <- Hm in Hid. apply in_map_iff in Hid.
      destruct Hid as [pe [Hpe Hl']]. exists (pe, e). split; [reflexivity|].
      apply filter_In. split.
      * apply in_innerJoin. split; [apply in_or_app; now right|].
        split; [exact He|]. rewrite Hpe. apply String.eqb_refl.
      * cbn [fst]. destruct (Hl pe Hl') as [-> _]. apply String.eqb_refl.
  - intros [i [Hi Hmissing]].
    destruct (assignEmployeesToProject_reaches_insert db projectId employeeIds
                userId Hrole Hin) as [l [E [Hm Hl]]];
      [intro Hnil; rewrite Hnil in Hi; contradiction|].
    eexists. rewrite E. unfold bind, insert, refuse.
    rewrite (firstViolation_only _ _
               (ForeignKey "project_employees"
                  "project_employees_employee_id_employees_id_fk")).
    + split; [reflexivity|]. split; reflexivity.
    + rewrite <- Hm in Hi. apply in_map_iff in Hi. destruct Hi as [pe [Hpe Hl']].
      exists pe. split; [exact Hl'|]. cbn [violation projectEmployees].
      apply assignment_refused.
      * destruct (Hl pe Hl') as [-> _]. exact Hin.
      * rewrite Hpe. exact Hmissing.
    + intros pe Hpe. cbn [violation projectEmployees].
      destruct (Hl pe Hpe) as [Hp Hu].
      destruct (includes (map Employee.id (employeesRows db))
                  (ProjectEmployee.employeeId pe)) eqn:Hs.
      * left. apply assignment_accepted.
        -- rewrite Hp. exact Hin.
        -- now apply includes_true_iff.
        -- rewrite Hu. exact (manager_is_stored userId db Hrole).
      * right. apply assignment_refused.
        -- rewrite Hp. exact Hin.
        -- now apply includes_false_iff.
Qed.

(** X10: a removal by an administrator or project manager leaves no
    assignment of that employee to that project; it answers true exactly when
    there was one, and every other assignment stays. *)
Theorem removeEmployeeFromProject_removes :
  forall (db : Db) (projectId employeeId userId : string),
    mayManageProjects userId db = true ->
    exists success db',
      removeEmployeeFromProject projectId employeeId userId db = Ok success db' /\
      (forall pe, In pe (projectEmployeesRows db') <->
                  In pe (projectEmployeesRows db) /\
                  ~ (ProjectEmployee.projectId pe = projectId /\
                     ProjectEmployee.employeeId pe = employeeId)) /\
      (success = true <->
       exists pe, In pe (projectEmployeesRows db) /\
                  ProjectEmployee.projectId pe = projectId /\
                  ProjectEmployee.employeeId pe = employeeId).
Proof.
  intros db projectId employeeId userId Hrole.
  unfold mayManageProjects, resolvedRole in Hrole.
  run_more. rewrite Hrole. cbn [negb].
  eexists _, _. split; [reflexivity|]. cbn [projectEmployeesRows].
  assert (Hc : forall pe,
             and_ [fun pe => ProjectEmployee.projectId pe =? projectId;
                   fun pe => ProjectEmployee.employeeId pe =? employeeId] pe = true
             <-> ProjectEmployee.projectId pe = projectId /\
                 ProjectEmployee.employeeId pe = employeeId).
  { intro pe. unfold and_. cbn. rewrite andb_true_r, andb_true_iff.
    now rewrite !String.eqb_eq. }
  split.
  - intro pe. rewrite filter_In, negb_true_iff, <- Hc.
    destruct (and_ _ pe); intuition congruence.
  - destruct (filter _ (projectEmployeesRows db)) as [|pe rest] eqn:E.
    + split; [discriminate|]. intros [pe [Hpe Hm]].
      assert (Hf : In pe (filter
                (and_ [fun pe => ProjectEmployee.projectId pe =? projectId;
                       fun pe => ProjectEmployee.employeeId pe =? employeeId])
                (projectEmployeesRows db))) by (apply filter_In; split; [|apply Hc]; auto).
      rewrite E in Hf. contradiction.
    + split; [intros _|reflexivity]. exists pe.
      assert (Hf : In pe (filter
                (and_ [fun pe => ProjectEmployee.projectId pe =? projectId;
                       fun pe => ProjectEmployee.employeeId pe =? employeeId])
                (projectEmployeesRows db))) by (rewrite E; now left).
      apply filter_In in Hf. destruct Hf as [Hpe Hm]. apply Hc in Hm. tauto.
Qed.

End Assignments.

(** X11: [getProjectWithEmployees] checks no role.  For an enterprise-wide
    project the assigned list is empty; for a restricted one it holds only
    employees whose assignment row was recorded under the requesting user's
    own id, so assignments made by somebody else are not shown. *)
Theorem getProjectWithEmployees_shows_own_assignments :
  forall (db : Db) (id userId : string),
    exists result,
      getProjectWithEmployees id userId db = Ok result db /\
      (result = None <-> ~ In id (map Project.id (projectsRows db))) /\
      (forall pw, result = Some pw ->
         Project.id (ProjectWithEmployees.project pw) = id /\
         (Project.isEnterpriseWide (ProjectWithEmployees.project pw) = true ->
          ProjectWithEmployees.assignedEmployees pw = []) /\
         (forall e, In e (ProjectWithEmployees.assignedEmployees pw) ->
            In e (employeesRows db) /\
            exists pe, In pe (projectEmployeesRows db) /\
                       ProjectEmployee.projectId pe = id /\
                       ProjectEmployee.employeeId pe = Employee.id e /\
                       ProjectEmployee.userId pe = userId)).
Proof.
  intros db id userId. run_more.
  destruct (filter (fun p => Project.id p =? id) (projectsRows db)) as [|p rest] eqn:E.
  - exists None. cbn. split; [reflexivity|]. split; [|discriminate].
    split; [intros _ Hin|reflexivity].
    apply in_map_iff in Hin. destruct Hin as [q [Hid Hq]].
    assert (Hf : In q (filter (fun p => Project.id p =? id) (projectsRows db))).
    { apply filter_In. split; [exact Hq|]. subst. apply String.eqb_refl. }
    rewrite E in Hf. contradiction.
  - assert (Hp : In p (filter (fun p => Project.id p =? id) (projectsRows db)))
      by (rewrite E; now left).
    apply filter_In in Hp. destruct Hp as [Hp Hid]. apply String.eqb_eq in Hid.
    cbn [first hd_error]. cbv beta iota.
    destruct (Project.isEnterpriseWide p) eqn:Hwide.
    + eexists. split; [reflexivity|]. split.
      * split; [discriminate|]. intro Hnot. elim Hnot. rewrite <- Hid.
        now apply in_map.
      * intros pw Hpw. injection Hpw as <-. cbn.
        split; [exact Hid|]. split; [reflexivity|contradiction].
    + eexists. split; [reflexivity|]. split.
      * split; [discriminate|]. intro Hnot. elim Hnot. rewrite <- Hid.
        now apply in_map.
      * intros pw Hpw. injection Hpw as <-. cbn [ProjectWithEmployees.project
          ProjectWithEmployees.assignedEmployees].
        split; [exact Hid|]. split; [congruence|].
        intros e He. apply in_map_iff in He. destruct He as [[pe e'] [<- Hrow]].
        apply filter_In in Hrow. destruct Hrow as [Hrow Hcond].
        apply in_innerJoin in Hrow. destruct Hrow as [Hpe [He Hon]].
        unfold and_ in Hcond. cbn in Hcond.
        rewrite andb_true_r, andb_true_iff, !String.eqb_eq in Hcond.
        apply String.eqb_eq in Hon. cbn [snd]. split; [exact He|].
        exists pe. tauto.
Qed.

Lemma getProjectWithEmployees_shows_own_assignments_witness :
  (exists db',
     assignEmployeesToProject now0 uuid0 "p-u1" ["emp-1"; "emp-2"] "admin-1" db0
     = Ok tt db' /\
     (exists pw, getProjectWithEmployees "p-u1" "pm-1" db' = Ok (Some pw) db' /\
                 ProjectWithEmployees.assignedEmployees pw = []) /\
     (exists pw, getProjectWithEmployees "p-u1" "admin-1" db' = Ok (Some pw) db' /\
                 map Employee.id (ProjectWithEmployees.assignedEmployees pw)
                 = ["emp-1"; "emp-2"])).
Proof.
  eexists. split; [vm_compute; reflexivity|]. split.
  - match goal with
    | |- exists pw, getProjectWithEmployees ?i ?u ?d = _ /\ _ =>
        destruct (getProjectWithEmployees_shows_own_assignments d i u)
          as [r [E [_ H]]]
    end.
    rewrite E. vm_compute in E. injection E as <-.
    eexists. split; reflexivity.
  - eexists. split; vm_compute; reflexivity.
Defined.

Lemma assignEmployeesToProject_replaces_witness :
  exists db',
    assignEmployeesToProject now0 uuid0 "p-u1" ["emp-3"; "emp-1"] "pm-1" db0
    = Ok tt db' /\
    map ProjectEmployee.employeeId
      (filter (fun pe => ProjectEmployee.projectId pe =? "p-u1")
         (projectEmployeesRows db')) = ["emp-3"; "emp-1"].
Proof.
  destruct (assignEmployeesToProject_replaces now0 uuid0 db0 "p-u1"
              ["emp-3"; "emp-1"] "pm-1" eq_refl) as [db' [E [H _]]].
  - unfold stored. cbn. tauto.
  - unfold stored. cbn. intros i [<-|[<-|[]]]; tauto.
  - now exists db'.
Defined.

Lemma assignEmployeesToProject_unknown_project_witness :
  assignEmployeesToProject now0 uuid0 "p-none" ["emp-1"] "admin-1" db0
  = Err "Project not found" db0.
Proof.
  apply assignEmployeesToProject_unknown_project; [reflexivity|].
  vm_compute. intuition discriminate.
Defined.

Lemma assign_then_getProjectEmployees_witness :
  (exists db' l,
     assignEmployeesToProject now0 uuid0 "p-u2" ["emp-2"; "emp-3"] "pm-1" dbAssigned
     = Ok tt db' /\
     getProjectEmployees "p-u2" "pm-1" db' = Ok l db' /\
     map Employee.id l = ["emp-2"; "emp-3"]) /\
  (exists m db',
     assignEmployeesToProject now0 uuid0 "p-u1" ["emp-1"; "emp-none"] "pm-1"
       dbAssigned = Err m db' /\
     map ProjectEmployee.id (projectEmployeesRows dbAssigned)
     = ["pe-1"; "pe-2"; "pe-3"] /\
     map ProjectEmployee.id (projectEmployeesRows db') = ["pe-3"]).
Proof.
  assert (Hp2 : stored projects "p-u2" dbAssigned) by (unfold stored; cbn; tauto).
  assert (Hp1 : stored projects "p-u1" dbAssigned) by (unfold stored; cbn; tauto).
  split.
  - destruct (assign_then_getProjectEmployees now0 uuid0 dbAssigned "p-u2"
                ["emp-2"; "emp-3"] "pm-1" eq_refl Hp2) as [H _].
    destruct H as [db' [l [E [Hg _]]]].
    + unfold stored. cbn. intros i [<-|[<-|[]]]; tauto.
    + exists db', l. split; [exact E|]. split; [exact Hg|].
      vm_compute in E. injection E as <-. vm_compute in Hg. injection Hg as <-.
      reflexivity.
  - destruct (assign_then_getProjectEmployees now0 uuid0 dbAssigned "p-u1"
                ["emp-1"; "emp-none"] "pm-1" eq_refl Hp1) as [_ H].
    destruct H as [db' [E [Hrows _]]].
    + exists "emp-none". split; [simpl; tauto|].
      unfold stored. cbn. intuition discriminate.
    + eexists _, db'. split; [exact E|]. split; [reflexivity|].
      rewrite Hrows. reflexivity.
Defined.

Lemma removeEmployeeFromProject_removes_witness :
  exists db',
    removeEmployeeFromProject "p-u1" "emp-2" "pm-1" dbAssigned = Ok true db' /\
    map ProjectEmployee.id (projectEmployeesRows dbAssigned)
    = ["pe-1"; "pe-2"; "pe-3"] /\
    map ProjectEmployee.id (projectEmployeesRows db') = ["pe-2"; "pe-3"].
Proof.
  destruct (removeEmployeeFromProject_removes dbAssigned "p-u1" "emp-2" "pm-1"
              eq_refl) as [b [db' [E _]]].
  exists db'. rewrite E. vm_compute in E. injection E as <- <-.
  repeat split.
Defined.

(** ** Reading time entries *)

Lemma in_firstn {A} (n : nat) (l : list A) (x : A) : In x (firstn n l) -> In x l.
Proof.
  intro H. rewrite <- (firstn_skipn n l). apply in_or_app. now left.
Qed.

Lemma in_skipn {A} (n : nat) (l : list A) (x : A) : In x (skipn n l) -> In x l.
Proof.
  intro H. rewrite <- (firstn_skipn n l). apply in_or_app. now right.
Qed.

Lemma in_entriesJoined (es : list TimeEntry.t) (ps : list Project.t)
  (ts : list Task.t) (row : TimeEntry.t * Project.t * option Task.t) :
  In row (entriesJoined es ps ts) ->
  In (fst (fst row)) es /\ In (snd (fst row)) ps /\
  TimeEntry.projectId (fst (fst row)) = Project.id (snd (fst row)).
Proof.
  destruct row as [[e p] t]. unfold entriesJoined. intro H.
  apply in_leftJoin_left in H. apply in_innerJoin in H.
  rewrite String.eqb_eq in H. exact H.
Qed.

Lemma not_privileged (userId : string) (db : Db) :
  mayManageProjects userId db = false ->
  (resolvedRole userId db =? "admin") = false /\
  (resolvedRole userId db =? "project_manager") = false.
Proof.
  unfold mayManageProjects, includes. cbn [existsb]. intro H.
  apply orb_false_iff in H. destruct H as [H1 H2].
  apply orb_false_iff in H2. tauto.
Qed.

(** The scope of [getTimeEntries] for a caller who is neither administrator
    nor project manager: whatever the filters, a row that passes is the
    caller's own. *)
Ltac own_condition H :=
  repeat match type of H with
    | context [truthy ?a] => destruct (truthy a)
    end;
  unfold and_, noCondition in H; cbn in H;
  repeat rewrite andb_true_iff in H;
  repeat match type of H with _ /\ _ => destruct H as [H ?] end.

(** X12: for a caller who is neither administrator nor project manager, every
    row [getTimeEntries] returns, with any filters, is a stored entry of the
    caller's own, and [getTimeEntry] answers with an entry only if it has the
    requested id and is the caller's own; both leave the store unchanged. *)
Theorem time_entry_reads_are_own :
  forall (db : Db) (userId : string),
    mayManageProjects userId db = false ->
    (forall filters,
       exists l, getTimeEntries userId filters db = Ok l db /\
         forall r, In r l ->
           TimeEntry.userId (TimeEntryWithProject.entry r) = userId /\
           exists e, In e (timeEntriesRows db) /\
                     TimeEntryWithProject.entry r = withTaskIdOrNull e) /\
    (forall id,
       exists result, getTimeEntry id userId db = Ok result db /\
         forall r, result = Some r ->
           TimeEntry.id (TimeEntryWithProject.entry r) = id /\
           TimeEntry.userId (TimeEntryWithProject.entry r) = userId).
Proof.
  intros db userId Hrole.
  destruct (not_privileged userId db Hrole) as [Hadmin Hpm].
  unfold mayManageProjects in Hrole. unfold resolvedRole in *.
  split.
  - intro filters. run_more. rewrite Hadmin, Hpm. cbv beta iota.
    eexists. split; [reflexivity|].
    intros r Hr. apply in_map_iff in Hr. destruct Hr as [row [<- Hrow]].
    match type of Hrow with
    | context [orderBy _ ?found] => assert (Hin : In row found)
    end.
    { destruct (truthyNumber (filterOf filters Filters.limit)),
               (truthyNumber (filterOf filters Filters.offset));
        repeat (first [apply in_firstn in Hrow | apply in_skipn in Hrow]);
        apply orderBy_In in Hrow; exact Hrow. }
    apply filter_In in Hin. destruct Hin as [Hj Hc].
    apply in_entriesJoined in Hj. destruct Hj as [He _].
    split.
    + cbn. own_condition Hc; now apply String.eqb_eq.
    + exists (fst (fst row)). split; [exact He|reflexivity].
  - intro id. run_more. rewrite Hrole. cbn [negb]. cbv beta iota.
    destruct (filter _ (entriesJoined _ _ _)) as [|row rest] eqn:E.
    + exists None. split; [reflexivity|discriminate].
    + eexists. split; [reflexivity|].
      intros r Hr. injection Hr as <-.
      assert (Hin : In row (row :: rest)) by now left.
      rewrite <- E in Hin. apply filter_In in Hin. destruct Hin as [_ Hc].
      unfold and_ in Hc. cbn in Hc.
      rewrite andb_true_r, andb_true_iff, !String.eqb_eq in Hc.
      cbn. exact Hc.
Qed.

(** X13: a positive [limit] bounds the number of rows [getTimeEntries]
    returns, for any caller and any other filter; [getRecentActivity] without
    a limit returns at most ten rows. *)
Theorem time_entry_limit_bounds :
  forall (db : Db) (userId : string),
    (forall f n, Filters.limit f = Some (S n) ->
       exists l, getTimeEntries userId (Some f) db = Ok l db /\
                 length l <= S n) /\
    (forall startDate endDate,
       exists l, getRecentActivity userId None startDate endDate db = Ok l db /\
                 length l <= 10).
Proof.
  intros db userId. split.
  - intros f n Hlimit. run_more. cbn [filterOf]. rewrite Hlimit.
    cbn [truthyNumber].
    repeat match goal with
      | |- context [roleOrEmployee ?u =? ?s] => destruct (roleOrEmployee u =? s)
      end;
      (eexists; split; [reflexivity|]; rewrite length_map; apply firstn_le_length).
  - intros startDate endDate. run_more. cbn [filterOf Filters.limit truthyNumber].
    repeat match goal with
      | |- context [roleOrEmployee ?u =? ?s] => destruct (roleOrEmployee u =? s)
      end;
      (eexists; split; [reflexivity|]; rewrite length_map; apply firstn_le_length).
Qed.

(** X14: a [limit] of zero is falsy and so is no limit at all:
    [getTimeEntries] then returns what it returns without the key, and
    [getRecentActivity] asked for zero rows returns every row in range. *)
Theorem time_entry_limit_zero_is_no_limit :
  forall (db : Db) (userId : string) (f : Filters.t),
    Filters.limit f = Some 0 ->
    getTimeEntries userId (Some f) db
    = getTimeEntries userId
        (Some (Filters.mk (Filters.projectId f) (Filters.taskId f)
                 (Filters.startDate f) (Filters.endDate f) None
                 (Filters.offset f))) db /\
    (forall startDate endDate,
       getRecentActivity userId (Some 0) startDate endDate db
       = getTimeEntries userId
           (Some (Filters.mk None None
                    (if truthy startDate then startDate else None)
                    (if truthy endDate then endDate else None) None None)) db).
Proof.
  intros db userId f Hlimit. split.
  - run_more. cbn [filterOf Filters.limit Filters.offset Filters.projectId
                     Filters.taskId Filters.startDate Filters.endDate].
    rewrite Hlimit. reflexivity.
  - intros. reflexivity.
Qed.

Lemma time_entry_limit_zero_is_no_limit_witness :
  getTimeEntries "admin-1" (Some (Filters.mk None None None None (Some 0) None)) db0
  = getTimeEntries "admin-1" (Some (Filters.mk None None None None None None)) db0.
Proof.
  destruct (time_entry_limit_zero_is_no_limit db0 "admin-1"
              (Filters.mk None None None None (Some 0) None) eq_refl) as [H _].
  cbn [Filters.projectId Filters.taskId Filters.startDate Filters.endDate
       Filters.offset] in H.
  exact H.
Defined.

Lemma time_entry_reads_are_own_witness :
  exists l, getTimeEntries "mgr-1" None db0 = Ok l db0 /\ l = [].
Proof.
  destruct (time_entry_reads_are_own db0 "mgr-1" eq_refl) as [H _].
  destruct (H None) as [l [E _]]. exists l. split; [exact E|].
  vm_compute in E. now injection E as <-.
Defined.

(** ** What a caller's reads depend on *)

Lemma filter_filter_implied {A} (f g : A -> bool) (l : list A) :
  (forall x, f x = true -> g x = true) -> filter f (filter g l) = filter f l.
Proof.
  intro H. induction l as [|x l IH]; [reflexivity|]. cbn.
  destruct (g x) eqn:Hg; cbn; [now rewrite IH|].
  destruct (f x) eqn:Hf; [|exact IH].
  rewrite (H x Hf) in Hg. discriminate.
Qed.

Lemma filter_pairs {A B} (f : A -> bool) (a : A) (l : list B) :
  filter (fun ab : A * B => f (fst ab)) (map (pair a) l)
  = if f a then map (pair a) l else [].
Proof.
  induction l as [|b l IH]; cbn; [now destruct (f a)|].
  rewrite IH. now destruct (f a).
Qed.

Lemma innerJoin_filter_left {A B} (on : A -> B -> bool) (f : A -> bool)
  (l : list A) (r : list B) :
  innerJoin on (filter f l) r
  = filter (fun ab => f (fst ab)) (innerJoin on l r).
Proof.
  unfold innerJoin. induction l as [|a l IH]; [reflexivity|]. cbn.
  rewrite filter_app, filter_pairs, <- IH.
  now destruct (f a).
Qed.

Lemma filter_same_left {A B} (f : A -> bool) (a : A) (found : list (A * B)) :
  (forall x, In x found -> fst x = a) ->
  filter (fun ab => f (fst ab)) found = if f a then found else [].
Proof.
  induction found as [|x found IH]; cbn; intro H; [now destruct (f a)|].
  rewrite (H x (or_introl eq_refl)), IH by (intros y Hy; apply H; now right).
  now destruct (f a).
Qed.

Lemma leftJoin_filter_left {A B} (on : A -> B -> bool) (f : A -> bool)
  (l : list A) (r : list B) :
  leftJoin on (filter f l) r
  = filter (fun ab => f (fst ab)) (leftJoin on l r).
Proof.
  unfold leftJoin. induction l as [|a l IH]; [reflexivity|].
  cbn [filter flat_map]. rewrite filter_app, <- IH.
  rewrite (filter_same_left f a).
  - now destruct (f a).
  - intros x Hx. destruct (filter (on a) r) as [|b bs].
    + destruct Hx as [<-|[]]. reflexivity.
    + apply in_map_iff in Hx. destruct Hx as [y [<- _]]. reflexivity.
Qed.

Lemma entriesJoined_own (userId : string) (es : list TimeEntry.t)
  (ps : list Project.t) (ts : list Task.t) :
  entriesJoined (filter (fun e => TimeEntry.userId e =? userId) es) ps ts
  = filter (fun row => TimeEntry.userId (fst (fst row)) =? userId)
      (entriesJoined es ps ts).
Proof.
  unfold entriesJoined.
  rewrite (innerJoin_filter_left _ (fun e => TimeEntry.userId e =? userId)).
  apply (leftJoin_filter_left _
           (fun ep : TimeEntry.t * Project.t => TimeEntry.userId (fst ep) =? userId)).
Qed.

(** The time entries a caller without privileges gets are computed from the
    caller's own entries alone. *)
Lemma getTimeEntries_from_own (db : Db) (userId : string)
  (filters : option Filters.t) :
  mayManageProjects userId db = false ->
  valueOf (getTimeEntries userId filters (ownEntriesOnly userId db))
  = valueOf (getTimeEntries userId filters db).
Proof.
  intro Hrole. destruct (not_privileged userId db Hrole) as [Hadmin Hpm].
  unfold resolvedRole in *.
  run_more. rewrite Hadmin, Hpm. cbv beta iota.
  rewrite entriesJoined_own, filter_filter_implied; [reflexivity|].
  intros row Hc. own_condition Hc; assumption.
Qed.

Section ReadsDependOnOwn.
Variable todayPST weekAgoPST monthStartPST thirtyDaysAgoPST : string.

(** X15: for a caller who is neither administrator nor project manager, the
    rows of [getTimeEntries] and the four numbers of [getDashboardStats] do
    not depend on anybody else's time entries: two stores with the same
    users, projects and tasks and the same entries of the caller give the
    same answers. *)
Theorem reads_ignore_foreign_entries :
  forall (db1 db2 : Db) (userId : string),
    mayManageProjects userId db1 = false ->
    usersRows db1 = usersRows db2 ->
    projectsRows db1 = projectsRows db2 ->
    tasksRows db1 = tasksRows db2 ->
    filter (fun e => TimeEntry.userId e =? userId) (timeEntriesRows db1)
    = filter (fun e => TimeEntry.userId e =? userId) (timeEntriesRows db2) ->
    (forall filters,
       valueOf (getTimeEntries userId filters db1)
       = valueOf (getTimeEntries userId filters db2)) /\
    (forall startDate endDate,
       valueOf (getDashboardStats todayPST weekAgoPST monthStartPST
                  thirtyDaysAgoPST userId startDate endDate db1)
       = valueOf (getDashboardStats todayPST weekAgoPST monthStartPST
                    thirtyDaysAgoPST userId startDate endDate db2)).
Proof.
  intros db1 db2 userId Hrole Hu Hp Ht Hown.
  assert (Hrole2 : mayManageProjects userId db2 = false).
  { unfold mayManageProjects, resolvedRole in *. now rewrite <- Hu. }
  split.
  - intro filters.
    rewrite <- (getTimeEntries_from_own db1 userId filters Hrole).
    rewrite <- (getTimeEntries_from_own db2 userId filters Hrole2).
    run_more. now rewrite Hu, Hp, Ht, Hown.
  - intros startDate endDate.
    unfold mayManageProjects, resolvedRole in Hrole, Hrole2.
    run_more. rewrite Hrole, Hrole2. cbv beta iota.
    repeat match goal with
      | |- context [filter (and_ (?own :: ?rest)) (timeEntriesRows ?d)] =>
          rewrite <- (filter_filter_implied (and_ (own :: rest)) own
                        (timeEntriesRows d))
            by (intros x Hx; unfold and_ in Hx; cbn in Hx;
                apply andb_true_iff in Hx; apply Hx)
      end.
    now rewrite Hown.
Qed.

End ReadsDependOnOwn.

Lemma reads_ignore_foreign_entries_witness :
  valueOf (getTimeEntries "u1" None db0)
  = valueOf (getTimeEntries "u1" None (ownEntriesOnly "u1" db0)) /\
  length (timeEntriesRows (ownEntriesOnly "u1" db0)) = 2 /\
  length (timeEntriesRows db0) = 3.
Proof.
  split; [|split; reflexivity].
  apply (reads_ignore_foreign_entries "2025-08-16" "2025-08-09" "2025-08-01"
           "2025-07-17" db0 (ownEntriesOnly "u1" db0) "u1");
    reflexivity.
Defined.

(** ** Scopes of the other listings *)

(** X16: [getAllUserTasks] pairs every listed task with the stored project it
    belongs to.  A caller who is neither administrator nor project manager is
    shown tasks of enterprise-wide projects only; an administrator or project
    manager is shown every task whose project is stored. *)
Theorem getAllUserTasks_scope :
  forall (db : Db) (userId : string),
    exists l,
      getAllUserTasks userId db = Ok l db /\
      (forall row, In row l ->
         In (fst row) (tasksRows db) /\ In (snd row) (projectsRows db) /\
         Task.projectId (fst row) = Project.id (snd row) /\
         (mayManageProjects userId db = false ->
          Project.isEnterpriseWide (snd row) = true)) /\
      (mayManageProjects userId db = true ->
       forall t p, In t (tasksRows db) -> In p (projectsRows db) ->
                   Task.projectId t = Project.id p -> In (t, p) l).
Proof.
  intros db userId. unfold mayManageProjects, resolvedRole. run_more.
  eexists. split; [reflexivity|]. split.
  - intros [t p] Hrow. apply orderBy_In in Hrow. apply filter_In in Hrow.
    destruct Hrow as [Hj Hc]. apply in_innerJoin in Hj.
    destruct Hj as [Ht [Hp Hon]]. apply String.eqb_eq in Hon.
    cbn [fst snd]. repeat split; try assumption.
    intro Hrole. rewrite Hrole in Hc. cbn in Hc.
    now destruct (Project.isEnterpriseWide p).
  - intros Hrole t p Ht Hp Hon. rewrite Hrole.
    apply orderBy_In, filter_In. split; [|reflexivity].
    apply in_innerJoin. rewrite Hon, String.eqb_refl. auto.
Qed.

(** X17: [getProjectTimeBreakdown] never throws and only reads.  Every row
    it returns is a stored project with a positive total; unless the caller
    is an administrator the project is enterprise-wide, or, for a project
    manager alone, owned by the caller. *)
Theorem getProjectTimeBreakdown_scope :
  forall (db : Db) (userId : string) (startDate endDate : option string),
    exists l,
      getProjectTimeBreakdown userId startDate endDate db = Ok l db /\
      forall r, In r l ->
        In (ProjectBreakdown.project r) (projectsRows db) /\
        (0 < ProjectBreakdown.totalHours r)%Z /\
        ((resolvedRole userId db =? "admin") = false ->
         Project.isEnterpriseWide (ProjectBreakdown.project r) = true \/
         (resolvedRole userId db = "project_manager" /\
          Project.userId (ProjectBreakdown.project r) = userId)).
Proof.
  intros db userId startDate endDate. unfold resolvedRole. run_more.
  eexists. split; [reflexivity|].
  intros r Hr. apply in_map_iff in Hr. destruct Hr as [[p s] [<- Hr]].
  apply filter_In in Hr. destruct Hr as [Hr Hpos].
  apply orderBy_In in Hr. apply in_map_iff in Hr.
  destruct Hr as [q [Eq Hq]]. injection Eq as <- _.
  apply distinctBy_incl in Hq. apply in_map_iff in Hq.
  destruct Hq as [[q' e] [<- Hq]]. cbn [fst snd ProjectBreakdown.project
    ProjectBreakdown.totalHours] in *.
  apply filter_In in Hq. destruct Hq as [Hin Hcond].
  apply in_leftJoin_left in Hin.
  split; [exact Hin|]. split; [now apply Z.ltb_lt|].
  intro Hadmin. rewrite Hadmin in Hcond.
  destruct (roleOrEmployee _ =? "project_manager") eqn:Hpm.
  - assert (Hscope : (Bool.eqb (Project.isEnterpriseWide q') true
                      || (Project.userId q' =? userId)) = true).
    { destruct (truthy startDate), (truthy endDate);
        cbn in Hcond; unfold and_, or_ in Hcond; cbn in Hcond;
        apply andb_true_iff in Hcond; apply Hcond. }
    apply orb_true_iff in Hscope. destruct Hscope as [Hw|Ho].
    + left. now destruct (Project.isEnterpriseWide q').
    + right. split; [now apply String.eqb_eq|now apply String.eqb_eq].
  - left.
    assert (Hw : Bool.eqb (Project.isEnterpriseWide q') true = true).
    { destruct (roleOrEmployee _ =? "manager");
        destruct (truthy startDate), (truthy endDate);
        cbn in Hcond; unfold and_ in Hcond; cbn in Hcond;
        apply andb_true_iff in Hcond; apply Hcond. }
    now destruct (Project.isEnterpriseWide q').
Qed.

(** X18: [getDepartmentHoursSummary] only reads.  Every row it returns names
    a non-empty department with a positive total, the same text as id and as
    name, held by a stored employee; unless the caller is an administrator
    that employee record is the caller's own. *)
Theorem getDepartmentHoursSummary_scope :
  forall (db : Db) (userId : string) (startDate endDate : option string),
    exists l,
      getDepartmentHoursSummary userId startDate endDate db = Ok l db /\
      forall r, In r l ->
        DepartmentHours.departmentName r <> "" /\
        DepartmentHours.departmentId r = DepartmentHours.departmentName r /\
        (0 < DepartmentHours.totalHours r)%Z /\
        exists e, In e (employeesRows db) /\
                  Employee.department e = DepartmentHours.departmentName r /\
                  ((resolvedRole userId db =? "admin") = false ->
                   Employee.userId e = userId).
Proof.
  intros db userId startDate endDate. unfold resolvedRole. run_more.
  eexists. split; [reflexivity|].
  intros r Hr. apply filter_In in Hr. destruct Hr as [Hr Hfinal].
  apply andb_true_iff in Hfinal. destruct Hfinal as [Hname Hpos].
  apply negb_true_iff, String.eqb_neq in Hname. apply Z.ltb_lt in Hpos.
  split; [exact Hname|]. split; [|split; [exact Hpos|]].
  - apply in_map_iff in Hr. destruct Hr as [g [<- _]]. reflexivity.
  - apply in_map_iff in Hr. destruct Hr as [g [<- Hg]].
    apply orderBy_In in Hg. apply filter_In in Hg. destruct Hg as [Hg _].
    apply in_map_iff in Hg. destruct Hg as [e [<- He]].
    apply distinctBy_incl in He. apply in_map_iff in He.
    destruct He as [[e' t] [<- Hrow]]. cbn [fst snd DepartmentHours.departmentName].
    apply filter_In in Hrow. destruct Hrow as [Hin Hcond].
    apply in_leftJoin_left in Hin.
    exists e'. split; [exact Hin|]. split; [reflexivity|].
    intro Hadmin. rewrite Hadmin in Hcond. cbn in Hcond.
    now apply String.eqb_eq.
Qed.

(** ** Users *)

Lemma first_filter_map_id (g : User.t -> User.t) (x : string) (us : list User.t) :
  (forall u, User.id (g u) = User.id u) ->
  first (filter (fun u => User.id u =? x) (map g us))
  = option_map g (first (filter (fun u => User.id u =? x) us)).
Proof.
  intro Hg. induction us as [|u us IH]; [reflexivity|].
  cbn [map filter]. rewrite Hg.
  destruct (User.id u =? x); [reflexivity|exact IH].
Qed.

Lemma first_filter_in {A} (f : A -> bool) (l : list A) (x : A) :
  first (filter f l) = Some x -> In x l /\ f x = true.
Proof.
  intro E. assert (H : In x (filter f l)).
  { destruct (filter f l); [discriminate|]. injection E as ->. now left. }
  now apply filter_In in H.
Qed.

Lemma first_filter_none {A} (f : A -> bool) (l : list A) :
  first (filter f l) = None -> forall x, In x l -> f x = false.
Proof.
  intros E x Hx. destruct (f x) eqn:Hf; [|reflexivity].
  destruct (first_filter_some f l x Hx Hf) as [y [E' _]]. congruence.
Qed.

(** A users row is accepted when its role fits the column and its address
    is held by no user of another id. *)
Lemma user_accepted (db : Db) (old : option User.t) (new : User.t) :
  (forall r, User.role new = Some r -> String.length r <= 50) ->
  emailTaken (User.email new) (User.id new) (usersRows db) = false ->
  userViolation db old new = None.
Proof.
  intros Hrole Hfree. unfold userViolation.
  by_columns; apply checkColumn_passes.
  - now apply nullable_fits.
  - now rewrite Hfree.
Qed.

Lemma role_accepted (db : Db) (role : string) (at_ : Timestamp) (u : User.t) :
  String.length role <= 50 ->
  userViolation db (Some u) (setUserRole role at_ u) = None.
Proof.
  intro Hrole. unfold userViolation. by_columns.
  - apply checkColumn_passes. cbn [setUserRole User.role varcharNullable].
    now apply varchar_fits.
  - apply checkColumn_unwritten. apply sameText_refl.
Qed.

Lemma inactive_accepted (db : Db) (at_ : Timestamp) (u : User.t) :
  userViolation db (Some u) (setInactive at_ u) = None.
Proof.
  unfold userViolation. by_columns; apply checkColumn_unwritten;
    apply sameText_refl.
Qed.

Lemma link_accepted (db : Db) (at_ : Timestamp) (userId : string) (e : Employee.t) :
  stored users userId db ->
  employeeViolation db (Some e) (setEmployeeUser at_ userId e) = None.
Proof.
  intro Hu. unfold employeeViolation. by_columns.
  - apply checkColumn_unwritten. apply String.eqb_refl.
  - apply checkColumn_passes. now apply references_stored.
Qed.

Lemma link_refused (db : Db) (at_ : Timestamp) (userId : string) (e : Employee.t) :
  ~ stored users userId db -> Employee.userId e <> userId ->
  employeeViolation db (Some e) (setEmployeeUser at_ userId e)
  = Some (ForeignKey "employees" "employees_user_id_users_id_fk").
Proof.
  intros Hu Hother. unfold employeeViolation, checkColumn, written.
  cbn [setEmployeeUser Employee.employeeId Employee.userId firstViolation].
  rewrite String.eqb_refl. cbn [negb].
  apply String.eqb_neq in Hother. rewrite Hother. cbn [negb].
  now rewrite references_missing.
Qed.

Lemma link_unwritten (db : Db) (at_ : Timestamp) (e : Employee.t) :
  employeeViolation db (Some e) (setEmployeeUser at_ (Employee.userId e) e) = None.
Proof.
  unfold employeeViolation. by_columns; apply checkColumn_unwritten;
    apply String.eqb_refl.
Qed.

Section Users.
Variable now : Timestamp.
Variable gen_random_uuid : nat -> string.

(** X19: [updateUserRole] with a non-empty role of at most 50 characters
    makes that role the one every later check resolves for the target,
    provided the target is stored; an empty role string is falsy and
    resolves to 'employee'.  The role resolved for any other user id is as
    before. *)
Theorem updateUserRole_then_resolved :
  forall (db : Db) (userId role : string),
    In userId (map User.id (usersRows db)) ->
    String.length role <= 50 ->
    exists result db',
      updateUserRole now userId role db = Ok result db' /\
      resolvedRole userId db' = (if role =? "" then "employee" else role) /\
      (forall other, other <> userId ->
                     resolvedRole other db' = resolvedRole other db).
Proof.
  intros db userId role Hin Hfits. run_more.
  accepted_update role_accepted Hfits.
  eexists _, _. split; [reflexivity|].
  run_more.
  assert (Hid : forall u, User.id (if User.id u =? userId
                                   then setUserRole role now u else u) = User.id u).
  { intro u. now destruct (User.id u =? userId). }
  split.
  - rewrite (first_filter_map_id _ userId _ Hid).
    apply in_map_iff in Hin. destruct Hin as [u [Hu Hin]].
    destruct (first_filter_some (fun v => User.id v =? userId) (usersRows db) u Hin)
      as [y [E [_ Hy]]]; [subst; apply String.eqb_refl|].
    rewrite E. cbn [option_map]. rewrite Hy. reflexivity.
  - intros other Hother. rewrite (first_filter_map_id _ other _ Hid).
    destruct (first (filter (fun v => User.id v =? other) (usersRows db)))
      as [y|] eqn:E; [|reflexivity].
    apply first_filter_in in E. destruct E as [_ Hy]. apply String.eqb_eq in Hy.
    cbn [option_map]. subst other. apply String.eqb_neq in Hother.
    now rewrite Hother.
Qed.

(** X20: [deactivateUser] revokes nothing.  It marks the rows of the target
    inactive and leaves every other table alone, and the role resolved for
    any user id, the target's included, is what it was, so every role gate
    and every scope decides as before. *)
Theorem deactivateUser_keeps_roles :
  forall (db : Db) (userId : string),
    exists result db',
      deactivateUser now userId db = Ok result db' /\
      (forall u, In u (usersRows db') -> User.id u = userId ->
                 User.isActive u = Some false) /\
      (forall anyone, resolvedRole anyone db' = resolvedRole anyone db /\
                      mayManageProjects anyone db' = mayManageProjects anyone db) /\
      setRows users (usersRows db) db' = db.
Proof.
  intros db userId. run_more.
  rewrite firstViolation_rows by (intros; apply inactive_accepted).
  eexists _, _. split; [reflexivity|].
  run_more.
  assert (Hid : forall u, User.id (if User.id u =? userId
                                   then setInactive now u else u) = User.id u).
  { intro u. now destruct (User.id u =? userId). }
  assert (Hrole : forall anyone,
             roleOrEmployee
               (first (filter (fun u => User.id u =? anyone)
                         (map (fun r => if User.id r =? userId
                                        then setInactive now r else r)
                            (usersRows db))))
             = roleOrEmployee
                 (first (filter (fun u => User.id u =? anyone) (usersRows db)))).
  { intro anyone. rewrite (first_filter_map_id _ anyone _ Hid).
    destruct (first _) as [y|]; [|reflexivity].
    cbn [option_map]. now destruct (User.id y =? userId). }
  split; [|split].
  - intros u Hu Hid'. apply in_map_iff in Hu. destruct Hu as [v [<- _]].
    destruct (User.id v =? userId) eqn:E; [reflexivity|].
    cbn in Hid'. apply String.eqb_neq in E. contradiction.
  - intro anyone. now rewrite Hrole.
  - now destruct db.
Qed.

(** X21: [getUsersWithoutEmployeeProfile] returns, each once, exactly the
    stored users that no employee row refers to, whether or not any employee
    exists; the store is only read. *)
Theorem getUsersWithoutEmployeeProfile_exact :
  forall (db : Db),
    exists l,
      getUsersWithoutEmployeeProfile db = Ok l db /\
      Permutation l
        (filter (fun u => negb (includes (map Employee.userId (employeesRows db))
                                  (User.id u))) (usersRows db)) /\
      (forall u, In u l <->
                 In u (usersRows db) /\
                 ~ In (User.id u) (map Employee.userId (employeesRows db))).
Proof.
  intro db. run_more. unfold noCondition.
  rewrite !filter_all by reflexivity.
  assert (Hspec : forall u,
             In u (filter (fun u => negb (includes (map Employee.userId
                                                      (employeesRows db))
                                            (User.id u))) (usersRows db))
             <-> In u (usersRows db) /\
                 ~ In (User.id u) (map Employee.userId (employeesRows db))).
  { intro u. rewrite filter_In, negb_true_iff, includes_false_iff. tauto. }
  destruct (employeesRows db) as [|e es] eqn:E.
  - cbn [map length Nat.eqb]. cbv beta iota. run_more.
    rewrite filter_all by reflexivity.
    eexists. split; [reflexivity|].
    assert (Hall : filter (fun u => negb (includes [] (User.id u))) (usersRows db)
                   = usersRows db) by (apply filter_all; reflexivity).
    cbn [map] in Hspec. split.
    + rewrite Hall. apply Permutation_sym, orderBy_perm.
    + intro u. rewrite orderBy_In, <- Hspec, Hall. tauto.
  - cbn [map length Nat.eqb]. cbv beta iota. unfold notInArray.
    eexists. split; [reflexivity|]. split.
    + apply Permutation_sym, orderBy_perm.
    + intro u. rewrite orderBy_In. apply Hspec.
Qed.

(** X22: linking a stored user to a stored employee gives the user a
    profile: afterwards [getEmployeeByUserId] finds an employee of that user
    and [getUsersWithoutEmployeeProfile] no longer lists the user.  Linking
    a user id that is not stored to an employee of another user is refused
    by the engine and changes nothing.  Linking to an employee id that is
    not stored answers undefined and changes nothing. *)
Theorem linkUserToEmployee_gives_profile :
  forall (db : Db) (userId employeeId : string),
    (stored employees employeeId db -> stored users userId db ->
     exists e db',
       linkUserToEmployee now userId employeeId db = Ok (Some e) db' /\
       Employee.id e = employeeId /\ Employee.userId e = userId /\
       (exists e', getEmployeeByUserId userId db' = Ok (Some e') db' /\
                   Employee.userId e' = userId) /\
       (exists l, getUsersWithoutEmployeeProfile db' = Ok l db' /\
                  forall u, In u l -> User.id u <> userId)) /\
    (~ stored users userId db ->
     (exists e, In e (employeesRows db) /\ Employee.id e = employeeId /\
                Employee.userId e <> userId) ->
     linkUserToEmployee now userId employeeId db
     = Err (message (ForeignKey "employees" "employees_user_id_users_id_fk")) db) /\
    (~ stored employees employeeId db ->
     linkUserToEmployee now userId employeeId db = Ok None db).
Proof.
  intros db userId employeeId. split; [|split].
  - intros Hin Huser. apply in_map_iff in Hin. destruct Hin as [e0 [Hid He0]].
    cbn [key employees] in Hid.
    destruct (first_filter_some (fun e => Employee.id e =? employeeId)
                (employeesRows db) e0 He0) as [y [E [Hy Hk]]];
      [subst; apply String.eqb_refl|].
    apply String.eqb_eq in Hk.
    assert (Hlinked : In (setEmployeeUser now userId y)
                        (map (fun r => if Employee.id r =? employeeId
                                       then setEmployeeUser now userId r else r)
                           (employeesRows db))).
    { apply in_map_iff. exists y. split; [|exact Hy].
      now rewrite Hk, String.eqb_refl. }
    run_more. accepted_update link_accepted Huser.
    destruct (filter (fun e => Employee.id e =? employeeId) (employeesRows db))
      as [|z rest] eqn:Hf; [discriminate|]. injection E as ->.
    eexists _, _. split; [reflexivity|].
    split; [exact Hk|]. split; [reflexivity|]. split.
    + run_more.
      destruct (first_filter_some (fun e => Employee.userId e =? userId) _ _ Hlinked)
        as [e' [E' [_ He']]]; [apply String.eqb_refl|].
      exists e'. rewrite E'. split; [reflexivity|now apply String.eqb_eq].
    + destruct (getUsersWithoutEmployeeProfile_exact
                  (mkDb (usersRows db) (projectsRows db) (tasksRows db)
                     (timeEntriesRows db)
                     (map (fun r => if Employee.id r =? employeeId
                                    then setEmployeeUser now userId r else r)
                        (employeesRows db))
                     (projectEmployeesRows db) (departmentsRows db)
                     (organizationsRows db) (uuidCount db)))
        as [l [El [_ Hl]]].
      exists l. split; [exact El|].
      intros u Hu Heq. apply Hl in Hu. destruct Hu as [_ Hu]. apply Hu.
      cbn [employeesRows]. rewrite Heq.
      change userId with (Employee.userId (setEmployeeUser now userId y)).
      now apply in_map.
  - intros Hmissing [e [He [Hid Hother]]].
    unfold linkUserToEmployee, bind, update, refuse.
    rewrite (firstViolation_only _ _
               (ForeignKey "employees" "employees_user_id_users_id_fk"));
      [reflexivity| |].
    + exists e. split.
      * apply filter_In. split; [exact He|]. subst. apply String.eqb_refl.
      * cbn [violation employees]. now apply link_refused.
    + intros r Hr. cbn [violation employees].
      destruct (Employee.userId r =? userId) eqn:Hsame.
      * left. apply String.eqb_eq in Hsame. rewrite <- Hsame. apply link_unwritten.
      * right. apply link_refused; [exact Hmissing|]. now apply String.eqb_neq.
  - intro Hnot. run_more.
    assert (Hmiss : forall e, In e (employeesRows db) ->
                              (Employee.id e =? employeeId) = false).
    { intros e He. apply String.eqb_neq. intro E. apply Hnot. rewrite <- E.
      unfold stored. cbn [key rows employees]. now apply in_map. }
    rewrite (filter_none _ _ Hmiss), (map_untouched _ _ _ Hmiss).
    cbn. now rewrite keep_eta.
Qed.

End Users.

Lemma updateUserRole_then_resolved_witness :
  exists result db',
    updateUserRole now0 "viewer-1" "" db0 = Ok result db' /\
    resolvedRole "viewer-1" db' = "employee" /\
    resolvedRole "admin-1" db' = "admin".
Proof.
  destruct (updateUserRole_then_resolved now0 db0 "viewer-1" "")
    as [r [db' [E [Hr Ho]]]]; [vm_compute; tauto|simpl; lia|].
  exists r, db'. split; [exact E|]. split; [exact Hr|].
  rewrite Ho by discriminate. reflexivity.
Defined.

Lemma linkUserToEmployee_gives_profile_witness :
  (exists e db',
     linkUserToEmployee now0 "viewer-1" "emp-1" db0 = Ok (Some e) db' /\
     Employee.userId e = "viewer-1") /\
  (exists m, linkUserToEmployee now0 "ghost" "emp-1" db0 = Err m db0) /\
  linkUserToEmployee now0 "viewer-1" "emp-none" db0 = Ok None db0.
Proof.
  destruct (linkUserToEmployee_gives_profile now0 db0 "viewer-1" "emp-1")
    as [Hlink _].
  destruct (linkUserToEmployee_gives_profile now0 db0 "ghost" "emp-1")
    as [_ [Hghost _]].
  destruct (linkUserToEmployee_gives_profile now0 db0 "viewer-1" "emp-none")
    as [_ [_ Hnone]].
  split; [|split].
  - destruct Hlink as [e [db' [E [_ [Hu _]]]]].
    + unfold stored. cbn. tauto.
    + unfold stored. cbn. tauto.
    + now exists e, db'.
  - eexists. apply Hghost.
    + unfold stored. cbn. intuition discriminate.
    + eexists. split; [left; reflexivity|]. split; [reflexivity|discriminate].
  - apply Hnone. unfold stored. cbn. intuition discriminate.
Defined.

Lemma existsb_none {A} (f : A -> bool) (l : list A) :
  (forall x, In x l -> f x = false) -> existsb f l = false.
Proof.
  intro H. induction l as [|x l IH]; [reflexivity|]. cbn.
  rewrite (H x (or_introl eq_refl)). apply IH. intros y Hy. apply H. now right.
Qed.

Lemma existsb_first {A} (f : A -> bool) (l : list A) :
  existsb f l = match first (filter f l) with Some _ => true | None => false end.
Proof.
  induction l as [|x l IH]; [reflexivity|]. cbn.
  destruct (f x); [reflexivity|exact IH].
Qed.

Section Upsert.
Variable now : Timestamp.
Variable gen_random_uuid : nat -> string.

(** What the upsert does when the values carry an id. *)
Lemma insertUserOnConflictDoUpdate_run (values set : UpsertUser.t) (i : string)
  (db : Db) :
  UpsertUser.id values = Some i ->
  insertUserOnConflictDoUpdate now gen_random_uuid values set db
  = match varcharNullable 50 (User.role (completeUser now i values)) with
    | Some v => Err (message v) db
    | None =>
        if existsb (fun u => User.id u =? i) (usersRows db)
        then update users (setUser set) (fun u => User.id u =? i) db
        else insert users [completeUser now i values] db
    end.
Proof.
  intro Hid. unfold insertUserOnConflictDoUpdate. rewrite Hid.
  unfold bind, ret, refuse, from. cbn [rows users].
  destruct (varcharNullable _ _); [reflexivity|].
  now destruct (existsb _ _).
Qed.

Lemma default_role_fits (role : option (option string)) :
  (forall r, role = Some (Some r) -> String.length r <= 50) ->
  varcharNullable 50 (orDefault role "employee") = None.
Proof.
  intro H. apply nullable_fits. intros s E.
  destruct role as [[r|]|]; cbn in E; try discriminate; injection E as <-.
  - now apply H.
  - simpl. lia.
Qed.

(** X23: a sign-in ([upsertUser]) that carries the user's id, an e-mail
    address no other user holds and, if any, a role of at most 50
    characters succeeds and stamps the login time.  A payload without a role
    key keeps the stored role of a known user and gives a new user the
    default 'employee'; a payload with a role key overwrites the role.
    [getUser] then returns the very row that was returned, and no row is
    added for a known id. *)
Theorem upsertUser_signs_in :
  forall (db : Db) (userData : UpsertUser.t) (i : string) (em : option string),
    UpsertUser.id userData = Some i ->
    UpsertUser.email userData = Some em ->
    emailTaken em i (usersRows db) = false ->
    (forall r, UpsertUser.role userData = Some (Some r) -> String.length r <= 50) ->
    exists u db',
      upsertUser now gen_random_uuid userData db = Ok (Some u) db' /\
      User.id u = i /\ User.email u = em /\ User.lastLoginAt u = Some now /\
      getUser i db' = Ok (Some u) db' /\
      User.role u
      = match UpsertUser.role userData with
        | Some r => r
        | None =>
            match first (filter (fun v => User.id v =? i) (usersRows db)) with
            | Some old => User.role old
            | None => Some "employee"
            end
        end /\
      map User.id (usersRows db')
      = map User.id (usersRows db)
        ++ (if existsb (fun v => User.id v =? i) (usersRows db) then [] else [i]).
Proof.
  intros db userData i em Hid Hem Hfree Hfits.
  unfold upsertUser, tryCatch, bind.
  rewrite (insertUserOnConflictDoUpdate_run _ _ i db)
    by (cbn; exact Hid).
  assert (Hnew : varcharNullable 50
                   (User.role (completeUser now i (withLastLoginAt now userData)))
                 = None) by (cbn; now apply default_role_fits).
  rewrite Hnew.
  rewrite existsb_first.
  destruct (first (filter (fun u => User.id u =? i) (usersRows db)))
    as [old|] eqn:Hold.
  - rewrite update_accepted.
    2:{ intros u _ _. cbn [violation users]. unfold userViolation. by_columns.
        - unfold checkColumn, written.
          cbn [setUser withUpdatedAt withLastLoginAt UpsertUser.role User.role].
          destruct (UpsertUser.role userData) as [[r|]|] eqn:Er; cbn [spread].
          + destruct (negb _); [|reflexivity]. now apply varchar_fits, Hfits.
          + now destruct (negb _).
          + now rewrite sameText_refl.
        - apply checkColumn_passes.
          cbn [setUser withUpdatedAt withLastLoginAt UpsertUser.email User.email
                 UpsertUser.id User.id].
          rewrite Hem, Hid. cbn [spread]. now rewrite Hfree. }
    cbn [rows setRows users setUsersRows].
    destruct (filter (fun u => User.id u =? i) (usersRows db)) as [|y rest] eqn:Hf;
      [discriminate|]. injection Hold as ->.
    assert (Hy : (User.id old =? i) = true).
    { assert (H : In old (filter (fun u => User.id u =? i) (usersRows db)))
        by (rewrite Hf; now left).
      now apply filter_In in H. }
    eexists _, _. split; [reflexivity|]. cbn [map first hd_error].
    split; [cbn; now rewrite Hid|]. split; [cbn; now rewrite Hem|].
    split; [reflexivity|]. split; [|split].
    + run_more.
      rewrite (first_filter_map_id
                 (fun r => if User.id r =? i
                           then setUser (withUpdatedAt now (withLastLoginAt now userData)) r
                           else r) i).
      * rewrite Hf. cbn [first hd_error option_map]. now rewrite Hy.
      * intro u. destruct (User.id u =? i) eqn:E; [|reflexivity].
        cbn. rewrite Hid. cbn. now apply String.eqb_eq in E.
    + cbn. now destruct (UpsertUser.role userData).
    + cbn [usersRows setUsersRows]. rewrite app_nil_r, map_map.
      apply map_ext. intro u. destruct (User.id u =? i) eqn:E; [|reflexivity].
      cbn. rewrite Hid. cbn. now apply String.eqb_eq in E.
  - assert (Eemail : User.email (completeUser now i (withLastLoginAt now userData))
                     = em) by (cbn; now rewrite Hem).
    rewrite insert_accepted.
    2:{ intros r [<-|[]]. cbn [violation users]. apply user_accepted.
        - intros r Hr. cbn in Hr.
          destruct (UpsertUser.role userData) as [[r'|]|] eqn:Er; cbn in Hr;
            try discriminate; injection Hr as <-; [now apply Hfits|simpl; lia].
        - now rewrite Eemail. }
    cbn [rows setRows users setUsersRows].
    eexists _, _. split; [reflexivity|].
    split; [reflexivity|]. split; [exact Eemail|]. split; [reflexivity|].
    split; [|split].
    + run_more. rewrite filter_append_fresh; [reflexivity| |apply String.eqb_refl].
      intros u Hu. now apply (first_filter_none _ _ Hold).
    + cbn. now destruct (UpsertUser.role userData) as [[r|]|].
    + cbn [usersRows setUsersRows]. now rewrite map_app.
Qed.

End Upsert.

(** ** Test users *)

Lemma emailTaken_false (e id : string) (us : list User.t) :
  emailTaken (Some e) id us = false <->
  (forall u, In u us -> User.id u <> id -> User.email u <> Some e).
Proof.
  unfold emailTaken. split.
  - intros H u Hu Hid He.
    assert (E : existsb (fun u => negb (User.id u =? id)
                                  && eqNullable (User.email u) e) us = true).
    { apply existsb_exists. exists u. split; [exact Hu|].
      apply String.eqb_neq in Hid. rewrite Hid, He. cbn. apply String.eqb_refl. }
    congruence.
  - intro H. apply existsb_none. intros u Hu.
    destruct (User.id u =? id) eqn:Hid; [reflexivity|]. cbn.
    apply String.eqb_neq in Hid. specialize (H u Hu Hid).
    destruct (User.email u) as [e'|]; [|reflexivity]. cbn.
    apply String.eqb_neq. congruence.
Qed.

Section TestUsers.
Variable now : Timestamp.
Variable gen_random_uuid : nat -> string.

Local Abbreviation shaped d id email role :=
  (UpsertUser.id d = Some id /\ UpsertUser.email d = Some (Some email) /\
   UpsertUser.role d = Some (Some role%string) /\
   String.length role%string <= 50).

Local Abbreviation holds id role us :=
  (In id (map User.id us) /\
   forall u, In u us -> User.id u = id -> User.role u = Some role).

(** One turn of the loop: the insert either fails and is skipped, or rewrites
    the rows of its id, or appends one row. *)
Lemma createEach_turn (d : UpsertUser.t) (j ej rj : string) (db : Db)
  (createdUsers : list User.t) :
  shaped d j ej rj ->
  exists created us',
    tryCatch
      (returned <- insertUserOnConflictDoUpdate now gen_random_uuid d
                     (withUpdatedAt now d) ;;
       match first returned with
       | Some user => ret (createdUsers ++ [user])
       | None => ret createdUsers
       end)
      (fun error => ret createdUsers) db
    = Ok created (setRows users us' db) /\
    length created <= S (length createdUsers) /\
    (forall k ek, k <> j -> ek <> ej ->
       emailTaken (Some ek) k (usersRows db) = false ->
       emailTaken (Some ek) k us' = false) /\
    (forall k rk, k <> j -> holds k rk (usersRows db) -> holds k rk us') /\
    (emailTaken (Some ej) j (usersRows db) = false -> holds j rj us').
Proof.
  intros [Hid [Hem [Hrole Hfits]]].
  unfold tryCatch, bind.
  rewrite (insertUserOnConflictDoUpdate_run now gen_random_uuid _ _ j db Hid).
  assert (Hsetid : forall u, User.id (setUser (withUpdatedAt now d) u) = j)
    by (intro u; cbn; now rewrite Hid).
  assert (Hsetem : forall u, User.email (setUser (withUpdatedAt now d) u) = Some ej)
    by (intro u; cbn; now rewrite Hem).
  assert (Hsetrole : forall u, User.role (setUser (withUpdatedAt now d) u) = Some rj)
    by (intro u; cbn; now rewrite Hrole).
  assert (Hnewem : User.email (completeUser now j d) = Some ej)
    by (cbn; now rewrite Hem).
  assert (Hnewrole : User.role (completeUser now j d) = Some rj)
    by (cbn; now rewrite Hrole).
  assert (Hkeep : exists created,
             Ok createdUsers db = Ok created (setRows users (usersRows db) db) /\
             length created <= S (length createdUsers)).
  { exists createdUsers. split; [now destruct db|lia]. }
  rewrite Hnewrole. cbn [varcharNullable]. rewrite (varchar_fits _ _ Hfits).
  destruct (existsb (fun u => User.id u =? j) (usersRows db)) eqn:Hstored.
  - (* a row of this id is stored *)
    destruct (update_cases users (setUser (withUpdatedAt now d))
                (fun u => User.id u =? j) db) as [E|[v E]]; rewrite E.
    + assert (Hrows : exists y rest,
                 filter (fun u => User.id u =? j) (usersRows db) = y :: rest).
      { rewrite existsb_first in Hstored.
        destruct (filter (fun u => User.id u =? j) (usersRows db)) as [|y rest];
          [discriminate|]. now exists y, rest. }
      destruct Hrows as [y [rest Hrows]]. cbn [rows users]. rewrite Hrows.
      cbn [map first hd_error ret].
      eexists _, _. split; [reflexivity|].
      * split; [rewrite length_app; cbn; lia|].
        split; [|split].
        { intros k ek Hk Hek Hfree. apply emailTaken_false.
          rewrite emailTaken_false in Hfree.
          intros u Hu Hidu Hemu. apply in_map_iff in Hu.
          destruct Hu as [v [<- Hv]].
          destruct (User.id v =? j) eqn:E'.
          - rewrite Hsetem in Hemu. congruence.
          - now apply (Hfree v Hv). }
        { intros k rk Hk [Hin Hall]. split.
          - apply in_map_iff in Hin. destruct Hin as [v [Hv Hin]].
            apply in_map_iff. eexists. split; [|apply in_map; exact Hin].
            cbn beta. destruct (User.id v =? j) eqn:E'; [|exact Hv].
            apply String.eqb_eq in E'. congruence.
          - intros u Hu Hidu. apply in_map_iff in Hu. destruct Hu as [v [<- Hv]].
            destruct (User.id v =? j) eqn:E'.
            + rewrite Hsetid in Hidu. congruence.
            + now apply Hall. }
        { intros _. split.
          - apply existsb_exists in Hstored. destruct Hstored as [v [Hv E']].
            apply in_map_iff. eexists. split; [|apply in_map; exact Hv].
            cbn beta. rewrite E'. apply Hsetid.
          - intros u Hu Hidu. apply in_map_iff in Hu. destruct Hu as [v [<- Hv]].
            destruct (User.id v =? j) eqn:E'; [apply Hsetrole|].
            apply String.eqb_neq in E'. contradiction. }
    + destruct Hkeep as [created [E' Hlen]]. exists created, (usersRows db).
      cbn [ret]. split; [exact E'|]. split; [exact Hlen|].
      split; [auto|]. split; [auto|].
      intro Hfree. exfalso.
      rewrite update_accepted in E; [discriminate|].
      intros u _ _. cbn [violation users]. apply user_accepted.
      * intros r Hr. rewrite Hsetrole in Hr. injection Hr as <-. exact Hfits.
      * now rewrite Hsetem, Hsetid.
  - (* no row of this id *)
    destruct (insert_cases users [completeUser now j d] db) as [E|[v E]]; rewrite E.
    + eexists _, _. split; [cbn [first hd_error ret]; reflexivity|].
      split; [rewrite length_app; cbn; lia|].
      cbn [rows users].
      split; [|split].
      { intros k ek Hk Hek Hfree. apply emailTaken_false.
        rewrite emailTaken_false in Hfree.
        intros u Hu Hidu Hemu. apply in_app_or in Hu. destruct Hu as [Hu|[<-|[]]].
        - now apply (Hfree u Hu).
        - rewrite Hnewem in Hemu. congruence. }
      { intros k rk Hk [Hin Hall]. split.
        - rewrite map_app. apply in_or_app. now left.
        - intros u Hu Hidu. apply in_app_or in Hu. destruct Hu as [Hu|[<-|[]]].
          + now apply Hall.
          + cbn in Hidu. congruence. }
      { intros _. split.
        - rewrite map_app. apply in_or_app. right. now left.
        - intros u Hu Hidu. apply in_app_or in Hu. destruct Hu as [Hu|[<-|[]]].
          + exfalso. assert (E' : (User.id u =? j) = false).
            { rewrite existsb_first in Hstored.
              destruct (first (filter (fun u => User.id u =? j) (usersRows db)))
                eqn:Hf; [discriminate|].
              now apply (first_filter_none _ _ Hf). }
            apply String.eqb_neq in E'. contradiction.
          + exact Hnewrole. }
    + destruct Hkeep as [created [E' Hlen]]. exists created, (usersRows db).
      cbn [ret]. split; [exact E'|]. split; [exact Hlen|].
      split; [auto|]. split; [auto|].
      intro Hfree. exfalso.
      rewrite insert_accepted in E; [discriminate|].
      intros r [<-|[]]. cbn [violation users]. apply user_accepted.
      * intros r Hr. rewrite Hnewrole in Hr. injection Hr as <-. exact Hfits.
      * now rewrite Hnewem.
Qed.

Lemma createEach_total (data : list UpsertUser.t) :
  (forall d, In d data -> exists j ej rj, shaped d j ej rj) ->
  forall db createdUsers,
  exists l us',
    createEach now gen_random_uuid data createdUsers db
    = Ok l (setRows users us' db) /\
    length l <= length createdUsers + length data.
Proof.
  induction data as [|d data IH]; intros Hshape db acc.
  - exists acc, (usersRows db). cbn. split; [now destruct db|lia].
  - destruct (Hshape d (or_introl eq_refl)) as [j [ej [rj Hd]]].
    destruct (createEach_turn d j ej rj db acc Hd) as [acc1 [us1 [E [Hlen _]]]].
    destruct (IH (fun d' H => Hshape d' (or_intror H)) (setRows users us1 db) acc1)
      as [l [us' [E' Hlen']]].
    exists l, us'. cbn [createEach]. unfold bind at 1. rewrite E.
    split; [exact E'|]. cbn [length]. lia.
Qed.

Lemma createEach_keeps (data : list UpsertUser.t) (k rk : string) :
  (forall d, In d data -> exists j ej rj, shaped d j ej rj /\ j <> k) ->
  forall db createdUsers,
  holds k rk (usersRows db) ->
  exists l us',
    createEach now gen_random_uuid data createdUsers db
    = Ok l (setRows users us' db) /\
    holds k rk us'.
Proof.
  induction data as [|d data IH]; intros Hshape db acc Hk.
  - exists acc, (usersRows db). cbn. split; [now destruct db|exact Hk].
  - destruct (Hshape d (or_introl eq_refl)) as [j [ej [rj [Hd Hj]]]].
    destruct (createEach_turn d j ej rj db acc Hd)
      as [acc1 [us1 [E [_ [_ [Hkeep _]]]]]].
    destruct (IH (fun d' H => Hshape d' (or_intror H)) (setRows users us1 db) acc1)
      as [l [us' [E' Hk']]].
    { apply (Hkeep k rk); [congruence|exact Hk]. }
    exists l, us'. cbn [createEach]. unfold bind at 1. rewrite E.
    split; [exact E'|exact Hk'].
Qed.

Lemma createEach_sets (before : list UpsertUser.t) (d : UpsertUser.t)
  (after : list UpsertUser.t) (k ek rk : string) :
  (forall d', In d' before ->
     exists j ej rj, shaped d' j ej rj /\ j <> k /\ ej <> ek) ->
  shaped d k ek rk ->
  (forall d', In d' after -> exists j ej rj, shaped d' j ej rj /\ j <> k) ->
  forall db createdUsers,
  emailTaken (Some ek) k (usersRows db) = false ->
  exists l us',
    createEach now gen_random_uuid (before ++ d :: after) createdUsers db
    = Ok l (setRows users us' db) /\
    holds k rk us'.
Proof.
  intros Hbefore Hd Hafter.
  induction before as [|a before IH]; intros db acc Hfree.
  - destruct (createEach_turn d k ek rk db acc Hd)
      as [acc1 [us1 [E [_ [_ [_ Hset]]]]]].
    destruct (createEach_keeps after k rk Hafter (setRows users us1 db) acc1
                (Hset Hfree)) as [l [us' [E' Hk]]].
    exists l, us'. cbn [app createEach]. unfold bind at 1. rewrite E.
    split; [exact E'|exact Hk].
  - destruct (Hbefore a (or_introl eq_refl)) as [j [ej [rj [Ha [Hj Hej]]]]].
    destruct (createEach_turn a j ej rj db acc Ha)
      as [acc1 [us1 [E [_ [Hfree' _]]]]].
    destruct (IH (fun d' H => Hbefore d' (or_intror H)) (setRows users us1 db) acc1)
      as [l [us' [E' Hk]]].
    { apply (Hfree' k ek); [congruence|congruence|exact Hfree]. }
    exists l, us'. cbn [app createEach]. unfold bind at 1. rewrite E.
    split; [exact E'|exact Hk].
Qed.

(** X24: [createTestUsers] never throws, returns at most five users and
    touches the users table only.  For each of the five test users whose
    address no user of another id holds, the stored role afterwards is the
    test role, whatever it was before and whether or not the insert of
    another test user failed. *)
Theorem createTestUsers_restores_roles :
  forall (db : Db),
    exists l db',
      createTestUsers now gen_random_uuid db = Ok l db' /\
      length l <= 5 /\
      setRows users (usersRows db) db' = db /\
      forall d id email role,
        In d testUsersData ->
        UpsertUser.id d = Some id ->
        UpsertUser.email d = Some (Some email) ->
        UpsertUser.role d = Some (Some role) ->
        emailTaken (Some email) id (usersRows db) = false ->
        storedRole id db' = Some role /\ resolvedRole id db' = role.
Proof.
  intro db. unfold createTestUsers.
  assert (Hshape : forall d, In d testUsersData -> exists j ej rj, shaped d j ej rj).
  { intros d Hd. cbn in Hd.
    repeat destruct Hd as [<-|Hd]; try contradiction;
      do 3 eexists; repeat split; try reflexivity; simpl; lia. }
  destruct (createEach_total testUsersData Hshape db []) as [l [us' [E Hlen]]].
  exists l, (setRows users us' db). split; [exact E|].
  split; [exact Hlen|]. split; [now destruct db|].
  intros d id email role Hd Hid Hem Hrole Hfree.
  assert (Hplace : exists n,
             nth_error testUsersData n = Some d /\ (role =? "") = false /\
             String.length role <= 50).
  { cbn in Hd. destruct Hd as [<-|[<-|[<-|[<-|[<-|[]]]]]];
      injection Hrole as <-;
      [exists 0|exists 1|exists 2|exists 3|exists 4];
      (split; [reflexivity|split; [reflexivity|simpl; lia]]). }
  destruct Hplace as [n [Hn [Hrole' Hfits]]].
  assert (Hsplit : testUsersData
                   = firstn n testUsersData ++ d :: skipn (S n) testUsersData).
  { do 5 (destruct n as [|n]; [injection Hn as <-; reflexivity|]).
    destruct n; discriminate. }
  assert (Hothers : forall d' m, nth_error testUsersData m = Some d' -> m <> n ->
                      exists j ej rj, shaped d' j ej rj /\ j <> id /\ ej <> email).
  { intros d' m Hm Hmn.
    do 5 (destruct n as [|n];
          [injection Hn as <-; cbn in Hid, Hem; injection Hid as <-; injection Hem as <-;
           do 5 (destruct m as [|m];
                 [first [now elim Hmn
                        | injection Hm as <-; do 3 eexists;
                          repeat split; try reflexivity; try discriminate;
                          simpl; lia]|]);
           destruct m; discriminate|]).
    destruct n; discriminate. }
  assert (Hbefore : forall d', In d' (firstn n testUsersData) ->
                      exists j ej rj, shaped d' j ej rj /\ j <> id /\ ej <> email).
  { intros d' Hd'. apply In_nth_error in Hd'. destruct Hd' as [m Hm].
    assert (Hlt : m < n).
    { assert (H : nth_error (firstn n testUsersData) m <> None) by congruence.
      apply nth_error_Some in H. rewrite length_firstn in H. lia. }
    apply (Hothers d' m); [|lia].
    now rewrite nth_error_firstn, (proj2 (Nat.ltb_lt m n) Hlt) in Hm. }
  assert (Hafter : forall d', In d' (skipn (S n) testUsersData) ->
                     exists j ej rj, shaped d' j ej rj /\ j <> id).
  { intros d' Hd'. apply In_nth_error in Hd'. destruct Hd' as [m Hm].
    rewrite nth_error_skipn in Hm.
    destruct (Hothers d' (S n + m) Hm) as [j [ej [rj [Hs [Hj _]]]]]; [lia|].
    exists j, ej, rj. split; [exact Hs|exact Hj]. }
  destruct (createEach_sets (firstn n testUsersData) d (skipn (S n) testUsersData)
              id email role Hbefore (conj Hid (conj Hem (conj Hrole Hfits)))
              Hafter db [] Hfree)
    as [l' [us'' [E' [Hin Hall]]]].
  rewrite <- Hsplit, E in E'. injection E' as _ Hus.
  subst us''.
  apply in_map_iff in Hin. destruct Hin as [u [Hu Hin]].
  destruct (first_filter_some (fun v => User.id v =? id) us' u Hin)
    as [y [Ey [Hy Hk]]]; [subst; apply String.eqb_refl|].
  apply String.eqb_eq in Hk.
  unfold storedRole, resolvedRole, roleOrEmployee.
  cbn [setRows users usersRows setUsersRows]. rewrite Ey, (Hall y Hy Hk).
  split; [reflexivity|]. cbn [orElse]. now rewrite Hrole'.
Qed.

End TestUsers.

Lemma upsertUser_signs_in_witness :
  exists u db',
    upsertUser now0 uuid0
      (UpsertUser.mk (Some "mgr-1") (Some (Some "mara@example.org")) None None None
         None None None None None) db0 = Ok (Some u) db' /\
    User.role u = Some "manager" /\
    length (usersRows db') = length (usersRows db0).
Proof.
  destruct (upsertUser_signs_in now0 uuid0 db0
              (UpsertUser.mk (Some "mgr-1") (Some (Some "mara@example.org")) None
                 None None None None None None None)
              "mgr-1" (Some "mara@example.org") eq_refl eq_refl eq_refl)
    as [u [db' [E [_ [_ [_ [_ [Hrole Hids]]]]]]]]; [intros r Hr; discriminate|].
  exists u, db'. split; [exact E|]. split; [exact Hrole|].
  rewrite <- (length_map User.id (usersRows db')), Hids. reflexivity.
Defined.

Lemma createTestUsers_restores_roles_witness :
  exists l db',
    createTestUsers now0 uuid0
      (setRows users
         (sampleUsers ++
          [User.mk "squatter" (Some "admin@timetracker.test") None None None
             (Some "employee") (Some true) None None None;
           User.mk "test-manager-001" None None None None (Some "employee")
             (Some true) None None None]) db0) = Ok l db' /\
    map User.id l
    = ["test-manager-001"; "test-pm-001"; "test-employee-001"; "test-viewer-001"] /\
    resolvedRole "test-manager-001" db' = "manager" /\
    resolvedRole "test-admin-001" db' = "employee".
Proof.
  match goal with
  | |- exists l db', createTestUsers _ _ ?d = _ /\ _ =>
      destruct (createTestUsers_restores_roles now0 uuid0 d) as [l [db' [E [_ [_ H]]]]]
  end.
  exists l, db'. split; [exact E|].
  destruct (H (testUser "test-manager-001" "manager@timetracker.test" "Department"
                 "Manager" "manager")
              "test-manager-001" "manager@timetracker.test" "manager")
    as [_ Hm]; try reflexivity; [cbn; tauto|].
  vm_compute in E. injection E as <- <-.
  split; [reflexivity|]. split; reflexivity.
Defined.

(** ** Departments and organizations *)

Lemma first_leftJoin {A B} (on : A -> B -> bool) (a : A) (l : list A)
  (r : list B) :
  first (leftJoin on (a :: l) r) = Some (a, first (filter (on a) r)).
Proof.
  unfold leftJoin. cbn [flat_map].
  destruct (filter (on a) r) as [|b bs]; reflexivity.
Qed.

Lemma departmentsJoined_filter (f : Department.t -> bool) (ds : list Department.t)
  (es : list Employee.t) (os : list Organization.t) :
  filter (fun row => f (fst (fst row))) (departmentsJoined ds es os)
  = departmentsJoined (filter f ds) es os.
Proof.
  unfold departmentsJoined.
  rewrite (leftJoin_filter_left _ f).
  symmetry.
  apply (leftJoin_filter_left _
           (fun de : Department.t * option Employee.t => f (fst de))).
Qed.

Lemma first_departmentsJoined (d : Department.t) (ds : list Department.t)
  (es : list Employee.t) (os : list Organization.t) :
  first (departmentsJoined (d :: ds) es os)
  = Some (d,
          first (filter (fun e => eqNullable (Department.managerId d)
                                    (Employee.id e)) es),
          first (filter (fun o => Department.organizationId d =? Organization.id o)
                   os)).
Proof.
  unfold departmentsJoined.
  destruct (leftJoin _ (d :: ds) es) as [|x xs] eqn:E.
  - pose proof (first_leftJoin
                  (fun d e => eqNullable (Department.managerId d) (Employee.id e))
                  d ds es) as H.
    rewrite E in H. discriminate.
  - pose proof (first_leftJoin
                  (fun d e => eqNullable (Department.managerId d) (Employee.id e))
                  d ds es) as H.
    rewrite E in H. injection H as ->. now rewrite first_leftJoin.
Qed.

Lemma in_departmentsJoined (ds : list Department.t) (es : list Employee.t)
  (os : list Organization.t)
  (row : Department.t * option Employee.t * option Organization.t) :
  In row (departmentsJoined ds es os) -> In (fst (fst row)) ds.
Proof.
  destruct row as [[d e] o]. unfold departmentsJoined. intro H.
  apply in_leftJoin_left in H. now apply in_leftJoin_left in H.
Qed.

Lemma departmentsJoined_covers (ds : list Department.t) (es : list Employee.t)
  (os : list Organization.t) (d : Department.t) :
  In d ds -> exists e o, In (d, e, o) (departmentsJoined ds es os).
Proof.
  intro Hd. unfold departmentsJoined.
  destruct (leftJoin_covers
              (fun d e => eqNullable (Department.managerId d) (Employee.id e))
              ds es d Hd) as [e He].
  destruct (leftJoin_covers
              (fun de o => Department.organizationId (fst de) =? Organization.id o)
              _ os (d, e) He) as [o Ho].
  now exists e, o.
Qed.

Lemma manager_accepted (db : Db) (at_ : Timestamp) (managerId : option string)
  (d : Department.t) :
  (forall m, managerId = Some m -> stored employees m db) ->
  departmentViolation db (Some d) (setManager at_ managerId d) = None.
Proof.
  intro Hm. unfold departmentViolation. by_columns.
  - apply checkColumn_unwritten. apply String.eqb_refl.
  - apply checkColumn_passes. now apply nullable_stored.
  - apply checkColumn_unwritten. apply String.eqb_refl.
Qed.

Lemma manager_refused (db : Db) (at_ : Timestamp) (m : string) (d : Department.t) :
  ~ stored employees m db -> Department.managerId d <> Some m ->
  departmentViolation db (Some d) (setManager at_ (Some m) d)
  = Some (ForeignKey "departments" "departments_manager_id_employees_id_fk").
Proof.
  intros Hm Hother. unfold departmentViolation, checkColumn, written.
  cbn [setManager Department.organizationId Department.managerId
         Department.userId firstViolation].
  rewrite String.eqb_refl. cbn [negb].
  assert (Hdiffers : sameText (Department.managerId d) (Some m) = false).
  { destruct (sameText _ _) eqn:E; [|reflexivity].
    apply sameText_eq in E. contradiction. }
  rewrite Hdiffers. cbn [negb referencesNullable].
  now rewrite references_missing.
Qed.

Section Departments.
Variable now : Timestamp.

(** X25: [assignManagerToDepartment] checks no role.  On a stored department
    it records a manager id that is null or that of a stored employee, and
    [getDepartment] then shows that employee as manager, or null when null
    was recorded.  An id that no employee has is refused by the engine: the
    call throws and nothing changes. *)
Theorem assignManager_then_getDepartment :
  forall (db : Db) (departmentId : string) (managerId : option string)
         (userId : string),
    In departmentId (map Department.id (departmentsRows db)) ->
    ((forall m, managerId = Some m -> stored employees m db) ->
     exists db' dw,
       assignManagerToDepartment now departmentId managerId userId db = Ok tt db' /\
       getDepartment departmentId db' = Ok (Some dw) db' /\
       Department.id (DepartmentWithManager.department dw) = departmentId /\
       Department.managerId (DepartmentWithManager.department dw) = managerId /\
       DepartmentWithManager.manager dw
       = managerOrNull
           (first (filter (fun e => eqNullable managerId (Employee.id e))
                     (employeesRows db))) /\
       (managerId = None -> DepartmentWithManager.manager dw = None) /\
       (forall m, managerId = Some m -> m <> "" ->
          exists e, DepartmentWithManager.manager dw = Some e /\
                    Employee.id e = m /\ In e (employeesRows db))) /\
    (forall m, managerId = Some m -> ~ stored employees m db ->
       (forall d, In d (departmentsRows db) -> Department.managerId d <> Some m) ->
       assignManagerToDepartment now departmentId managerId userId db
       = Err (message (ForeignKey "departments"
                         "departments_manager_id_employees_id_fk")) db).
Proof.
  intros db departmentId managerId userId Hin.
  apply in_map_iff in Hin. destruct Hin as [d0 [Hid Hd0]].
  destruct (first_filter_some (fun d => Department.id d =? departmentId)
              (departmentsRows db) d0 Hd0) as [y [E [Hy Hk]]];
    [subst; apply String.eqb_refl|].
  split.
  - intro Hstored.
    run_more. accepted_update manager_accepted Hstored.
    eexists _, _. split; [reflexivity|]. run_more.
    rewrite (departmentsJoined_filter (fun d => Department.id d =? departmentId)).
    assert (Hrows : exists rest,
               filter (fun d => Department.id d =? departmentId)
                 (map (fun r => if Department.id r =? departmentId
                                then setManager now managerId r else r)
                    (departmentsRows db))
               = setManager now managerId y :: rest).
    { clear Hd0 Hid d0 Hy Hk. revert E.
      induction (departmentsRows db) as [|d ds IH]; [discriminate|].
      cbn [filter map]. destruct (Department.id d =? departmentId) eqn:Hd.
      - intro E. injection E as ->. cbn. rewrite Hd. eexists. reflexivity.
      - rewrite Hd. exact IH. }
    destruct Hrows as [rest Hrows]. rewrite Hrows, first_departmentsJoined.
    cbv beta iota. cbn [toDepartmentWithManager fst snd
      DepartmentWithManager.department DepartmentWithManager.manager
      setManager Department.id Department.managerId].
    split; [reflexivity|]. split; [now apply String.eqb_eq|].
    split; [reflexivity|]. split; [reflexivity|]. split.
    + intros ->. cbn [toDepartmentWithManager fst snd DepartmentWithManager.manager].
      rewrite filter_none; [reflexivity|]. reflexivity.
    + intros m -> Hm.
      specialize (Hstored m eq_refl). apply in_map_iff in Hstored.
      destruct Hstored as [e0 [He0 Hin0]]. cbn [key employees] in He0.
      destruct (first_filter_some (fun e => eqNullable (Some m) (Employee.id e))
                  (employeesRows db) e0 Hin0) as [e [Ee [He Hme]]].
      { cbn. rewrite He0. apply String.eqb_refl. }
      unfold eqNullable in Hme. apply String.eqb_eq in Hme.
      exists e. cbn [toDepartmentWithManager fst snd DepartmentWithManager.manager].
      rewrite Ee. cbn [managerOrNull].
      assert (Hne : (Employee.id e =? "") = false)
        by (apply String.eqb_neq; congruence).
      rewrite Hne. split; [reflexivity|]. split; [now symmetry|exact He].
  - intros m -> Hmissing Hnone.
    unfold assignManagerToDepartment, bind, update, refuse.
    rewrite (firstViolation_all _ _ y
               (ForeignKey "departments" "departments_manager_id_employees_id_fk"));
      [reflexivity| |].
    + apply filter_In. split; assumption.
    + intros d Hd. apply filter_In in Hd. destruct Hd as [Hd _].
      cbn [violation departments]. apply manager_refused; [exact Hmissing|].
      now apply Hnone.
Qed.

End Departments.

(** X26: [getOrganization] answers undefined exactly when the id is not
    stored; otherwise it returns an organization of that id together with
    rows for exactly the stored departments whose organizationId is that id.
    The store is only read. *)
Theorem getOrganization_lists_its_departments :
  forall (db : Db) (id : string),
    exists result,
      getOrganization id db = Ok result db /\
      (result = None <-> ~ In id (map Organization.id (organizationsRows db))) /\
      (forall ow, result = Some ow ->
         Organization.id (OrganizationWithDepartments.organization ow) = id /\
         In (OrganizationWithDepartments.organization ow) (organizationsRows db) /\
         (forall d,
            In d (map DepartmentWithManager.department
                    (OrganizationWithDepartments.departments ow))
            <-> In d (departmentsRows db) /\ Department.organizationId d = id)).
Proof.
  intros db id. run_more.
  destruct (filter (fun o => Organization.id o =? id) (organizationsRows db))
    as [|org rest] eqn:E.
  - exists None. cbn. split; [reflexivity|]. split; [|discriminate].
    split; [intros _ Hin|reflexivity].
    apply in_map_iff in Hin. destruct Hin as [o [Hid Ho]].
    assert (Hf : In o (filter (fun o => Organization.id o =? id)
                         (organizationsRows db))).
    { apply filter_In. split; [exact Ho|]. subst. apply String.eqb_refl. }
    rewrite E in Hf. contradiction.
  - assert (Horg : In org (filter (fun o => Organization.id o =? id)
                             (organizationsRows db))) by (rewrite E; now left).
    apply filter_In in Horg. destruct Horg as [Horg Hid].
    apply String.eqb_eq in Hid.
    cbn [first hd_error]. cbv beta iota.
    eexists. split; [reflexivity|]. split.
    + split; [discriminate|]. intro Hnot. elim Hnot. rewrite <- Hid.
      now apply in_map.
    + intros ow Hw. injection Hw as <-.
      cbn [OrganizationWithDepartments.organization
           OrganizationWithDepartments.departments].
      split; [exact Hid|]. split; [exact Horg|].
      intro d. rewrite map_map, in_map_iff. split.
      * intros [row [<- Hrow]]. apply orderBy_In in Hrow.
        apply filter_In in Hrow. destruct Hrow as [Hj Hc].
        apply in_departmentsJoined in Hj. cbn.
        split; [exact Hj|now apply String.eqb_eq].
      * intros [Hd Ho].
        destruct (departmentsJoined_covers (departmentsRows db) (employeesRows db)
                    (organizationsRows db) d Hd) as [e [o Hrow]].
        exists (d, e, o). split; [reflexivity|].
        apply orderBy_In, filter_In. split; [exact Hrow|].
        cbn. rewrite Ho. apply String.eqb_refl.
Qed.

(** X27: [getTimeEntriesForProject] takes no caller and applies no scope: it
    returns a row for every stored time entry of the project, whoever owns
    it, and only for those; the owner is shown with a user record exactly
    when a user of that id is stored. *)
Theorem getTimeEntriesForProject_is_unscoped :
  forall (db : Db) (projectId : string),
    exists l,
      getTimeEntriesForProject projectId db = Ok l db /\
      (forall e, In e (timeEntriesRows db) ->
                 TimeEntry.projectId e = projectId ->
                 exists r, In r l /\ ProjectTimeEntry.id r = TimeEntry.id e /\
                           ProjectTimeEntry.userId r = TimeEntry.userId e /\
                           ProjectTimeEntry.duration r = TimeEntry.duration e) /\
      (forall r, In r l ->
         (exists e, In e (timeEntriesRows db) /\
                    TimeEntry.projectId e = projectId /\
                    ProjectTimeEntry.id r = TimeEntry.id e /\
                    ProjectTimeEntry.userId r = TimeEntry.userId e) /\
         (ProjectTimeEntry.employee r = None <->
          ~ In (ProjectTimeEntry.userId r) (map User.id (usersRows db)))).
Proof.
  intros db projectId. run_more. eexists. split; [reflexivity|]. split.
  - intros e He Hp.
    destruct (leftJoin_covers (fun e u => TimeEntry.userId e =? User.id u)
                (timeEntriesRows db) (usersRows db) e He) as [u Hu].
    destruct (leftJoin_covers
                (fun eu t => eqNullable (TimeEntry.taskId (fst eu)) (Task.id t))
                _ (tasksRows db) (e, u) Hu) as [t Ht].
    exists (toProjectTimeEntry (e, u, t)). split; [|repeat split].
    apply in_map, orderBy_In, filter_In. split; [exact Ht|].
    cbn. rewrite Hp. apply String.eqb_refl.
  - intros r Hr. apply in_map_iff in Hr. destruct Hr as [[[e u] t] [<- Hrow]].
    apply orderBy_In in Hrow. apply filter_In in Hrow. destruct Hrow as [Hj Hc].
    cbn in Hc. apply String.eqb_eq in Hc.
    apply in_leftJoin_left in Hj.
    split.
    + exists e. apply in_leftJoin_left in Hj. repeat split; assumption.
    + cbn [toProjectTimeEntry fst snd ProjectTimeEntry.employee
           ProjectTimeEntry.userId].
      destruct u as [u|].
      * apply in_leftJoin_right in Hj. destruct Hj as [Hu Hon].
        apply String.eqb_eq in Hon. split; [discriminate|].
        intro Hnot. elim Hnot. rewrite Hon. now apply in_map.
      * split; [intros _|reflexivity].
        intro Hin. apply in_map_iff in Hin. destruct Hin as [u [Hid Hu]].
        unfold leftJoin in Hj. apply in_flat_map in Hj.
        destruct Hj as [e' [He' Hrow]].
        destruct (filter (fun u0 => TimeEntry.userId e' =? User.id u0) (usersRows db))
          as [|x xs] eqn:Ef.
        -- destruct Hrow as [Eq|[]]. injection Eq as ->.
           assert (Hf : In u (filter (fun u0 => TimeEntry.userId e =? User.id u0)
                                (usersRows db))).
           { apply filter_In. split; [exact Hu|]. rewrite Hid.
             apply String.eqb_refl. }
           rewrite Ef in Hf. contradiction.
        -- apply in_map_iff in Hrow. destruct Hrow as [b [Eq _]]. discriminate.
Qed.

Lemma assignManager_then_getDepartment_witness :
  (exists db' dw,
     assignManagerToDepartment now0 "dep-1" (Some "emp-3") "viewer-1" db0
     = Ok tt db' /\
     getDepartment "dep-1" db' = Ok (Some dw) db' /\
     Department.managerId (DepartmentWithManager.department dw) = Some "emp-3" /\
     option_map Employee.lastName (DepartmentWithManager.manager dw) = Some "Kim") /\
  exists m,
    assignManagerToDepartment now0 "dep-1" (Some "emp-gone") "viewer-1" db0
    = Err m db0.
Proof.
  assert (Hdep : In "dep-1" (map Department.id (departmentsRows db0)))
    by (vm_compute; tauto).
  split.
  - destruct (assignManager_then_getDepartment now0 db0 "dep-1" (Some "emp-3")
                "viewer-1" Hdep) as [H _].
    destruct H as [db' [dw [E [Hg [_ [Hm [Hshown _]]]]]]].
    + intros m Hm. injection Hm as <-. unfold stored. cbn. tauto.
    + exists db', dw. split; [exact E|]. split; [exact Hg|]. split; [exact Hm|].
      rewrite Hshown. reflexivity.
  - destruct (assignManager_then_getDepartment now0 db0 "dep-1" (Some "emp-gone")
                "viewer-1" Hdep) as [_ H].
    eexists. apply (H "emp-gone" eq_refl).
    + unfold stored. cbn. intuition discriminate.
    + intros d [<-|[]]. discriminate.
Defined.

(** ** What a patch may change *)

Section Patches.
Variable now : Timestamp.


(** X29: the enterprise-wide flag written by an update decides what
    [getEmployeeProjects] lists.  After an administrator or project manager
    sets it to false on a stored project, with a patch the schema accepts,
    no reader is listed a project of that id; after setting it to true,
    every reader is. *)
Theorem updateProject_flag_controls_listing :
  forall (db : Db) (id : string) (project : PartialInsertProject.t)
         (userId reader : string) (wide : bool),
    mayManageProjects userId db = true ->
    In id (map Project.id (projectsRows db)) ->
    PartialInsertProject.isEnterpriseWide project = Some wide ->
    validProjectPatch project db ->
    exists p db' l,
      updateProject now id project userId db = Ok (Some p) db' /\
      Project.isEnterpriseWide p = wide /\
      getEmployeeProjects reader db' = Ok l db' /\
      (In id (map Project.id l) <-> wide = true).
Proof.
  intros db id project userId reader wide Hrole Hin Hflag Hvalid.
  unfold mayManageProjects, resolvedRole in Hrole.
  apply in_map_iff in Hin. destruct Hin as [p0 [Hid Hp0]].
  destruct (first_filter_some (fun p => Project.id p =? id) (projectsRows db) p0 Hp0)
    as [y [Ey [Hy Hk]]]; [subst; apply String.eqb_refl|].
  assert (Hset : forall x, Project.isEnterpriseWide (setProject project now x) = wide
                           /\ Project.id (setProject project now x) = Project.id x).
  { intro x. cbn. now rewrite Hflag. }
  run_more. rewrite Hrole. cbn [negb]. cbv beta iota.
  accepted_update projectPatch_accepted Hvalid.
  destruct (filter (fun p => Project.id p =? id) (projectsRows db)) as [|z rest] eqn:Ef;
    [discriminate|]. injection Ey as ->. cbn [map first hd_error].
  eexists _, _, _. split; [reflexivity|]. split; [apply Hset|].
  run_more. split; [reflexivity|].
  rewrite in_map_iff. split.
  - intros [q [Hq Hl]]. apply orderBy_In in Hl. apply filter_In in Hl.
    destruct Hl as [Hl Hw]. apply in_map_iff in Hl. destruct Hl as [r [<- Hr]].
    destruct (Project.id r =? id) eqn:Er.
    + rewrite (proj1 (Hset r)) in Hw. now destruct wide.
    + apply String.eqb_neq in Er. contradiction.
  - intros ->. exists (setProject project now y). split.
    + rewrite (proj2 (Hset y)). now apply String.eqb_eq.
    + apply orderBy_In, filter_In. split.
      * apply in_map_iff. exists y. split; [now rewrite Hk|exact Hy].
      * now rewrite (proj1 (Hset y)).
Qed.

End Patches.

(** X30: [getTasks] and [getEmployee] resolve the caller's role and then do
    not use it: the tasks of a project and the employee of an id are returned
    alike to any two user ids, stored or not, and a stored employee id is
    always answered. *)
Theorem task_and_employee_reads_ignore_caller :
  forall (db : Db) (u1 u2 : string),
    (forall projectId, getTasks projectId u1 db = getTasks projectId u2 db) /\
    (forall id, getEmployee id u1 db = getEmployee id u2 db) /\
    (forall e, In e (employeesRows db) ->
       exists e', getEmployee (Employee.id e) u1 db = Ok (Some e') db /\
                  Employee.id e' = Employee.id e) /\
    (forall projectId t, In t (tasksRows db) -> Task.projectId t = projectId ->
       exists l, getTasks projectId u1 db = Ok l db /\ In t l).
Proof.
  intros db u1 u2. split; [reflexivity|]. split; [|split].
  - intro id. run_more.
    repeat match goal with
      | |- context [if ?c then _ else _] => destruct c
      end; reflexivity.
  - intros e He. run_more.
    assert (Hc : forall x, and_ [fun e0 => Employee.id e0 =? Employee.id e] x
                           = (Employee.id x =? Employee.id e)).
    { intro x. unfold and_. cbn. apply andb_true_r. }
    destruct (first_filter_some (and_ [fun e0 => Employee.id e0 =? Employee.id e])
                (employeesRows db) e He) as [y [Ey [_ Hy]]];
      [rewrite Hc; apply String.eqb_refl|].
    rewrite Hc in Hy. apply String.eqb_eq in Hy.
    destruct (negb _); rewrite Ey; exists y; split; auto.
  - intros projectId t Ht Hp. run_more. eexists. split; [reflexivity|].
    apply orderBy_In, filter_In. split; [exact Ht|].
    rewrite Hp. apply String.eqb_refl.
Qed.



Lemma flagPatch_valid :
  validProjectPatch
    (PartialInsertProject.mk None None None None None None (Some false) None) db0.
Proof.
  unfold validProjectPatch. cbn. repeat split; intros s Hs; discriminate.
Defined.

Lemma updateProject_flag_controls_listing_witness :
  exists p db' l,
    updateProject now0 "p-wide"
      (PartialInsertProject.mk None None None None None None (Some false) None)
      "pm-1" db0 = Ok (Some p) db' /\
    getEmployeeProjects "u1" db' = Ok l db' /\
    ~ In "p-wide" (map Project.id l).
Proof.
  destruct (updateProject_flag_controls_listing now0 db0 "p-wide"
              (PartialInsertProject.mk None None None None None None (Some false)
                 None)
              "pm-1" "u1" false eq_refl)
    as [p [db' [l [E [_ [Hl Hiff]]]]]];
    [vm_compute; tauto|reflexivity|exact flagPatch_valid|].
  exists p, db', l. split; [exact E|]. split; [exact Hl|].
  intro Hin. apply Hiff in Hin. discriminate.
Defined.

